(** * Assemblyline UI: the ingest admission pipeline and the live-status
      queue protocol

    A shallow embedding of

    - [src/al_ui/api/tbd/live.py]: [get_message], [get_messages],
      [outstanding_services], [setup_watch_queue];
    - [src/assemblyline_ui/api/v4/ingest.py]: [ingest_single_file].

    Python objects are modelled by the type [value] of JSON data (floating
    point numbers are left out), dictionaries by [gmap string value].
    Exceptions and early [return]s are explicit results.  The collaborators
    the endpoints call but do not define (the file store, the datastore, the
    URL fetcher, the CaRT decoder, the identifier generator, ...) are
    parameters: pure ones are section variables, the ones that may fail are
    fields of an oracle record. *)

From stdpp Require Import base gmap sets list strings pretty.
From Stdlib Require Import ZArith Lia.

#[local] Set Warnings "-register-all".

(** ** Python values *)

Inductive value :=
| VNone
| VBool (b : bool)
| VInt (z : Z)
| VStr (s : string)
| VList (l : list value)
| VDict (d : gmap string value).

Abbreviation dict := (gmap string value).

Inductive exn :=
| TypeError
| AttributeError
| KeyError (k : string)
| ValueError (msg : string)
| BadRequestKeyError (k : string)
| FileTooBigException
| InvalidUrlException
| ForbiddenLocation
| OtherError (msg : string).

(** What [make_api_response(data, err, status_code)] is given. *)
Record api_response := make_api_response {
  api_response_data : value;
  api_error_message : string;
  api_status_code : Z
}.

(** The three ways a block of an endpoint ends: it falls through with a
    value, it executes [return make_api_response(...)], or it raises. *)
Inductive flow (A : Type) :=
| Next (a : A)
| Respond (r : api_response)
| Throw (e : exn).
Arguments Next {A} a.
Arguments Respond {A} r.
Arguments Throw {A} e.

Definition flow_bind {A B} (c : flow A) (k : A → flow B) : flow B :=
  match c with
  | Next a => k a
  | Respond r => Respond r
  | Throw e => Throw e
  end.

(** The result of a library function: it raises or it returns. *)
Definition returned {A} (r : exn + A) : flow A :=
  match r with
  | inl e => Throw e
  | inr a => Next a
  end.

Declare Scope flow_scope.
Delimit Scope flow_scope with flow.
Notation "x <~ c ;; k" := (flow_bind c (λ x, k))
  (at level 20, c at level 99, k at level 200, only parsing) : flow_scope.

Module Py.

(** [bool(v)] *)
Definition truthy (v : value) : bool :=
  match v with
  | VNone => false
  | VBool b => b
  | VInt z => negb (z =? 0)%Z
  | VStr s => match s with EmptyString => false | String _ _ => true end
  | VList l => match l with [] => false | _ :: _ => true end
  | VDict d => match map_to_list d with [] => false | _ :: _ => true end
  end.

(** [a or b], with [b] evaluated only when [a] is falsy. *)
Definition or_else (a : value) (b : flow value) : flow value :=
  if truthy a then Next a else b.

(** [isinstance(v, int)]: [bool] is a subclass of [int]. *)
Definition is_int (v : value) : bool :=
  match v with VInt _ | VBool _ => true | _ => false end.

(** [isinstance(v, bool)] *)
Definition is_bool (v : value) : bool :=
  match v with VBool _ => true | _ => false end.

(** The integer a value of class [int] stands for. *)
Definition as_int (v : value) : option Z :=
  match v with
  | VInt z => Some z
  | VBool b => Some (if b then 1 else 0)%Z
  | _ => None
  end.

(** [v == s] for a string literal [s]. *)
Definition eq_str (v : value) (s : string) : bool :=
  match v with VStr s' => String.eqb s' s | _ => false end.

(** [min(a, m)] for an integer [m]: the builtin keeps its first argument
    unless [m < a], and the comparison of an [int] with a value that is not
    a number raises [TypeError]. *)
Definition min_int (a : value) (m : Z) : flow value :=
  match as_int a with
  | Some z => Next (if (m <? z)%Z then VInt m else a)
  | None => Throw TypeError
  end.

(** [d.get(k, default)]; only a dictionary has the method. *)
Definition get (d : value) (k : string) (dflt : value) : flow value :=
  match d with
  | VDict m => Next (default dflt (m !! k))
  | _ => Throw AttributeError
  end.

End Py.

(** [v[k]] *)
Definition getitem (v : value) (k : string) : flow value :=
  match v with
  | VDict m => match m !! k with Some x => Next x | None => Throw (KeyError k) end
  | _ => Throw TypeError
  end.

(** The value every successful endpoint returns: [make_api_response(data)]
    with the default [err=""] and [status_code=200]. *)
Definition api_ok (data : value) : api_response := make_api_response data "" 200.

(** ** Named queues

    A [NamedQueue] is addressed by its name only; the store maps a name to
    the messages waiting on it, oldest first.  A name that was never pushed
    to has no message. *)

Abbreviation queues := (gmap string (list value)).

Module NamedQueue.

Definition messages (name : string) (qs : queues) : list value :=
  default [] (qs !! name).

(** [NamedQueue(name).push(msg)] *)
Definition push (name : string) (msg : value) (qs : queues) : queues :=
  <[name := messages name qs ++ [msg]]> qs.

(** [NamedQueue(name).pop(blocking=False)]: the head, or [None]. *)
Definition pop (name : string) (qs : queues) : option value * queues :=
  match messages name qs with
  | [] => (None, qs)
  | msg :: rest => (Some msg, <[name := rest]> qs)
  end.

(** [NamedQueue(name).pop(timeout=t)]: the call waits for at most [t]
    seconds; [arrivals] are the messages other parties push on the queue
    during that wait. *)
Definition pop_blocking (name : string) (arrivals : list value) (qs : queues)
  : option value * queues :=
  pop name (<[name := messages name qs ++ arrivals]> qs).

End NamedQueue.

(** ** [src/al_ui/api/tbd/live.py] *)

Module Live.

(** The dictionaries built by [get_message] and [get_messages]. *)
Definition response (type : string) (err_msg : value) (status_code : Z) (msg : value)
  : value :=
  VDict (<["type" := VStr type]> (<["err_msg" := err_msg]>
        (<["status_code" := VInt status_code]> (<["msg" := msg]> ∅)))).

(** The [if]/[elif] chain of [get_message], lines 49-61.  [msg is None]
    holds when the queue had no message and when the message popped is a
    JSON [null].  The tests read [msg['status']] again at every [elif]; the
    read has no effect, so it is done once. *)
Definition get_message_response (popped : option value) : flow value :=
  match popped with
  | None | Some VNone =>
      Next (response "timeout" (VStr "Timeout waiting for a message.") 408 VNone)
  | Some msg =>
      (status <~ getitem msg "status" ;;
       if Py.eq_str status "STOP" then
         Next (response "stop" VNone 200 (VStr "All messages received, closing queue..."))
       else if Py.eq_str status "START" then
         Next (response "start" VNone 200 (VStr "Start listening..."))
       else if Py.eq_str status "OK" then
         (cache_key <~ getitem msg "cache_key" ;;
          Next (response "cachekey" VNone 200 cache_key))
       else if Py.eq_str status "FAIL" then
         (cache_key <~ getitem msg "cache_key" ;;
          Next (response "cachekeyerr" VNone 200 cache_key))
       else
         Next (response "error" (VStr "Unknown message") 500 msg))%flow
  end.

(** [get_message(wq_id)] *)
Definition get_message (wq_id : string) (qs : queues) : flow Empty_set * queues :=
  let '(msg, qs) := NamedQueue.pop wq_id qs in
  ((response <~ get_message_response msg ;;
    Respond (api_ok response))%flow, qs).

(** The chain inside the loop of [get_messages], lines 95-105, for a
    message that was popped and is not [None]. *)
Definition get_messages_response (msg : value) : flow value :=
  (status <~ getitem msg "status" ;;
   if Py.eq_str status "STOP" then
     Next (response "stop" VNone 200 (VStr "All messages received, closing queue..."))
   else if Py.eq_str status "START" then
     Next (response "start" VNone 200 (VStr "Start listening..."))
   else if Py.eq_str status "OK" then
     (cache_key <~ getitem msg "cache_key" ;;
      Next (response "cachekey" VNone 200 cache_key))
   else if Py.eq_str status "FAIL" then
     (cache_key <~ getitem msg "cache_key" ;;
      Next (response "cachekeyerr" VNone 200 cache_key))
   else
     Next (response "error" (VStr "Unknown message") 500 msg))%flow.

(** The [while True] loop of [get_messages]: one unit of fuel per
    iteration; [None] when the fuel does not suffice.  The loop breaks at
    [msg is None]: when the queue is empty, and when the message popped is
    a JSON [null]. *)
Fixpoint get_messages_loop (fuel : nat) (wq_id : string) (resp_list : list value)
    (qs : queues) : option (flow (list value) * queues) :=
  match fuel with
  | O => None
  | S fuel =>
      let '(msg, qs) := NamedQueue.pop wq_id qs in
      match msg with
      | None | Some VNone => Some (Next resp_list, qs)
      | Some msg =>
          match get_messages_response msg with
          | Next response => get_messages_loop fuel wq_id (resp_list ++ [response]) qs
          | Respond r => Some (Respond r, qs)
          | Throw e => Some (Throw e, qs)
          end
      end
  end.

(** [get_messages(wq_id)] *)
Definition get_messages (fuel : nat) (wq_id : string) (qs : queues)
  : option (flow Empty_set * queues) :=
  match get_messages_loop fuel wq_id [] qs with
  | None => None
  | Some (r, qs) =>
      Some ((resp_list <~ r ;; Respond (api_ok (VList resp_list)))%flow, qs)
  end.

(** A message the status chain answers without raising: a dictionary with
    a [status], and with a [cache_key] when the status is OK or FAIL. *)
Definition is_status_message (msg : value) : bool :=
  match msg with
  | VDict m =>
      match m !! "status" with
      | Some status =>
          if Py.eq_str status "OK" || Py.eq_str status "FAIL"
          then bool_decide (is_Some (m !! "cache_key"))
          else true
      | None => false
      end
  | _ => false
  end.

Section Control.

(** [reply_queue_name(prefix)] draws a new name; the second argument
    counts the names drawn so far. *)
Variable reply_queue_name : string → nat → string.
(** [STORAGE.get_submission(sid)], [None] for an unknown submission. *)
Variable get_submission : string → value.
(** [Classification.is_accessible(user_c12n, c12n)] *)
Variable is_accessible : value → value → bool.
(** [config.submissions.max.priority] *)
Variable max_priority : value.

Record World := {
  named_queues : queues;
  names_drawn : nat
}.

(** [user and data and Classification.is_accessible(...)], the condition
    of both control endpoints. *)
Definition may_access (user data : value) : flow bool :=
  if negb (Py.truthy user) then Next false
  else if negb (Py.truthy data) then Next false
  else
    (uc <~ getitem user "classification" ;;
     dc <~ getitem data "classification" ;;
     Next (is_accessible uc dc))%flow.

(** [outstanding_services(sid, user=user)]; [arrivals] are the replies
    pushed on the reply queue within the 5 seconds of the [pop]. *)
Definition outstanding_services (sid : string) (user : value)
    (arrivals : list value) (w : World) : flow Empty_set * World :=
  let data := get_submission sid in
  match may_access user data with
  | Next true =>
      let state := "oustanding_services" in
      let reply_name := reply_queue_name state (names_drawn w) in
      let qs := NamedQueue.push "control-queue"
                  (VDict (<["sid" := VStr sid]> (<["state" := VStr state]>
                         (<["watch_queue" := VStr reply_name]> ∅))))
                  (named_queues w) in
      let '(reply, qs) := NamedQueue.pop_blocking reply_name arrivals qs in
      (Respond (api_ok (default VNone reply)),
       {| named_queues := qs; names_drawn := S (names_drawn w) |})
  | Next false =>
      (Respond (make_api_response (VDict ∅)
                  "You are not allowed to access this submissions." 403), w)
  | Respond r => (Respond r, w)
  | Throw e => (Throw e, w)
  end.

(** [setup_watch_queue(sid, user=user)] with [request.args.get('suffix',
    "WQ")] already evaluated to [suffix]. *)
Definition setup_watch_queue (sid suffix : string) (user : value) (w : World)
  : flow Empty_set * World :=
  let data := get_submission sid in
  match may_access user data with
  | Next true =>
      let watch_queue := reply_queue_name suffix (names_drawn w) in
      let qs := NamedQueue.push "control-queue"
                  (VDict (<["state" := VStr "watch"]> (<["priority" := max_priority]>
                         (<["sid" := VStr sid]>
                         (<["watch_queue" := VStr watch_queue]> ∅)))))
                  (named_queues w) in
      (Respond (api_ok (VDict (<["wq_id" := VStr watch_queue]> ∅))),
       {| named_queues := qs; names_drawn := S (names_drawn w) |})
  | Next false =>
      (Respond (make_api_response (VStr "")
                  "You are not allowed to access this submissions." 403), w)
  | Respond r => (Respond r, w)
  | Throw e => (Throw e, w)
  end.

End Control.

End Live.

(** ** Paths and strings of the standard library *)

Module OsPath.

(** The separator, the character of ["/"]. *)
Definition slash : Ascii.ascii :=
  Ascii.Ascii true true true true false true false false.

Fixpoint basename_from (acc s : string) : string :=
  match s with
  | EmptyString => acc
  | String c rest =>
      if Ascii.eqb c slash then basename_from "" rest
      else basename_from (acc +:+ String c "") rest
  end.

(** [os.path.basename(p)]: what follows the last slash. *)
Definition basename (p : string) : string := basename_from "" p.

(** [os.path.basename(v)] on a Python value: anything but a string raises. *)
Definition basename_value (v : value) : flow string :=
  match v with
  | VStr s => Next (basename s)
  | _ => Throw TypeError
  end.

Fixpoint ends_with_slash (s : string) : bool :=
  match s with
  | EmptyString => false
  | String c EmptyString => Ascii.eqb c slash
  | String _ rest => ends_with_slash rest
  end.

(** [os.path.join(a, b)] *)
Definition join (a b : string) : string :=
  if String.prefix "/" b then b
  else match a with
       | EmptyString => b
       | _ => if ends_with_slash a then a +:+ b else a +:+ "/" +:+ b
       end.

Fixpoint ancestors_from (seen rest : string) : list string :=
  match rest with
  | EmptyString => []
  | String c rest' =>
      (if Ascii.eqb c slash && negb (String.eqb seen "") && negb (ends_with_slash seen)
       then [seen] else [])
      ++ ancestors_from (seen +:+ String c "") rest'
  end.

(** The directories above [p], from the top: what stands before each
    slash of [p] that ends a component.  [os.makedirs(p)] creates those that
    are missing before it creates [p]. *)
Definition ancestors (p : string) : list string := ancestors_from "" p.

(** [p] is [dir] or lies below it: what [shutil.rmtree(dir)] removes. *)
Definition within (dir p : string) : bool :=
  String.eqb p dir || String.prefix (dir +:+ "/") p.

End OsPath.

(** [needle in hay] for two strings. *)
Fixpoint contains (needle hay : string) : bool :=
  String.prefix needle hay ||
  match hay with
  | EmptyString => false
  | String _ rest => contains needle rest
  end.

(** ** [src/assemblyline_ui/api/v4/ingest.py] *)

Module Ingest.

(** The two entries of [identify.fileinfo]'s result the endpoint reads. *)
Record fileinfo := {
  sha256 : string;
  size : Z
}.

Record file_entry := {
  file_name : value;
  file_sha256 : string;
  file_size : Z
}.

(** The argument of [Submission(...)], line 328.  [params] holds the
    entries of [s_params] whose key is a string, and [params_other] its
    entries with any other key, oldest first: only a [params] block that is
    a list of pairs brings such keys. *)
Record Submission := {
  sid : string;
  files : list file_entry;
  notification : dict;
  metadata : dict;
  params : dict;
  params_other : list (value * value)
}.

(** The settings read from [config] and [assemblyline_ui.config]. *)
Record Config := {
  TEMP_SUBMIT_DIR : string;
  MAX_SIZE : Z;
  allow_url_submissions : bool;
  ingest_max_priority : Z;
  default_max_extracted : Z;
  default_max_supplementary : Z;
  max_dtl : Z
}.

(** The ['json'] part of a multipart form: absent, not JSON, or decoded. *)
Inductive form_part :=
| NoPart
| BadJson
| Json (v : value).

(** [request.files['bin']]; the object is truthy when it has a file name. *)
Record FileStorage := {
  filename : value
}.

Record Request := {
  content_type : option string;
  values_json : form_part;
  files_bin : option FileStorage;
  json : value
}.

(** The calls into collaborators that may raise. *)
Inductive call :=
| c_makedirs
| c_exists_sha256
| c_download
| c_safe_download
| c_write
| c_load_user_settings
| c_fileinfo
| c_decode_file
| c_exists_final
| c_upload
| c_save_or_freshen_file
| c_Submission
| c_push
| c_submission_received.

(** How the collaborators answer during one request, and what the values
    of the model do not record of the request.  A call at fault raises; if
    it is a call that writes a file ([c_download], [c_safe_download],
    [c_write], [c_decode_file]) it may leave the part written so far, and
    otherwise it has no effect. *)
Record Collaborators := {
  fault : call → option exn;
  leaves_partial : call → bool;
  (** [os.makedirs] creates the missing directories from the top: when it
      raises, it has created the first [dirs_made] of the directories above
      the one it was asked for. *)
  dirs_made : nat;
  (** [json.loads] keeps the keys of an object in the order of the document,
      which a [gmap] does not record: [keys_reversed i] tells that the object
      at index [i] of a [params] block that is a list has its keys in the
      order opposite to that of [map_to_list]. *)
  keys_reversed : nat → bool;
  (** [ui_to_submission_params(load_user_settings(user))] *)
  user_params : dict;
  (** [identify.fileinfo(out_file)] *)
  identified : fileinfo;
  (** [decode_file(out_file, fileinfo)]: the path of the unpacked file if
      the file was a wrapper, the information on the final content, the
      metadata carried by the wrapper. *)
  decode_file : fileinfo → option string * fileinfo * dict
}.

(** What the endpoint can change outside itself. *)
Record World := {
  disk : gset string;
  filestore : gset string;
  uploads : list (string * string);
  freshened : list (string * fileinfo * value * value);
  ingest : list Submission;
  received : list Submission;
  ids_drawn : nat
}.

(** The state of a running request: the world, and the two local variables
    the [finally] block reads. *)
Record Frame := {
  world : World;
  original_file : option string;
  extracted_path : option string
}.

Definition M (A : Type) : Type := Frame → flow A * Frame.

Definition io_bind {A B} (c : M A) (k : A → M B) : M B :=
  λ fr, match c fr with
        | (Next a, fr) => k a fr
        | (Respond r, fr) => (Respond r, fr)
        | (Throw e, fr) => (Throw e, fr)
        end.

Definition pure {A} (c : flow A) : M A := λ fr, (c, fr).

Definition modify_world (f : World → World) : M () :=
  λ fr, (Next (), {| world := f (world fr);
                     original_file := original_file fr;
                     extracted_path := extracted_path fr |}).

Definition read_world {A} (f : World → A) : M A := λ fr, (Next (f (world fr)), fr).

Definition set_original_file (p : string) : M () :=
  λ fr, (Next (), {| world := world fr;
                     original_file := Some p;
                     extracted_path := extracted_path fr |}).

Definition set_extracted_path (p : option string) : M () :=
  λ fr, (Next (), {| world := world fr;
                     original_file := original_file fr;
                     extracted_path := p |}).

(** A call that raises when the collaborator is at fault. *)
Definition calling (col : Collaborators) (c : call) : M () :=
  pure (match fault col c with Some e => Throw e | None => Next () end).

(** [try: body finally: cleanup] *)
Definition try_finally {A} (body : M A) (cleanup : Frame → Frame) : M A :=
  λ fr, let '(r, fr) := body fr in (r, cleanup fr).

(** [c], run from [fr], ends with a result and a frame that satisfy [Q]. *)
Definition wp {A} (c : M A) (fr : Frame) (Q : flow A → Frame → Prop) : Prop :=
  ∀ r fr', c fr = (r, fr') → Q r fr'.

(** A result that is not an answer with the code 200. *)
Definition not_admitted {A} (res : flow A) : Prop :=
  ∀ r, res = Respond r → api_status_code r ≠ 200%Z.

(** Two worlds that differ by their disks at most. *)
Definition same_stores (w w' : World) : Prop :=
  filestore w' = filestore w ∧ uploads w' = uploads w
  ∧ freshened w' = freshened w ∧ ingest w' = ingest w
  ∧ received w' = received w ∧ ids_drawn w' = ids_drawn w.

(** Two worlds with the same file store, upload log, datastore and queues. *)
Definition kept (w w' : World) : Prop :=
  filestore w' = filestore w ∧ uploads w' = uploads w
  ∧ freshened w' = freshened w ∧ ingest w' = ingest w
  ∧ received w' = received w.

(** What a run that ends with [res] may do to the two queues: nothing when
    [res] is an answer with a code other than 200; otherwise at most one
    submission pushed, and reported received if at all after it was
    pushed. *)
Definition published (w w' : World) (res : flow Empty_set) : Prop :=
  ((ingest w' = ingest w ∧ received w' = received w)
   ∨ ∃ s, ingest w' = ingest w ++ [s]
          ∧ (received w' = received w ∨ received w' = received w ++ [s]))
  ∧ ∀ r, res = Respond r → api_status_code r ≠ 200%Z →
         ingest w' = ingest w ∧ received w' = received w.

(** Every path on the disk was there before the request ([base]), or is
    the working directory, or is one of the two files the frame records. *)
Definition accounted (base : gset string) (out_dir : string) (fr : Frame) : Prop :=
  ∀ p, p ∈ disk (world fr) →
       p ∈ base ∨ p = out_dir
       ∨ (Py.truthy (VStr p) = true
          ∧ (original_file fr = Some p ∨ extracted_path fr = Some p)).

Declare Scope io_scope.
Delimit Scope io_scope with io.
Notation "x <~ c ;; k" := (io_bind c (λ x, k))
  (at level 20, c at level 99, k at level 200, only parsing) : io_scope.
Notation "' pat <~ c ;; k" := (io_bind c (λ x, match x with pat => k end))
  (at level 20, pat pattern, c at level 99, k at level 200, only parsing) : io_scope.
Notation "c ;;; k" := (io_bind c (λ _, k))
  (at level 100, k at level 200, right associativity, only parsing) : io_scope.

Definition with_disk (f : gset string → gset string) (w : World) : World :=
  {| disk := f (disk w); filestore := filestore w; uploads := uploads w;
     freshened := freshened w; ingest := ingest w; received := received w;
     ids_drawn := ids_drawn w |}.

(** A file or a directory appears at [p]; nothing has the empty path. *)
Definition create (p : string) : World → World :=
  with_disk (λ d, if Py.truthy (VStr p) then {[p]} ∪ d else d).

(** [os.makedirs(p)] inside [try: ... except Exception: pass].  When [p]
    exists the call raises [FileExistsError] and changes nothing; otherwise
    it creates the directories above [p] and then [p], unless it fails on
    the way. *)
Definition makedirs (col : Collaborators) (p : string) : World → World :=
  with_disk (λ d,
    if bool_decide (p ∈ d) then d
    else match fault col c_makedirs with
         | Some _ => list_to_set (take (dirs_made col) (OsPath.ancestors p)) ∪ d
         | None =>
             if Py.truthy (VStr p) then list_to_set (OsPath.ancestors p ++ [p]) ∪ d
             else d
         end).

(** What a call that writes [path] leaves on the disk: the file when it
    returns, and when it raises the part written so far, if any. *)
Definition written (col : Collaborators) (c : call) (path : string) : World → World :=
  match fault col c with
  | Some _ => if leaves_partial col c then create path else id
  | None => create path
  end.

(** [f_transport.upload(path, key, location='far')] *)
Definition upload (path key : string) (w : World) : World :=
  {| disk := disk w; filestore := {[key]} ∪ filestore w;
     uploads := uploads w ++ [(path, key)];
     freshened := freshened w; ingest := ingest w; received := received w;
     ids_drawn := ids_drawn w |}.

(** [STORAGE.save_or_freshen_file(sha256, fileinfo, expiry, classification)] *)
Definition save_or_freshen_file (h : string) (fi : fileinfo) (expiry c12n : value)
    (w : World) : World :=
  {| disk := disk w; filestore := filestore w; uploads := uploads w;
     freshened := freshened w ++ [(h, fi, expiry, c12n)];
     ingest := ingest w; received := received w; ids_drawn := ids_drawn w |}.

(** [ingest.push(submission_obj.as_primitives())] *)
Definition push (s : Submission) (w : World) : World :=
  {| disk := disk w; filestore := filestore w; uploads := uploads w;
     freshened := freshened w; ingest := ingest w ++ [s];
     received := received w; ids_drawn := ids_drawn w |}.

(** [submission_received(submission_obj)] *)
Definition submission_received (s : Submission) (w : World) : World :=
  {| disk := disk w; filestore := filestore w; uploads := uploads w;
     freshened := freshened w; ingest := ingest w;
     received := received w ++ [s]; ids_drawn := ids_drawn w |}.

Definition draw (w : World) : World :=
  {| disk := disk w; filestore := filestore w; uploads := uploads w;
     freshened := freshened w; ingest := ingest w; received := received w;
     ids_drawn := S (ids_drawn w) |}.

Definition unlink (p : string) : World → World := with_disk (λ d, d ∖ {[p]}).

Definition rmtree (dir : string) : World → World :=
  with_disk (filter (λ p, ¬ OsPath.within dir p)).

(** The values forced on the user's settings, lines 250-257. *)
Definition safe_values : dict :=
  <["deep_scan" := VBool false]> (<["priority" := VInt 150]>
  (<["ignore_cache" := VBool false]>
  (<["ignore_dynamic_recursion_prevention" := VBool false]>
  (<["ignore_filtering" := VBool false]> (<["type" := VStr "INGEST"]> ∅))))).

(** [d.update(other)]: the entries of [other] replace those of [d]. *)
Definition update (d other : dict) : dict := other ∪ d.

(** [hash(k)] raises for a list and for a dictionary. *)
Definition hashable (k : value) : bool :=
  match k with
  | VList _ | VDict _ => false
  | _ => true
  end.

(** [a == b] for two keys that are not strings: numbers are compared by
    their values ([True == 1]), and [None] equals itself only. *)
Definition same_key (a b : value) : bool :=
  match Py.as_int a, Py.as_int b with
  | Some x, Some y => (x =? y)%Z
  | _, _ => match a, b with
            | VNone, VNone => true
            | _, _ => false
            end
  end.

(** [d[k] = v] on the entries whose key is not a string: the value of an
    equal key is replaced and the key is kept, a new key comes last. *)
Fixpoint set_other (k v : value) (l : list (value * value)) : list (value * value) :=
  match l with
  | [] => [(k, v)]
  | (k', v') :: l =>
      if same_key k k' then (k', v) :: l else (k', v') :: set_other k v l
  end.

(** [d[k] = v] for a key that can be hashed, on a dictionary given by its
    entries with a string key and its other entries. *)
Definition assign (k v : value) (d : dict * list (value * value))
  : dict * list (value * value) :=
  match k with
  | VStr s => (<[s := v]> d.1, d.2)
  | _ => (d.1, set_other k v d.2)
  end.

(** The characters of a string, each a string of length one. *)
Fixpoint characters (s : string) : list value :=
  match s with
  | EmptyString => []
  | String c rest => VStr (String c "") :: characters rest
  end.

(** [list(e)]: the items of a list, the characters of a string, the keys
    of a dictionary; the other values cannot be iterated. *)
Definition members (reversed : bool) (e : value) : option (list value) :=
  match e with
  | VList l => Some l
  | VStr s => Some (characters s)
  | VDict m =>
      let ks := (λ kv : string * value, VStr kv.1) <$> map_to_list m in
      Some (if reversed then reverse ks else ks)
  | _ => None
  end.

(** The element at index [i] of the sequence [dict.update] is given: it is
    turned into a list, which must have two members, the key and the
    value; then the key is hashed. *)
Definition update_element (reversed : bool) (i : nat) (e : value)
  : flow (value * value) :=
  match members reversed e with
  | None => Throw TypeError
  | Some [k; v] => if hashable k then Next (k, v) else Throw TypeError
  | Some l =>
      Throw (ValueError ("dictionary update sequence element #" +:+ pretty i
                         +:+ " has length " +:+ pretty (length l)
                         +:+ "; 2 is required"))
  end.

(** The loop of [dict.update] over a sequence, from the index [i]. *)
Fixpoint pairs (reversed : nat → bool) (i : nat) (l : list value)
    (d : dict * list (value * value)) : flow (dict * list (value * value)) :=
  match l with
  | [] => Next d
  | e :: rest =>
      match update_element (reversed i) i e with
      | Next (k, v) => pairs reversed (S i) rest (assign k v d)
      | Respond r => Respond r
      | Throw e => Throw e
      end
  end.

(** The entries [d.update(v)] sets, those with a string key and the
    others.  A dictionary gives its own entries; any other value is
    iterated, each item giving a key and a value; a value that cannot be
    iterated raises [TypeError]. *)
Definition update_arg (reversed : nat → bool) (v : value)
  : flow (dict * list (value * value)) :=
  match v with
  | VDict d => Next (d, [])
  | _ => match members false v with
         | Some l => pairs reversed 0 l (∅, [])
         | None => Throw TypeError
         end
  end.

(** [d[k]] for a dictionary. *)
Definition dict_getitem (d : dict) (k : string) : flow value :=
  match d !! k with Some v => Next v | None => Throw (KeyError k) end.

Section Endpoint.

(** [safe_str] *)
Variable safe_str : string → string.
(** [get_random_id()]: the identifier drawn after [n] earlier draws. *)
Variable get_random_id : nat → string.
(** [now_as_iso(offset)]; [now_as_iso()] for [None]. *)
Variable now_as_iso : option Z → string.
(** [flatten] *)
Variable flatten : value → exn + dict.
(** [str(v)], as an f-string formats a value. *)
Variable str : value → string.

Variable cfg : Config.
Variable col : Collaborators.
(** [kwargs['user']] *)
Variable user : value.

Record Parsed := {
  data : value;
  binary : option FileStorage;
  name : value;
  sha256_in : value;
  url : value
}.

(** Lines 172-188: the data block and the binary blob. *)
Definition parse_request (req : Request) : flow Parsed :=
  match content_type req with
  | None => Throw TypeError
  | Some ct =>
      if contains "multipart/form-data" ct then
        (data <~ match values_json req with
                 | NoPart => Next (VDict ∅)
                 | BadJson => Throw (ValueError "json")
                 | Json v => Next v
                 end ;;
         binary <~ match files_bin req with
                   | Some b => Next b
                   | None => Throw (BadRequestKeyError "bin")
                   end ;;
         name <~ Py.get data "name" (filename binary) ;;
         Next {| data := data; binary := Some binary; name := name;
                 sha256_in := VNone; url := VNone |})%flow
      else if contains "application/json" ct then
        let data := json req in
        (sha256 <~ Py.get data "sha256" VNone ;;
         url <~ Py.get data "url" VNone ;;
         given <~ Py.get data "name" VNone ;;
         name <~ Py.or_else given (Py.or_else sha256
                   (base <~ OsPath.basename_value url ;;
                    Py.or_else (VStr base) (Next VNone))) ;;
         Next {| data := data; binary := None; name := name;
                 sha256_in := sha256; url := url |})%flow
      else Respond (make_api_response (VDict ∅) "Invalid content type" 400)
  end.

Record Validated := {
  notification_queue : value;
  notification_threshold : value;
  generate_alert : value;
  safe_name : string
}.

(** Lines 190-210: the data block, the notification parameters, the
    alert flag and the file name. *)
Definition validate (p : Parsed) : flow Validated :=
  if negb (Py.truthy (data p)) then
    Respond (make_api_response (VDict ∅) "Missing data block" 400)
  else
    (notification_queue <~ Py.get (data p) "notification_queue" VNone ;;
     notification_threshold <~ Py.get (data p) "notification_threshold" VNone ;;
     if negb (Py.is_int notification_threshold) && Py.truthy notification_threshold then
       Respond (make_api_response (VDict ∅) "notification_threshold should be and int" 400)
     else
       generate_alert <~ Py.get (data p) "generate_alert" (VBool false) ;;
       if negb (Py.is_bool generate_alert) then
         Respond (make_api_response (VDict ∅) "generate_alert should be a boolean" 400)
       else if negb (Py.truthy (name p)) then
         Respond (make_api_response (VDict ∅) "Filename missing" 400)
       else
         base <~ OsPath.basename_value (name p) ;;
         let name := safe_str base in
         if negb (Py.truthy (VStr name)) then
           Respond (make_api_response (VDict ∅) "Invalid filename" 400)
         else
           Next {| notification_queue := notification_queue;
                   notification_threshold := notification_threshold;
                   generate_alert := generate_alert;
                   safe_name := name |})%flow.

(** [bool(binary)] *)
Definition binary_truthy (b : option FileStorage) : bool :=
  match b with
  | Some b => Py.truthy (filename b)
  | None => false
  end.

(** [f_transport.exists(key)] at the call site [c]. *)
Definition exists_ (c : call) (key : value) : M bool :=
  (calling col c ;;;
   match key with
   | VStr k => read_world (λ w, bool_decide (k ∈ filestore w))
   | _ => pure (Throw TypeError)
   end)%io.

(** Lines 212-244: the working directory and the file in it.  The result
    is [out_file] and [extra_meta]. *)
Definition load_file (out_dir : string) (p : Parsed) (v : Validated)
  : M (string * dict) :=
  (modify_world (makedirs col out_dir) ;;;
   let out_file := OsPath.join out_dir (safe_name v) in
   set_original_file out_file ;;;
   if negb (binary_truthy (binary p)) then
     if Py.truthy (sha256_in p) then
       found <~ exists_ c_exists_sha256 (sha256_in p) ;;
       if found : bool then
         modify_world (written col c_download out_file) ;;;
         calling col c_download ;;;
         pure (Next (out_file, ∅))
       else
         pure (Respond (make_api_response (VDict ∅)
                          "SHA256 does not exist in our datastore" 404))
     else if Py.truthy (url p) then
       if negb (allow_url_submissions cfg) then
         pure (Respond (make_api_response (VDict ∅)
                          "URL submissions are disabled in this system" 400))
       else
         modify_world (written col c_safe_download out_file) ;;;
         match fault col c_safe_download with
         | Some FileTooBigException =>
             pure (Respond (make_api_response (VDict ∅)
                              "File too big to be scanned." 400))
         | Some InvalidUrlException =>
             pure (Respond (make_api_response (VDict ∅)
                              "Url provided is invalid." 400))
         | Some ForbiddenLocation =>
             pure (Respond (make_api_response (VDict ∅)
                              "Hostname in this URL cannot be resolved." 400))
         | Some e => pure (Throw e)
         | None => pure (Next (out_file, <["submitted_url" := url p]> ∅))
         end
     else
       pure (Respond (make_api_response (VDict ∅)
                        "Missing file to scan. No binary, sha256 or url provided." 400))
   else
     modify_world (written col c_write out_file) ;;;
     calling col c_write ;;;
     pure (Next (out_file, ∅)))%io.

(** Lines 246-277: the entries of the submission parameters that have a
    string key. *)
Definition build_params (data generate_alert : value) : flow dict :=
  (_ <~ match fault col c_load_user_settings with
        | Some e => Throw e
        | None => Next ()
        end ;;
   let s_params := user_params col in
   let s_params := update s_params safe_values in
   given <~ Py.get data "params" (VDict ∅) ;;
   given <~ update_arg (keys_reversed col) given ;;
   let s_params := update s_params given.1 in
   s_params <~ match s_params !! "groups" with
               | Some _ => Next s_params
               | None => groups <~ getitem user "groups" ;;
                         Next (<["groups" := groups]> s_params)
               end ;;
   priority <~ Py.min_int (default (VInt 150) (s_params !! "priority"))
                 (ingest_max_priority cfg) ;;
   submitter <~ getitem user "uname" ;;
   let s_params :=
     update s_params
       (<["generate_alert" := generate_alert]>
       (<["max_extracted" := VInt (default_max_extracted cfg)]>
       (<["max_supplementary" := VInt (default_max_supplementary cfg)]>
       (<["priority" := priority]> (<["submitter" := submitter]> ∅))))) in
   if (0 <? max_dtl cfg)%Z then
     ttl <~ dict_getitem s_params "ttl" ;;
     ttl <~ (if Py.truthy ttl then Py.min_int ttl (max_dtl cfg)
             else Next (VInt (max_dtl cfg))) ;;
     Next (<["ttl" := ttl]> s_params)
   else Next s_params)%flow.

(** The other entries of the submission parameters: every dictionary the
    code itself merges has string keys, so they are the ones line 260 takes
    from the [params] block. *)
Definition other_params (data : value) : list (value * value) :=
  match (given <~ Py.get data "params" (VDict ∅) ;;
         update_arg (keys_reversed col) given)%flow with
  | Next given => given.2
  | _ => []
  end.

(** Lines 282-287: the size of the file. *)
Definition size_gate (fi : fileinfo) (s_params : dict) : flow () :=
  if (MAX_SIZE cfg <? size fi)%Z
     && negb (Py.truthy (default (VBool false) (s_params !! "ignore_size"))) then
    Respond (make_api_response (VStr "")
               ("File too large (" +:+ pretty (size fi) +:+ " > "
                +:+ pretty (MAX_SIZE cfg) +:+ "). Ingestion failed") 400)
  else if (size fi =? 0)%Z then
    Respond (make_api_response (VStr "") "File empty. Ingestion failed" 400)
  else Next ().

(** [if extracted_path:] *)
Definition path_truthy (p : option string) : bool :=
  match p with
  | Some p => Py.truthy (VStr p)
  | None => false
  end.

(** Lines 291-292: [if extracted_path: out_file = extracted_path] *)
Definition final_path (out_file : string) (extracted : option string) : string :=
  if path_truthy extracted then default out_file extracted else out_file.

(** Lines 289-297: the wrapper is decoded and the final content stored
    unless the file store has it.  The result is the information on the
    final content and the metadata of the wrapper.  A decoder that raises
    may leave the file it was unpacking; [extracted_path] is then still
    [None]. *)
Definition decode_and_store (out_file : string) (fi : fileinfo) : M (fileinfo * dict) :=
  (let '(extracted, fi, al_meta) := decode_file col fi in
   modify_world (match extracted with
                 | Some p => written col c_decode_file p
                 | None => id
                 end) ;;;
   calling col c_decode_file ;;;
   set_extracted_path extracted ;;;
   let out_file := final_path out_file extracted in
   found <~ exists_ c_exists_final (VStr (sha256 fi)) ;;
   (if found : bool then pure (Next ())
    else calling col c_upload ;;; modify_world (upload out_file (sha256 fi))) ;;;
   pure (Next (fi, al_meta)))%io.

(** Lines 299-301: the record of the file in the datastore. *)
Definition freshen (fi : fileinfo) (s_params : dict) : M () :=
  (expiry <~ pure (if Py.truthy (default VNone (s_params !! "ttl")) then
                     match Py.as_int (default VNone (s_params !! "ttl")) with
                     | Some ttl => Next (VStr (now_as_iso (Some (ttl * 24 * 60 * 60)%Z)))
                     | None => Throw TypeError
                     end
                   else Next VNone) ;;
   classification <~ pure (dict_getitem s_params "classification") ;;
   calling col c_save_or_freshen_file ;;;
   modify_world (save_or_freshen_file (sha256 fi) fi expiry classification))%io.

(** Lines 303-310 *)
Definition notification_params (v : Validated) : dict :=
  if Py.truthy (notification_queue v) then
    <["queue" := notification_queue v]>
      (<["threshold" := notification_threshold v]> ∅)
  else ∅.

(** Lines 312-324: the metadata, the final name and the description.  The
    result is [metadata], [name] and [s_params]. *)
Definition assemble (data : value) (ingest_id : string) (name : string)
    (al_meta extra_meta s_params : dict) : flow (dict * value * dict) :=
  (given <~ Py.get data "metadata" (VDict ∅) ;;
   metadata <~ returned (flatten given) ;;
   let metadata := <["ingest_id" := VStr ingest_id]> metadata in
   type <~ dict_getitem s_params "type" ;;
   let metadata := <["type" := type]> metadata in
   let name := default (VStr name) (al_meta !! "name") in
   let al_meta := delete "name" al_meta in
   let metadata := update metadata al_meta in
   let metadata := match metadata !! "ts" with
                   | Some _ => metadata
                   | None => <["ts" := VStr (now_as_iso None)]> metadata
                   end in
   let metadata := update metadata extra_meta in
   description <~ dict_getitem s_params "description" ;;
   description <~ Py.or_else description
                    (type <~ dict_getitem s_params "type" ;;
                     Next (VStr ("[" +:+ str type +:+ "] Inspection of file: "
                                 +:+ str name))) ;;
   Next (metadata, name, <["description" := description]> s_params))%flow.

(** Lines 326-336: [Submission(...)] checks what it is given; its
    [ValueError] and [KeyError] are answered with a 400. *)
Definition new_submission (s : Submission) : flow Submission :=
  match fault col c_Submission with
  | Some (ValueError msg) => Respond (make_api_response (VStr "") msg 400)
  | Some (KeyError k) => Respond (make_api_response (VStr "") ("'" +:+ k +:+ "'") 400)
  | Some e => Throw e
  | None => Next s
  end.

(** The body of the [try] statement, lines 171-342. *)
Definition admission (out_dir : string) (req : Request) : M Empty_set :=
  (p <~ pure (parse_request req) ;;
   v <~ pure (validate p) ;;
   '(out_file, extra_meta) <~ load_file out_dir p v ;;
   s_params <~ pure (build_params (data p) (generate_alert v)) ;;
   calling col c_fileinfo ;;;
   let fi := identified col in
   pure (size_gate fi s_params) ;;;
   '(fi, al_meta) <~ decode_and_store out_file fi ;;
   freshen fi s_params ;;;
   ingest_id <~ read_world (λ w, get_random_id (ids_drawn w)) ;;
   modify_world draw ;;;
   '(metadata, name, s_params) <~
      pure (assemble (data p) ingest_id (safe_name v) al_meta extra_meta s_params) ;;
   submission_obj <~
      pure (new_submission
              {| sid := ingest_id;
                 files := [ {| file_name := name; file_sha256 := sha256 fi;
                               file_size := size fi |} ];
                 notification := notification_params v;
                 metadata := metadata;
                 params := s_params;
                 params_other := other_params (data p) |}) ;;
   calling col c_push ;;;
   modify_world (push submission_obj) ;;;
   calling col c_submission_received ;;;
   modify_world (submission_received submission_obj) ;;;
   pure (Respond (api_ok (VDict (<["ingest_id" := VStr ingest_id]> ∅)))))%io.

(** The [finally] block, lines 344-362.  Each removal is guarded by
    [os.path.exists] and by a [try] that ignores every error; a removal
    of an existing path is taken to succeed. *)
Definition cleanup (out_dir : string) (fr : Frame) : Frame :=
  let w := world fr in
  let w := match original_file fr with
           | Some p => if Py.truthy (VStr p) then unlink p w else w
           | None => w
           end in
  let w := match extracted_path fr with
           | Some p => if Py.truthy (VStr p) then unlink p w else w
           | None => w
           end in
  let w := rmtree out_dir w in
  {| world := w; original_file := original_file fr;
     extracted_path := extracted_path fr |}.

(** [ingest_single_file(user=user)] on the request [req]. *)
Definition ingest_single_file (req : Request) (w : World) : flow Empty_set * World :=
  let out_dir := OsPath.join (TEMP_SUBMIT_DIR cfg) (get_random_id (ids_drawn w)) in
  let w := draw w in
  let '(r, fr) := try_finally (admission out_dir req) (cleanup out_dir)
                    {| world := w; original_file := None; extracted_path := None |} in
  (r, world fr).

(** What a request answered with the code 200 has done, in terms of the
    phases: the values they returned, the submission [s] published, and
    the change of the stores from [w] to [w']. *)
Definition admitted (req : Request) (w : World) (r : api_response) (w' : World)
    (s : Submission) : Prop :=
  ∃ p v extra_meta s_params extracted fi al_meta metadata name s_params',
    let out_dir := OsPath.join (TEMP_SUBMIT_DIR cfg) (get_random_id (ids_drawn w)) in
    let out_file := OsPath.join out_dir (safe_name v) in
    let ingest_id := get_random_id (S (ids_drawn w)) in
    parse_request req = Next p
    ∧ validate p = Next v
    ∧ build_params (data p) (generate_alert v) = Next s_params
    ∧ size_gate (identified col) s_params = Next ()
    ∧ decode_file col (identified col) = (extracted, fi, al_meta)
    ∧ assemble (data p) ingest_id (safe_name v) al_meta extra_meta s_params
      = Next (metadata, name, s_params')
    ∧ s = {| sid := ingest_id;
             files := [ {| file_name := name; file_sha256 := sha256 fi;
                           file_size := size fi |} ];
             notification := notification_params v;
             metadata := metadata;
             params := s_params';
             params_other := other_params (data p) |}
    ∧ r = api_ok (VDict (<["ingest_id" := VStr ingest_id]> ∅))
    ∧ ingest w' = ingest w ++ [s]
    ∧ received w' = received w ++ [s]
    ∧ filestore w' = {[sha256 fi]} ∪ filestore w
    ∧ uploads w'
      = uploads w ++ (if bool_decide (sha256 fi ∈ filestore w) then []
                      else [(final_path out_file extracted, sha256 fi)])
    ∧ ids_drawn w' = S (S (ids_drawn w)).

End Endpoint.

End Ingest.

(** ** [src/assemblyline_ui/api/v4/ingest.py]: the notification queues *)

Module IngestQueue.

(** ["nq-%s" % notification_queue] *)
Definition queue_name (notification_queue : string) : string :=
  "nq-" +:+ notification_queue.

(** [msg is None]: the queue had no message, or the message popped is a
    JSON [null]. *)
Definition is_none (msg : option value) : bool :=
  match msg with
  | None | Some VNone => true
  | Some _ => false
  end.

(** [get_message(notification_queue)], lines 52-58. *)
Definition get_message (notification_queue : string) (qs : queues)
  : flow Empty_set * queues :=
  let '(msg, qs) := NamedQueue.pop (queue_name notification_queue) qs in
  (Respond (api_ok (default VNone msg)), qs).

(** The [while True] loop of [get_all_messages], lines 85-91: one unit of
    fuel per iteration; [None] when the fuel does not suffice. *)
Fixpoint get_all_messages_loop (fuel : nat) (name : string) (resp_list : list value)
    (qs : queues) : option (list value * queues) :=
  match fuel with
  | O => None
  | S fuel =>
      let '(msg, qs) := NamedQueue.pop name qs in
      if is_none msg then Some (resp_list, qs)
      else get_all_messages_loop fuel name (resp_list ++ [default VNone msg]) qs
  end.

(** [get_all_messages(notification_queue)], lines 80-93. *)
Definition get_all_messages (fuel : nat) (notification_queue : string) (qs : queues)
  : option (flow Empty_set * queues) :=
  match get_all_messages_loop fuel (queue_name notification_queue) [] qs with
  | None => None
  | Some (resp_list, qs) => Some (Respond (api_ok (VList resp_list)), qs)
  end.

End IngestQueue.

(** ** Sample inputs *)

Module Samples.

Definition status_msg (status : string) : value :=
  VDict (<["status" := VStr status]> ∅).

Definition keyed_msg (status cache_key : string) : value :=
  VDict (<["status" := VStr status]> (<["cache_key" := VStr cache_key]> ∅)).

(** A watch queue of five messages next to an unrelated queue. *)
Definition five_messages : queues :=
  <["wq-1" := [status_msg "START"; keyed_msg "OK" "k1"; keyed_msg "FAIL" "k2";
               status_msg "PAUSE"; status_msg "STOP"]]>
    (<["other" := [status_msg "START"]]> ∅).

(** Two status messages, a message without a status, and one more. *)
Definition broken_batch : queues :=
  <["wq-1" := [status_msg "START"; keyed_msg "OK" "k1";
               VDict (<["cache_key" := VStr "k2"]> ∅); status_msg "STOP"]]> ∅.

(** A status message, a null, and a status message. *)
Definition null_in_the_middle : queues :=
  <["wq-1" := [status_msg "START"; VNone; status_msg "STOP"]]> ∅.


(** Three notifications on ["nq-done"], next to a queue named ["done"]. *)
Definition notifications : queues :=
  <["nq-done" := [VDict (<["sid" := VStr "id-1"]> ∅); VStr "raw"; VInt 7]]>
    (<["done" := [status_msg "START"]]> ∅).

Definition notifications_with_null : queues :=
  <["nq-done" := [VDict (<["sid" := VStr "id-1"]> ∅); VNone;
                  VDict (<["sid" := VStr "id-3"]> ∅)]]> ∅.

(** A deployment of the control endpoints: every submission exists and is
    unclassified, every user may read it, the [n]-th reply queue drawn for
    a prefix carries [n] in its name. *)
Definition reply_queue_name (prefix : string) (n : nat) : string :=
  prefix +:+ "-" +:+ pretty n.
Definition get_submission (sid : string) : value :=
  VDict (<["sid" := VStr sid]> (<["classification" := VStr "U"]> ∅)).
Definition is_accessible (user_c12n c12n : value) : bool := true.
Definition analyst : value :=
  VDict (<["uname" := VStr "analyst"]> (<["classification" := VStr "U"]>
        (<["groups" := VList [VStr "users"]]> ∅))).
Definition quiet : Live.World := {| Live.named_queues := ∅; Live.names_drawn := 0 |}.

(** A deployment of the ingest endpoint. *)
Definition safe_str (s : string) : string := s.
Definition get_random_id (n : nat) : string := "id-" +:+ pretty n.
Definition now_as_iso (offset : option Z) : string :=
  match offset with
  | None => "2020-01-01T00:00:00Z"
  | Some seconds => "2020-01-01T00:00:00Z+" +:+ pretty seconds
  end.
Definition flatten (v : value) : exn + dict :=
  match v with
  | VDict d => inr d
  | _ => inl AttributeError
  end.
Definition str (v : value) : string :=
  match v with
  | VStr s => s
  | VInt z => pretty z
  | VBool true => "True"
  | VBool false => "False"
  | _ => "None"
  end.

Definition cfg : Ingest.Config :=
  {| Ingest.TEMP_SUBMIT_DIR := "/var/lib/assemblyline/submit";
     Ingest.MAX_SIZE := 1000;
     Ingest.allow_url_submissions := false;
     Ingest.ingest_max_priority := 250;
     Ingest.default_max_extracted := 100;
     Ingest.default_max_supplementary := 100;
     Ingest.max_dtl := 30 |}.

(** The settings of the user: a deep scan and a time to live of 15 days. *)
Definition settings : dict :=
  <["classification" := VStr "U"]> (<["description" := VStr ""]>
  (<["deep_scan" := VBool true]> (<["ttl" := VInt 15]> ∅))).

(** Collaborators that work; the file is 10 bytes of content [h1] and is
    no wrapper. *)
Definition working : Ingest.Collaborators :=
  {| Ingest.fault := λ _, None;
     Ingest.leaves_partial := λ _, false;
     Ingest.dirs_made := 0;
     Ingest.keys_reversed := λ _, false;
     Ingest.user_params := settings;
     Ingest.identified := {| Ingest.sha256 := "h1"; Ingest.size := 10 |};
     Ingest.decode_file := λ fi, (None, fi, ∅) |}.

(** The same when the upload cannot be written and leaves a part of the
    file, and when the decoder fails after the file was written. *)
Definition failing_write : Ingest.Collaborators :=
  {| Ingest.fault := λ c, match c with
                          | Ingest.c_write => Some (OtherError "No space left on device")
                          | _ => None
                          end;
     Ingest.leaves_partial := λ _, true;
     Ingest.dirs_made := 0;
     Ingest.keys_reversed := λ _, false;
     Ingest.user_params := settings;
     Ingest.identified := {| Ingest.sha256 := "h1"; Ingest.size := 10 |};
     Ingest.decode_file := λ fi, (None, fi, ∅) |}.

Definition failing_decode : Ingest.Collaborators :=
  {| Ingest.fault := λ c, match c with
                          | Ingest.c_decode_file => Some (OtherError "corrupted")
                          | _ => None
                          end;
     Ingest.leaves_partial := λ _, false;
     Ingest.dirs_made := 0;
     Ingest.keys_reversed := λ _, false;
     Ingest.user_params := settings;
     Ingest.identified := {| Ingest.sha256 := "h1"; Ingest.size := 10 |};
     Ingest.decode_file := λ fi, (None, fi, ∅) |}.

(** The same with a file of no byte, and of 5000 bytes. *)
Definition working_empty : Ingest.Collaborators :=
  {| Ingest.fault := λ _, None;
     Ingest.leaves_partial := λ _, false;
     Ingest.dirs_made := 0;
     Ingest.keys_reversed := λ _, false;
     Ingest.user_params := settings;
     Ingest.identified := {| Ingest.sha256 := "h0"; Ingest.size := 0 |};
     Ingest.decode_file := λ fi, (None, fi, ∅) |}.

Definition working_large : Ingest.Collaborators :=
  {| Ingest.fault := λ _, None;
     Ingest.leaves_partial := λ _, false;
     Ingest.dirs_made := 0;
     Ingest.keys_reversed := λ _, false;
     Ingest.user_params := settings;
     Ingest.identified := {| Ingest.sha256 := "h5"; Ingest.size := 5000 |};
     Ingest.decode_file := λ fi, (None, fi, ∅) |}.

(** A world whose file store holds [h1], [h0] and [h5]. *)
Definition stocked : Ingest.World :=
  {| Ingest.disk := {["/etc/passwd"]};
     Ingest.filestore := {["h1"; "h0"; "h5"]};
     Ingest.uploads := [];
     Ingest.freshened := [];
     Ingest.ingest := [];
     Ingest.received := [];
     Ingest.ids_drawn := 0 |}.

(** A world whose file store is empty. *)
Definition bare : Ingest.World :=
  {| Ingest.disk := ∅;
     Ingest.filestore := ∅;
     Ingest.uploads := [];
     Ingest.freshened := [];
     Ingest.ingest := [];
     Ingest.received := [];
     Ingest.ids_drawn := 0 |}.

Definition json_request (body : dict) : Ingest.Request :=
  {| Ingest.content_type := Some "application/json";
     Ingest.values_json := Ingest.NoPart;
     Ingest.files_bin := None;
     Ingest.json := VDict body |}.

Definition upload_request (part : Ingest.form_part) : Ingest.Request :=
  {| Ingest.content_type := Some "multipart/form-data; boundary=0b34a3c5";
     Ingest.values_json := part;
     Ingest.files_bin := Some {| Ingest.filename := VStr "sample.bin" |};
     Ingest.json := VNone |}.

(** [{"sha256": "h1", "params": params}] *)
Definition by_hash (h : string) (params : dict) : Ingest.Request :=
  json_request (<["sha256" := VStr h]> (<["params" := VDict params]> ∅)).

(** [{"url": u}] *)
Definition by_url (u : string) : Ingest.Request :=
  json_request (<["url" := VStr u]> ∅).

(** A deployment that takes URL submissions, a fetch that is refused for
    the size of the file, and a file that wraps another one. *)
Definition cfg_urls : Ingest.Config :=
  {| Ingest.TEMP_SUBMIT_DIR := "/var/lib/assemblyline/submit";
     Ingest.MAX_SIZE := 1000;
     Ingest.allow_url_submissions := true;
     Ingest.ingest_max_priority := 250;
     Ingest.default_max_extracted := 100;
     Ingest.default_max_supplementary := 100;
     Ingest.max_dtl := 30 |}.

Definition failing_fetch : Ingest.Collaborators :=
  {| Ingest.fault := λ c, match c with
                          | Ingest.c_safe_download => Some FileTooBigException
                          | _ => None
                          end;
     Ingest.leaves_partial := λ _, true;
     Ingest.dirs_made := 0;
     Ingest.keys_reversed := λ _, false;
     Ingest.user_params := settings;
     Ingest.identified := {| Ingest.sha256 := "h1"; Ingest.size := 10 |};
     Ingest.decode_file := λ fi, (None, fi, ∅) |}.

Definition unwrapping : Ingest.Collaborators :=
  {| Ingest.fault := λ _, None;
     Ingest.leaves_partial := λ _, false;
     Ingest.dirs_made := 0;
     Ingest.keys_reversed := λ _, false;
     Ingest.user_params := settings;
     Ingest.identified := {| Ingest.sha256 := "h1"; Ingest.size := 10 |};
     Ingest.decode_file :=
       λ _, (Some "/var/lib/assemblyline/submit/inner",
             {| Ingest.sha256 := "h7"; Ingest.size := 7 |},
             <["name" := VStr "inner.exe"]> (<["ingest_id" := VStr "earlier"]> ∅)) |}.

Definition run (col : Ingest.Collaborators) (req : Ingest.Request) (w : Ingest.World)
  : flow Empty_set * Ingest.World :=
  Ingest.ingest_single_file safe_str get_random_id now_as_iso flatten str cfg
    col analyst req w.

(** The parameters of the submissions on the ingest queue. *)
Definition admitted_params (w : Ingest.World) : list dict :=
  map Ingest.params (Ingest.ingest w).

End Samples.

(** * Properties *)

(** ** The live-status protocol *)

Module LiveFacts.
Import Live.


Lemma messages_popped (name : string) (rest : list value) (qs : queues) :
  NamedQueue.messages name (<[name := rest]> qs) = rest.
Proof. unfold NamedQueue.messages. by rewrite lookup_insert_eq. Qed.

Lemma pop_cons (name : string) (qs : queues) (msg : value) (rest : list value) :
  NamedQueue.messages name qs = msg :: rest →
  NamedQueue.pop name qs = (Some msg, <[name := rest]> qs).
Proof. unfold NamedQueue.pop. by intros ->. Qed.

Lemma pop_nil (name : string) (qs : queues) :
  NamedQueue.messages name qs = [] → NamedQueue.pop name qs = (None, qs).
Proof. unfold NamedQueue.pop. by intros ->. Qed.

(** The two copies of the status chain in the source agree on a message
    that is not null. *)
Lemma get_messages_response_same (msg : value) :
  msg ≠ VNone → get_messages_response msg = get_message_response (Some msg).
Proof. by destruct msg. Qed.

Lemma status_message_not_null (msg : value) :
  is_status_message msg = true → msg ≠ VNone.
Proof. by destruct msg. Qed.

(** One turn of the loop on a message that is not null. *)
Lemma get_messages_loop_step (wq_id : string) (fuel : nat) (resp_list : list value)
    (qs : queues) (msg : value) (rest : list value) :
  NamedQueue.messages wq_id qs = msg :: rest →
  msg ≠ VNone →
  get_messages_loop (S fuel) wq_id resp_list qs
  = match get_messages_response msg with
    | Next response =>
        get_messages_loop fuel wq_id (resp_list ++ [response]) (<[wq_id := rest]> qs)
    | Respond r => Some (Respond r, <[wq_id := rest]> qs)
    | Throw e => Some (Throw e, <[wq_id := rest]> qs)
    end.
Proof.
  intros Hq Hmsg. cbn [get_messages_loop]. rewrite (pop_cons _ _ _ _ Hq).
  by destruct msg.
Qed.

(** The loop stops at the empty queue and at a null. *)
Lemma get_messages_loop_stops (wq_id : string) (fuel : nat) (resp_list : list value)
    (qs : queues) :
  NamedQueue.messages wq_id qs = [] ∨ head (NamedQueue.messages wq_id qs) = Some VNone →
  ∃ qs', get_messages_loop (S fuel) wq_id resp_list qs = Some (Next resp_list, qs')
         ∧ NamedQueue.messages wq_id qs' = tail (NamedQueue.messages wq_id qs).
Proof.
  intros [Hq|Hq]; cbn [get_messages_loop].
  - rewrite (pop_nil _ _ Hq), Hq. by exists qs.
  - destruct (NamedQueue.messages wq_id qs) as [|msg rest] eqn:Hmsgs; [done|].
    injection Hq as ->. rewrite (pop_cons _ _ _ _ Hmsgs).
    eexists. split; [done|]. apply messages_popped.
Qed.

Lemma status_message_answered (msg : value) :
  is_status_message msg = true →
  ∃ entry, get_message_response (Some msg) = Next entry
           ∧ getitem entry "type" ≠ Next (VStr "timeout").
Proof.
  destruct msg as [| | | | |m]; simpl; try discriminate.
  destruct (m !! "status") as [status|] eqn:Hs; simpl; [|discriminate].
  destruct (Py.eq_str status "STOP") eqn:H1.
  { intros _. eexists. split; [reflexivity|]. by vm_compute. }
  destruct (Py.eq_str status "START") eqn:H2.
  { intros _. eexists. split; [reflexivity|]. by vm_compute. }
  destruct (Py.eq_str status "OK") eqn:H3; simpl.
  { intros [ck Hck]%bool_decide_eq_true. rewrite Hck. simpl.
    eexists. split; [reflexivity|]. by vm_compute. }
  destruct (Py.eq_str status "FAIL") eqn:H4; simpl.
  { intros [ck Hck]%bool_decide_eq_true. rewrite Hck. simpl.
    eexists. split; [reflexivity|]. by vm_compute. }
  intros _. eexists. split; [reflexivity|]. by vm_compute.
Qed.

(** The loop, from any accumulator: with more fuel than status messages it
    appends one entry per message, in order, and stops at the end of the
    queue or at the null that follows them. *)
Lemma get_messages_loop_drains (wq_id : string) (msgs : list value) :
  ∀ (fuel : nat) (resp_list rest : list value) (qs : queues),
    NamedQueue.messages wq_id qs = msgs ++ rest →
    rest = [] ∨ head rest = Some VNone →
    forallb is_status_message msgs = true →
    length msgs < fuel →
    ∃ entries qs',
      get_messages_loop fuel wq_id resp_list qs = Some (Next (resp_list ++ entries), qs')
      ∧ NamedQueue.messages wq_id qs' = tail rest
      ∧ Forall2 (λ msg entry, get_message_response (Some msg) = Next entry) msgs entries
      ∧ Forall (λ entry, getitem entry "type" ≠ Next (VStr "timeout")) entries.
Proof.
  induction msgs as [|msg msgs IH]; intros fuel resp_list rest qs Hq Hrest Hwf Hfuel.
  - destruct fuel as [|fuel]; [simpl in Hfuel; lia|].
    simpl in Hq.
    destruct (get_messages_loop_stops wq_id fuel resp_list qs) as (qs' & Hloop & Hleft).
    { rewrite Hq. destruct Hrest as [->|Hrest]; auto. }
    exists [], qs'. rewrite app_nil_r, Hloop, Hleft, Hq. repeat split; auto.
  - destruct fuel as [|fuel]; [simpl in Hfuel; lia|].
    simpl in Hwf. apply andb_true_iff in Hwf as [Hmsg Hmsgs].
    destruct (status_message_answered msg Hmsg) as (entry & Hentry & Hty).
    pose proof (status_message_not_null msg Hmsg) as Hnull.
    destruct (IH fuel (resp_list ++ [entry]) rest (<[wq_id := msgs ++ rest]> qs))
      as (entries & qs' & Hloop & Hleft & Hall & Hno).
    { apply messages_popped. } { exact Hrest. } { exact Hmsgs. }
    { simpl in Hfuel. lia. }
    exists (entry :: entries), qs'.
    rewrite (get_messages_loop_step _ _ _ _ msg (msgs ++ rest)) by done.
    rewrite (get_messages_response_same _ Hnull), Hentry, Hloop, <- app_assoc.
    repeat split; auto.
Qed.




(** C6, against the claim.  A watch queue that holds three messages, a
    START, a JSON null and a STOP: [get_messages] returns one entry, not
    three, and leaves the STOP on the queue. *)
Lemma null_ends_the_drain :
  length (NamedQueue.messages "wq-1" Samples.null_in_the_middle) = 3
  ∧ ∃ entry,
      get_messages 4 "wq-1" Samples.null_in_the_middle
      = Some (Respond (api_ok (VList [entry])),
              <["wq-1" := [Samples.status_msg "STOP"]]> Samples.null_in_the_middle)
      ∧ getitem entry "type" = Next (VStr "start").
Proof.
  split; [reflexivity|]. eexists. split; [vm_compute; reflexivity|reflexivity].
Qed.

(** C6, as the code has it.  On a watch queue whose messages, up to its end
    or up to the first JSON null, are status messages, [get_messages] returns
    one entry per such message, in the order of the queue, each the entry
    [get_message] builds for that message, and none a timeout entry; it
    stops as soon as the fuel exceeds the number of these messages, takes
    them and the null off the queue and leaves what follows the null; on an
    empty queue the list is empty. *)
Theorem get_messages_drains_in_order (wq_id : string) (qs : queues) (fuel : nat)
    (msgs rest : list value) :
  NamedQueue.messages wq_id qs = msgs ++ rest →
  rest = [] ∨ head rest = Some VNone →
  forallb is_status_message msgs = true →
  length msgs < fuel →
  ∃ (entries : list value) (qs' : queues),
    get_messages fuel wq_id qs = Some (Respond (api_ok (VList entries)), qs')
    ∧ NamedQueue.messages wq_id qs' = tail rest
    ∧ length entries = length msgs
    ∧ Forall2 (λ msg entry, get_message_response (Some msg) = Next entry) msgs entries
    ∧ Forall (λ entry, getitem entry "type" ≠ Next (VStr "timeout")) entries
    ∧ (NamedQueue.messages wq_id qs = [] → entries = []).
Proof.
  intros Hq Hrest Hwf Hfuel.
  destruct (get_messages_loop_drains wq_id msgs fuel [] rest qs Hq Hrest Hwf Hfuel)
    as (entries & qs' & Hloop & Hleft & Hall & Hno).
  exists entries, qs'. unfold get_messages. rewrite Hloop. simpl.
  repeat split; auto.
  - symmetry. eapply Forall2_length, Hall.
  - intros Hnil. rewrite Hnil in Hq. symmetry in Hq.
    apply app_eq_nil in Hq as [-> _]. by inversion Hall.
Qed.

(** The five sample messages are drained with six units of fuel, and the
    sample queue with a null gives the entry of its first message. *)
Lemma get_messages_drains_in_order_witness :
  (∃ (entries : list value) (qs' : queues),
     get_messages 6 "wq-1" Samples.five_messages
       = Some (Respond (api_ok (VList entries)), qs')
     ∧ NamedQueue.messages "wq-1" qs' = []
     ∧ length entries = 5
     ∧ Forall2 (λ msg entry, get_message_response (Some msg) = Next entry)
         (NamedQueue.messages "wq-1" Samples.five_messages) entries
     ∧ Forall (λ entry, getitem entry "type" ≠ Next (VStr "timeout")) entries
     ∧ (NamedQueue.messages "wq-1" Samples.five_messages = [] → entries = []))
  ∧ (∃ (entries : list value) (qs' : queues),
       get_messages 2 "wq-1" Samples.null_in_the_middle
         = Some (Respond (api_ok (VList entries)), qs')
       ∧ NamedQueue.messages "wq-1" qs' = [Samples.status_msg "STOP"]
       ∧ length entries = 1
       ∧ Forall2 (λ msg entry, get_message_response (Some msg) = Next entry)
           [Samples.status_msg "START"] entries
       ∧ Forall (λ entry, getitem entry "type" ≠ Next (VStr "timeout")) entries
       ∧ (NamedQueue.messages "wq-1" Samples.null_in_the_middle = [] → entries = [])).
Proof.
  split.
  - apply (get_messages_drains_in_order "wq-1" Samples.five_messages 6
             (NamedQueue.messages "wq-1" Samples.five_messages) []).
    + by rewrite app_nil_r.
    + by left.
    + reflexivity.
    + vm_compute. lia.
  - apply (get_messages_drains_in_order "wq-1" Samples.null_in_the_middle 2
             [Samples.status_msg "START"] [VNone; Samples.status_msg "STOP"]).
    + reflexivity.
    + by right.
    + reflexivity.
    + simpl. lia.
Defined.

Section ControlFacts.

Variable reply_queue_name : string → nat → string.
Variable get_submission : string → value.
Variable is_accessible : value → value → bool.

(** A caller who may not read the submission gets a 403 and nothing is
    pushed on any queue. *)
Lemma outstanding_services_denied (sid : string) (user : value)
    (arrivals : list value) (w : World) :
  may_access is_accessible user (get_submission sid) = Next false →
  outstanding_services reply_queue_name get_submission is_accessible
      sid user arrivals w
    = (Respond (make_api_response (VDict ∅)
                  "You are not allowed to access this submissions." 403), w).
Proof. unfold outstanding_services. by intros ->. Qed.

(** A caller who may read it has one request pushed on ["control-queue"],
    carrying a reply queue drawn for this call, and is answered with the
    first message of that queue within the wait, if any. *)
Lemma outstanding_services_exchange (sid : string) (user : value)
    (arrivals : list value) (w : World) :
  may_access is_accessible user (get_submission sid) = Next true →
  let reply_name := reply_queue_name "oustanding_services" (names_drawn w) in
  let request :=
    VDict (<["sid" := VStr sid]> (<["state" := VStr "oustanding_services"]>
          (<["watch_queue" := VStr reply_name]> ∅))) in
  let pushed := NamedQueue.push "control-queue" request (named_queues w) in
  ∃ w',
    outstanding_services reply_queue_name get_submission is_accessible
        sid user arrivals w
      = (Respond (api_ok (default VNone
                    (head (NamedQueue.messages reply_name pushed ++ arrivals)))), w')
    ∧ names_drawn w' = S (names_drawn w).
Proof.
  intros Hacc reply_name request pushed. unfold outstanding_services.
  rewrite Hacc. fold reply_name. fold request. fold pushed.
  unfold NamedQueue.pop_blocking, NamedQueue.pop.
  rewrite messages_popped.
  destruct (NamedQueue.messages reply_name pushed ++ arrivals) as [|reply rest];
    eexists; split; reflexivity.
Qed.

End ControlFacts.

(** C7.  The request [outstanding_services] pushes on ["control-queue"]
    carries the state ["oustanding_services"], which is not the string
    ["outstanding_services"]. *)
Theorem outstanding_services_state_misspelt :
  ∃ request,
    NamedQueue.messages "control-queue"
      (named_queues (snd (outstanding_services Samples.reply_queue_name
                            Samples.get_submission Samples.is_accessible
                            "sid-1" Samples.analyst [] Samples.quiet)))
      = [request]
    ∧ getitem request "state" = Next (VStr "oustanding_services")
    ∧ getitem request "state" ≠ Next (VStr "outstanding_services")
    ∧ getitem request "watch_queue" = Next (VStr "oustanding_services-0").
Proof.
  eexists. split; [vm_compute; reflexivity|].
  split; [reflexivity|]. split; [discriminate|reflexivity].
Qed.

End LiveFacts.

(** ** The admission pipeline *)

Module IngestFacts.
Import Ingest.

(** *** Rules for [wp] *)

Lemma wp_bind {A B} (c : M A) (k : A → M B) (fr : Frame) (Q : flow B → Frame → Prop) :
  wp c fr (λ r fr1, match r with
                    | Next a => wp (k a) fr1 Q
                    | Respond x => Q (Respond x) fr1
                    | Throw e => Q (Throw e) fr1
                    end) →
  wp (io_bind c k) fr Q.
Proof.
  intros Hc r fr' Hrun. unfold io_bind in Hrun.
  destruct (c fr) as [[a|x|e] fr1] eqn:Ec; specialize (Hc _ _ Ec); simpl in Hc.
  - by apply Hc.
  - by simplify_eq.
  - by simplify_eq.
Qed.

Lemma wp_mono {A} (c : M A) (fr : Frame) (Q Q' : flow A → Frame → Prop) :
  wp c fr Q → (∀ r fr', Q r fr' → Q' r fr') → wp c fr Q'.
Proof. intros Hc HQ r fr' Hrun. by apply HQ, Hc. Qed.

Lemma wp_pure {A} (c : flow A) (fr : Frame) (Q : flow A → Frame → Prop) :
  Q c fr → wp (pure c) fr Q.
Proof. intros HQ r fr' [= <- <-]. done. Qed.

Lemma wp_calling (col : Collaborators) (c : call) (fr : Frame)
    (Q : flow () → Frame → Prop) :
  (∀ e, fault col c = Some e → Q (Throw e) fr) →
  (fault col c = None → Q (Next ()) fr) →
  wp (calling col c) fr Q.
Proof.
  intros He Hok r fr'. unfold calling, pure.
  destruct (fault col c) as [e|]; intros [= <- <-]; auto.
Qed.

Lemma wp_try_finally {A} (body : M A) (cleanup : Frame → Frame) (fr : Frame)
    (Q : flow A → Frame → Prop) :
  wp body fr (λ r fr1, Q r (cleanup fr1)) → wp (try_finally body cleanup) fr Q.
Proof.
  intros Hb r fr'. unfold try_finally.
  destruct (body fr) as [r1 fr1] eqn:Eb. intros [= <- <-]. by apply Hb.
Qed.

(** *** The phases that answer without touching the world *)

Ltac flow_inv :=
  unfold not_admitted, flow_bind, Py.get, Py.or_else, Py.min_int,
    OsPath.basename_value, getitem, dict_getitem in *;
  repeat (simplify_eq/=; try case_match); simplify_eq/=.

Lemma parse_request_rejects (req : Request) (r : api_response) :
  parse_request req = Respond r → api_status_code r = 400%Z.
Proof. unfold parse_request. intros H. flow_inv; done. Qed.

Lemma validate_rejects (safe_str : string → string) (p : Parsed) (r : api_response) :
  validate safe_str p = Respond r → api_status_code r = 400%Z.
Proof. unfold validate. intros H. flow_inv; done. Qed.

Lemma size_gate_rejects (cfg : Config) (fi : fileinfo) (s_params : dict)
    (r : api_response) :
  size_gate cfg fi s_params = Respond r → api_status_code r = 400%Z.
Proof. unfold size_gate. intros H. flow_inv; done. Qed.

Lemma new_submission_rejects (col : Collaborators) (s : Submission) (r : api_response) :
  new_submission col s = Respond r → api_status_code r = 400%Z.
Proof. unfold new_submission. intros H. flow_inv; done. Qed.

Lemma new_submission_passes (col : Collaborators) (s s' : Submission) :
  new_submission col s = Next s' → s' = s.
Proof. unfold new_submission. intros H. flow_inv; done. Qed.

Lemma update_element_no_answer (reversed : bool) (i : nat) (e : value)
    (r : api_response) :
  update_element reversed i e ≠ Respond r.
Proof. unfold update_element. by repeat case_match. Qed.

Lemma pairs_no_answer (reversed : nat → bool) (l : list value) :
  ∀ (i : nat) (d : dict * list (value * value)) (r : api_response),
    pairs reversed i l d ≠ Respond r.
Proof.
  induction l as [|x l IH]; intros i d r; simpl; [done|].
  destruct (update_element (reversed i) i x) as [[k v]|x0|e] eqn:Hx;
    [apply IH| |done].
  by apply update_element_no_answer in Hx.
Qed.

Lemma update_arg_no_answer (reversed : nat → bool) (v : value) (r : api_response) :
  update_arg reversed v ≠ Respond r.
Proof.
  unfold update_arg. destruct v; try done; simpl; apply pairs_no_answer.
Qed.

(** A dictionary updates with its own entries. *)
Lemma update_arg_dict (reversed : nat → bool) (given_v : value)
    (given : dict * list (value * value)) :
  update_arg reversed given_v = Next given →
  ∀ d, given_v = VDict d → given = (d, []).
Proof. intros H d ->. by injection H as <-. Qed.

Lemma flow_bind_no_answer {A B} (c : flow A) (k : A → flow B) :
  (∀ r, c ≠ Respond r) → (∀ a r, k a ≠ Respond r) → ∀ r, flow_bind c k ≠ Respond r.
Proof.
  intros Hc Hk r. destruct c as [a|r0|e]; simpl; [apply Hk| |done].
  by specialize (Hc r0).
Qed.

Lemma build_params_no_answer (cfg : Config) (col : Collaborators)
    (user data generate_alert : value) (r : api_response) :
  build_params cfg col user data generate_alert ≠ Respond r.
Proof.
  revert r. unfold build_params.
  apply flow_bind_no_answer; [intros; by case_match|intros _].
  apply flow_bind_no_answer; [intros; unfold Py.get; by case_match|intros given].
  apply flow_bind_no_answer; [apply update_arg_no_answer|intros upd].
  apply flow_bind_no_answer.
  { intros r. case_match; [done|]. unfold getitem, flow_bind. by repeat case_match. }
  intros s_params.
  apply flow_bind_no_answer; [intros; unfold Py.min_int; by case_match|intros pr].
  apply flow_bind_no_answer; [intros; unfold getitem; by repeat case_match|intros sub].
  intros r. case_match; [|done].
  revert r. apply flow_bind_no_answer.
  { intros; unfold dict_getitem; by case_match. }
  intros ttl. apply flow_bind_no_answer; [|done].
  intros r. case_match; [|done]. unfold Py.min_int. by case_match.
Qed.

Section Pipeline.

Variable safe_str : string → string.
Variable get_random_id : nat → string.
Variable now_as_iso : option Z → string.
Variable flatten : value → exn + dict.
Variable str : value → string.
Variable cfg : Config.

Lemma assemble_no_answer (data : value) (ingest_id name : string)
    (al_meta extra_meta s_params : dict) (r : api_response) :
  assemble now_as_iso flatten str data ingest_id name al_meta extra_meta s_params
    ≠ Respond r.
Proof.
  revert r. unfold assemble.
  apply flow_bind_no_answer; [intros; unfold Py.get; by case_match|intros given].
  apply flow_bind_no_answer; [intros; by destruct (flatten given)|intros md].
  apply flow_bind_no_answer; [intros; unfold dict_getitem; by case_match|intros ty].
  apply flow_bind_no_answer; [intros; unfold dict_getitem; by case_match|intros d].
  apply flow_bind_no_answer; [|done].
  intros r. unfold Py.or_else. case_match; [done|].
  revert r. apply flow_bind_no_answer; [|done].
  intros; unfold dict_getitem; by case_match.
Qed.


(** *** What is on the disk *)

Lemma elem_of_create (p q : string) (w : World) :
  p ∈ disk (create q w) → p ∈ disk w ∨ (p = q ∧ Py.truthy (VStr p) = true).
Proof.
  unfold create, with_disk. simpl.
  destruct q as [|c q]; simpl; [by left|].
  rewrite elem_of_union, elem_of_singleton. intros [->|?]; [by right|by left].
Qed.

Lemma elem_of_makedirs (col : Collaborators) (p q : string) (w : World) :
  p ∈ disk (makedirs col q w) →
  p ∈ disk w ∨ p = q ∨ p ∈ OsPath.ancestors q.
Proof.
  unfold makedirs, with_disk. cbn [disk].
  destruct (bool_decide (q ∈ disk w)); [by left|].
  destruct (fault col c_makedirs).
  - rewrite elem_of_union, elem_of_list_to_set.
    intros [Hp|Hp]; [|by left]. right. right.
    rewrite <- (take_drop (dirs_made col) (OsPath.ancestors q)).
    apply elem_of_app. by left.
  - destruct (Py.truthy (VStr q)); [|by left].
    rewrite elem_of_union, elem_of_list_to_set, elem_of_app, list_elem_of_singleton.
    intros [[Hp|Hp]|Hp]; auto.
Qed.

Lemma accounted_step (base : gset string) (out_dir : string) (fr fr' : Frame) :
  (∀ p, p ∈ disk (world fr') →
        p ∈ disk (world fr) ∨ p ∈ base ∨ p = out_dir
        ∨ (Py.truthy (VStr p) = true
           ∧ (original_file fr' = Some p ∨ extracted_path fr' = Some p))) →
  (original_file fr = None ∨ original_file fr' = original_file fr) →
  (extracted_path fr = None ∨ extracted_path fr' = extracted_path fr) →
  accounted base out_dir fr → accounted base out_dir fr'.
Proof.
  intros Hdisk Ho He Hacc p Hp.
  destruct (Hdisk p Hp) as [Hold|[?|[?|?]]]; auto.
  destruct (Hacc p Hold) as [?|[?|[Ht [Hpo|Hpe]]]]; auto.
  - destruct Ho as [Ho|Ho]; [congruence|]. rewrite Ho. auto.
  - destruct He as [He|He]; [congruence|]. rewrite He. auto.
Qed.

Ltac solve_accounted :=
  eapply accounted_step; [| | |eassumption];
  cbn [world original_file extracted_path id];
  [ let q := fresh "q" in
    let Hq := fresh "Hq" in
    intros q Hq;
    repeat (apply elem_of_create in Hq as [Hq|[-> ?]]);
    try (apply elem_of_makedirs in Hq as [Hq|[->|Hq]]); auto 8
  | auto | auto ].

Ltac run_phase H :=
  unfold io_bind, pure, calling, modify_world, read_world,
    set_original_file, set_extracted_path, written in H;
  simpl in H; repeat (case_match; simplify_eq/=).

Lemma load_file_disk (col : Collaborators) (base : gset string) (out_dir : string)
    (p : Parsed) (v : Validated) (fr : Frame) :
  (∀ a, a ∈ OsPath.ancestors out_dir → a ∈ base) →
  original_file fr = None → extracted_path fr = None →
  accounted base out_dir fr →
  wp (load_file cfg col out_dir p v) fr
     (λ _ fr1, accounted base out_dir fr1 ∧ extracted_path fr1 = None).
Proof.
  intros Hbase Ho He Hacc r fr' H.
  unfold load_file, exists_ in H. run_phase H.
  all: split; [solve_accounted|done].
Qed.

(** The file a failing decoder leaves is a path of [base]. *)
Lemma decode_and_store_disk (col : Collaborators) (base : gset string)
    (out_dir out_file : string) (fi : fileinfo) (fr : Frame) :
  (∀ q, is_Some (fault col c_decode_file) → (decode_file col fi).1.1 = Some q →
        q ∈ base) →
  extracted_path fr = None →
  accounted base out_dir fr →
  wp (decode_and_store col out_file fi) fr (λ _ fr1, accounted base out_dir fr1).
Proof.
  intros Hleft He Hacc r fr' H.
  unfold decode_and_store, exists_ in H.
  destruct (decode_file col fi) as [[extracted fi'] al_meta] eqn:Hdec.
  cbn [fst] in Hleft.
  destruct (fault col c_decode_file) as [e|] eqn:Hfault.
  - unfold io_bind, pure, calling, modify_world, written in H.
    rewrite Hfault in H. simpl in H. simplify_eq.
    eapply accounted_step; [| | |eassumption];
      cbn [world original_file extracted_path]; [|auto..].
    intros q Hq. destruct extracted as [x|]; [|by left].
    destruct (leaves_partial col c_decode_file); [|by left].
    apply elem_of_create in Hq as [Hq|[-> _]]; [by left|].
    right. left. by apply Hleft.
  - revert Hleft. run_phase H; intros Hleft.
    all: solve_accounted.
Qed.

Lemma freshen_disk (col : Collaborators) (base : gset string) (out_dir : string)
    (fi : fileinfo) (s_params : dict) (fr : Frame) :
  accounted base out_dir fr →
  wp (freshen now_as_iso col fi s_params) fr (λ _ fr1, accounted base out_dir fr1).
Proof.
  intros Hacc r fr' H.
  unfold freshen in H. run_phase H.
  all: solve_accounted.
Qed.


Lemma admission_disk (col : Collaborators) (user : value) (base : gset string)
    (out_dir : string) (req : Request) (fr : Frame) :
  (∀ a, a ∈ OsPath.ancestors out_dir → a ∈ base) →
  (∀ q, is_Some (fault col c_decode_file) →
        (decode_file col (identified col)).1.1 = Some q → q ∈ base) →
  original_file fr = None → extracted_path fr = None →
  accounted base out_dir fr →
  wp (admission safe_str get_random_id now_as_iso flatten str cfg col user out_dir req)
     fr (λ _ fr1, accounted base out_dir fr1).
Proof.
  intros Hbase Hleft Ho He Hacc. unfold admission.
  apply wp_bind, wp_pure.
  destruct (parse_request req) as [p|x|e]; [|done..].
  apply wp_bind, wp_pure.
  destruct (validate safe_str p) as [v|x|e]; [|done..].
  eapply wp_bind, wp_mono; [by apply load_file_disk|].
  intros [[out_file extra_meta]|x|e] fr1 [Hacc1 He1]; [|done..].
  apply wp_bind, wp_pure.
  destruct (build_params cfg col user (data p) (generate_alert v))
    as [s_params|x|e]; [|done..].
  apply wp_bind, wp_calling; [done|intros _].
  apply wp_bind, wp_pure.
  destruct (size_gate cfg (identified col) s_params) as [[]|x|e]; [|done..].
  eapply wp_bind, wp_mono; [by apply decode_and_store_disk|].
  intros [[fi al_meta]|x|e] fr2 Hacc2; [|done..].
  eapply wp_bind, wp_mono; [by apply freshen_disk|].
  intros [[]|x|e] fr3 Hacc3; [|done..].
  intros r fr' H. run_phase H.
  all: solve_accounted.
Qed.

Lemma within_refl (dir : string) : OsPath.within dir dir = true.
Proof. unfold OsPath.within. by rewrite String.eqb_refl. Qed.

Lemma elem_of_removed (o : option string) (w : World) (p : string) :
  p ∈ disk (match o with
            | Some q => if Py.truthy (VStr q) then unlink q w else w
            | None => w
            end) →
  p ∈ disk w ∧ (Py.truthy (VStr p) = true → o ≠ Some p).
Proof.
  destruct o as [q|]; [destruct (Py.truthy (VStr q)) eqn:Hq|]; [| |done].
  - unfold unlink, with_disk. cbn [disk].
    rewrite elem_of_difference, elem_of_singleton.
    intros [Hin Hne]. split; [done|]. intros _ [= ->]. done.
  - intros Hin. split; [done|]. intros Ht [= ->]. congruence.
Qed.

Lemma cleanup_disk (base : gset string) (out_dir : string) (fr : Frame) (p : string) :
  accounted base out_dir fr →
  p ∈ disk (world (cleanup out_dir fr)) →
  p ∈ base ∧ OsPath.within out_dir p = false.
Proof.
  intros Hacc. unfold cleanup, rmtree, with_disk. cbn [world disk].
  rewrite elem_of_filter. intros [Hout Hp].
  assert (OsPath.within out_dir p = false) as Hw.
  { destruct (OsPath.within out_dir p); [by destruct Hout|done]. }
  split; [|done].
  apply elem_of_removed in Hp as [Hp Hne].
  apply elem_of_removed in Hp as [Hin Hno].
  destruct (Hacc p Hin) as [?|[->|[Ht [?|?]]]];
    [done| |by apply Hno in Ht|by apply Hne in Ht].
  by rewrite within_refl in Hw.
Qed.

(** C2.  When [ingest_single_file] is over, however it ends, the working
    directory and whatever lies in it are gone, and so is every file the
    request wrote: a path the disk holds then is a path it held before, or a
    directory above the working directory, which [os.makedirs] created, or
    the file a decoder that raised left behind. *)
Theorem cleanup_on_every_exit (col : Collaborators) (user : value) (req : Request)
    (w : World) :
  let out_dir := OsPath.join (TEMP_SUBMIT_DIR cfg) (get_random_id (ids_drawn w)) in
  let after :=
    disk (snd (ingest_single_file safe_str get_random_id now_as_iso flatten str
                 cfg col user req w)) in
  (out_dir ∉ after)
  ∧ (∀ p, OsPath.within out_dir p = true → p ∉ after)
  ∧ (∀ p, p ∈ after →
          p ∈ disk w
          ∨ p ∈ OsPath.ancestors out_dir
          ∨ (is_Some (fault col c_decode_file)
             ∧ (decode_file col (identified col)).1.1 = Some p)).
Proof.
  intros out_dir after.
  set (left_behind :=
         match fault col c_decode_file, (decode_file col (identified col)).1.1 with
         | Some _, Some q => {[q]}
         | _, _ => ∅
         end : gset string).
  set (base := disk w ∪ list_to_set (OsPath.ancestors out_dir) ∪ left_behind).
  assert (∀ p, p ∈ after → p ∈ base ∧ OsPath.within out_dir p = false) as Hafter.
  { subst after. unfold ingest_single_file. fold out_dir.
    destruct (try_finally _ _ _) as [r fr'] eqn:Hrun. cbn [snd].
    revert r fr' Hrun.
    apply (wp_try_finally _ _ _ (λ _ fr', ∀ p, p ∈ disk (world fr') → _)).
    eapply wp_mono.
    - apply (admission_disk col user base out_dir req); [| |done..|].
      + intros a Ha. unfold base.
        apply elem_of_union_l, elem_of_union_r, elem_of_list_to_set, Ha.
      + intros q [e He] Hq. unfold base, left_behind. rewrite He, Hq.
        apply elem_of_union_r, elem_of_singleton. reflexivity.
      + intros p Hp. left. unfold base. by apply elem_of_union_l, elem_of_union_l.
    - intros r fr1 Hacc p. cbn beta. by apply cleanup_disk. }
  split; [|split].
  - intros [_ Hw]%Hafter. by rewrite within_refl in Hw.
  - intros p Hin [_ Hw]%Hafter. congruence.
  - intros p [Hp _]%Hafter. unfold base, left_behind in Hp.
    rewrite !elem_of_union, elem_of_list_to_set in Hp.
    destruct Hp as [[Hp|Hp]|Hp]; auto.
    right. right.
    destruct (fault col c_decode_file) as [e|]; [|by apply elem_of_empty in Hp].
    destruct ((decode_file col (identified col)).1.1) as [q|];
      [|by apply elem_of_empty in Hp].
    apply elem_of_singleton in Hp as ->. split; [by eexists|done].
Qed.


(** *** What an admitted request leaves in the stores *)

Lemma load_file_stores (col : Collaborators) (out_dir : string) (p : Parsed)
    (v : Validated) (fr : Frame) :
  wp (load_file cfg col out_dir p v) fr
     (λ res fr1,
        same_stores (world fr) (world fr1) ∧ not_admitted res
        ∧ ∀ out_file extra_meta,
            res = Next (out_file, extra_meta) →
            out_file = OsPath.join out_dir (safe_name v)).
Proof.
  intros r fr' H. unfold load_file, exists_ in H. run_phase H.
  all: split; [by repeat split|split; [by intros x [= <-]|]].
  all: by intros ? ? [= <- <-].
Qed.

Lemma union_absorb (h : string) (X : gset string) : h ∈ X → X = {[h]} ∪ X.
Proof.
  intros Hin. apply set_eq. intros x. rewrite elem_of_union, elem_of_singleton.
  split; [auto|]. by intros [->|?].
Qed.

Lemma decode_and_store_stores (col : Collaborators) (out_file : string)
    (fi : fileinfo) (fr : Frame) :
  wp (decode_and_store col out_file fi) fr
     (λ res fr1,
        match res with
        | Next (fi', al_meta) =>
            ∃ extracted,
              decode_file col fi = (extracted, fi', al_meta)
              ∧ filestore (world fr1) = {[sha256 fi']} ∪ filestore (world fr)
              ∧ uploads (world fr1)
                = uploads (world fr)
                  ++ (if bool_decide (sha256 fi' ∈ filestore (world fr)) then []
                      else [(final_path out_file extracted, sha256 fi')])
              ∧ ingest (world fr1) = ingest (world fr)
              ∧ received (world fr1) = received (world fr)
              ∧ ids_drawn (world fr1) = ids_drawn (world fr)
        | Respond _ => False
        | Throw _ => True
        end).
Proof.
  intros r fr' H. unfold decode_and_store, exists_ in H. run_phase H.
  all: try done.
  all: eexists; split; [done|]; cbn.
  all: repeat match goal with
         | H : bool_decide _ = true |- _ => apply bool_decide_eq_true in H
         | H : bool_decide _ = false |- _ => apply bool_decide_eq_false in H
         end.
  all: rewrite ?bool_decide_eq_true_2, ?bool_decide_eq_false_2 by done.
  all: rewrite ?app_nil_r; repeat split; try done.
  all: by apply union_absorb.
Qed.

Lemma freshen_stores (col : Collaborators) (fi : fileinfo) (s_params : dict)
    (fr : Frame) :
  wp (freshen now_as_iso col fi s_params) fr
     (λ res fr1,
        match res with
        | Next _ =>
            filestore (world fr1) = filestore (world fr)
            ∧ uploads (world fr1) = uploads (world fr)
            ∧ ingest (world fr1) = ingest (world fr)
            ∧ received (world fr1) = received (world fr)
            ∧ ids_drawn (world fr1) = ids_drawn (world fr)
        | Respond _ => False
        | Throw _ => True
        end).
Proof.
  intros r fr' H. unfold freshen, dict_getitem in H. run_phase H.
  all: done.
Qed.


(** The request a successful run builds from what the phases return. *)
Lemma admission_admits (col : Collaborators) (user : value) (out_dir : string)
    (req : Request) (fr : Frame) :
  wp (admission safe_str get_random_id now_as_iso flatten str cfg col user out_dir req)
     fr
     (λ res fr1,
        ∀ r, res = Respond r → api_status_code r = 200%Z →
          ∃ p v extra_meta s_params extracted fi al_meta metadata name s_params',
            let ingest_id := get_random_id (ids_drawn (world fr)) in
            let out_file := OsPath.join out_dir (safe_name v) in
            let s := {| sid := ingest_id;
                        files := [ {| file_name := name; file_sha256 := sha256 fi;
                                      file_size := size fi |} ];
                        notification := notification_params v;
                        metadata := metadata;
                        params := s_params';
                        params_other := other_params col (data p) |} in
            parse_request req = Next p
            ∧ validate safe_str p = Next v
            ∧ build_params cfg col user (data p) (generate_alert v) = Next s_params
            ∧ size_gate cfg (identified col) s_params = Next ()
            ∧ decode_file col (identified col) = (extracted, fi, al_meta)
            ∧ assemble now_as_iso flatten str (data p) ingest_id (safe_name v)
                al_meta extra_meta s_params = Next (metadata, name, s_params')
            ∧ r = api_ok (VDict (<["ingest_id" := VStr ingest_id]> ∅))
            ∧ ingest (world fr1) = ingest (world fr) ++ [s]
            ∧ received (world fr1) = received (world fr) ++ [s]
            ∧ filestore (world fr1) = {[sha256 fi]} ∪ filestore (world fr)
            ∧ uploads (world fr1)
              = uploads (world fr)
                ++ (if bool_decide (sha256 fi ∈ filestore (world fr)) then []
                    else [(final_path out_file extracted, sha256 fi)])
            ∧ ids_drawn (world fr1) = S (ids_drawn (world fr))).
Proof.
  unfold admission.
  apply wp_bind, wp_pure.
  destruct (parse_request req) as [p|x|e] eqn:Hparse;
    [|intros r [= <-] Hst; apply parse_request_rejects in Hparse; lia|done].
  apply wp_bind, wp_pure.
  destruct (validate safe_str p) as [v|x|e] eqn:Hvalid;
    [|intros r [= <-] Hst; apply validate_rejects in Hvalid; lia|done].
  eapply wp_bind, wp_mono; [apply load_file_stores|].
  intros [[out_file extra_meta]|x|e] fr1 (Hsame1 & Hrej & Hout);
    [|intros r [= <-] Hst; by destruct (Hrej x)|done].
  specialize (Hout _ _ eq_refl) as ->.
  destruct Hsame1 as (Hfs1 & Hup1 & _ & Hin1 & Hrc1 & Hid1).
  apply wp_bind, wp_pure.
  destruct (build_params cfg col user (data p) (generate_alert v))
    as [s_params|x|e] eqn:Hbuild;
    [|by apply build_params_no_answer in Hbuild|done].
  apply wp_bind, wp_calling; [done|intros _].
  apply wp_bind, wp_pure.
  destruct (size_gate cfg (identified col) s_params) as [[]|x|e] eqn:Hgate;
    [|intros r [= <-] Hst; apply size_gate_rejects in Hgate; lia|done].
  eapply wp_bind, wp_mono; [apply decode_and_store_stores|].
  intros [[fi al_meta]|x|e] fr2 Hdec; [|done..].
  destruct Hdec as (extracted & Hdec & Hfs2 & Hup2 & Hin2 & Hrc2 & Hid2).
  eapply wp_bind, wp_mono; [apply freshen_stores|].
  intros [[]|x|e] fr3 Hfr; [|done..].
  destruct Hfr as (Hfs3 & Hup3 & Hin3 & Hrc3 & Hid3).
  revert Hup2. intros Hup2 res fr' H. revert Hup2. run_phase H.
  all: intros Hup2 answer Hanswer Hst; simplify_eq.
  all: try match goal with
         | H : assemble _ _ _ _ _ _ _ _ _ = Respond _ |- _ =>
             by apply assemble_no_answer in H
         | H : new_submission _ _ = Respond _ |- _ =>
             apply new_submission_rejects in H; lia
         end.
  all: match goal with H : new_submission _ _ = Next _ |- _ =>
         apply new_submission_passes in H as -> end.
  all: rewrite Hid3, Hid2, Hid1 in *.
  all: eexists p, v, _, s_params, extracted, fi, al_meta, _, _, _.
  all: cbn; rewrite Hin3, Hin2, Hin1, Hrc3, Hrc2, Hrc1, Hfs3, Hfs2, Hfs1,
         Hup3, Hup2, Hup1.
  all: repeat split; try done.
  all: match goal with H : bool_decide _ = _ |- _ =>
         rewrite Hfs1 in H; by rewrite H end.
Qed.


Lemma cleanup_stores (out_dir : string) (fr : Frame) :
  same_stores (world fr) (world (cleanup out_dir fr)).
Proof.
  unfold cleanup, same_stores, rmtree, unlink, with_disk. cbn [world].
  by repeat case_match.
Qed.

(** An answer with the code 200 comes from a run of all the phases. *)
Lemma admitted_request (col : Collaborators) (user : value) (req : Request)
    (w w' : World) (r : api_response) :
  ingest_single_file safe_str get_random_id now_as_iso flatten str cfg col user req w
    = (Respond r, w') →
  api_status_code r = 200%Z →
  ∃ s, admitted safe_str get_random_id now_as_iso flatten str cfg col user
         req w r w' s.
Proof.
  unfold ingest_single_file. intros Hrun Hst.
  destruct (try_finally _ _ _) as [res fr'] eqn:Htry. simplify_eq.
  unfold try_finally in Htry.
  destruct (admission _ _ _ _ _ _ _ _ _ _ _) as [res fr1] eqn:Hadm. simplify_eq.
  destruct (admission_admits _ _ _ _ _ _ _ Hadm _ eq_refl Hst)
    as (p & v & extra_meta & s_params & extracted & fi & al_meta & metadata
        & name & s_params' & Hfacts).
  cbv zeta in Hfacts.
  destruct Hfacts as (H1 & H2 & H3 & H4 & H5 & H6 & H7 & H8 & H9 & H10 & H11 & H12).
  destruct (cleanup_stores
              (OsPath.join (TEMP_SUBMIT_DIR cfg) (get_random_id (ids_drawn w))) fr1)
    as (Hfs & Hup & _ & Hin & Hrc & Hid).
  eexists. exists p, v, extra_meta, s_params, extracted, fi, al_meta, metadata,
    name, s_params'.
  cbv zeta. rewrite Hfs, Hup, Hin, Hrc, Hid.
  cbn in *. rewrite H9, H10, H11, H12, H7. repeat split; done.
Qed.


(** *** The submission parameters *)

(** Looking a key up in the parameters, layer by layer. *)
Lemma lookup_update (d other : dict) (k : string) :
  update d other !! k = match other !! k with Some v => Some v | None => d !! k end.
Proof.
  unfold update. rewrite lookup_union. by destruct (other !! k), (d !! k).
Qed.

Lemma build_params_layers (col : Collaborators) (user data generate_alert : value)
    (s_params : dict) :
  build_params cfg col user data generate_alert = Next s_params →
  ∃ given_v given others,
    Py.get data "params" (VDict ∅) = Next given_v
    ∧ update_arg (keys_reversed col) given_v = Next (given, others)
    ∧ (∀ k, k ∉ ["groups"; "generate_alert"; "max_extracted"; "max_supplementary";
                 "priority"; "submitter"; "ttl"] →
            s_params !! k
            = update (update (user_params col) safe_values) given !! k)
    ∧ (∃ priority,
         s_params !! "priority" = Some priority
         ∧ Py.min_int (default (VInt 150) (given !! "priority"))
             (ingest_max_priority cfg) = Next priority)
    ∧ ((0 < max_dtl cfg)%Z →
       ∃ ttl0 ttl,
         update (user_params col) given !! "ttl" = Some ttl0
         ∧ s_params !! "ttl" = Some ttl
         ∧ (if Py.truthy ttl0 then Py.min_int ttl0 (max_dtl cfg)
            else Next (VInt (max_dtl cfg))) = Next ttl).
Proof.
  unfold build_params. intros H.
  destruct (fault col c_load_user_settings); simpl in H; [discriminate H|].
  destruct (Py.get data "params" (VDict ∅)) as [given_v| |] eqn:Hget; simpl in H;
    [|discriminate H..].
  destruct (update_arg (keys_reversed col) given_v) as [[given others]| |] eqn:Harg;
    simpl in H; [|discriminate H..].
  exists given_v, given, others. split; [done|]. split; [done|].
  set (merged := update (update (user_params col) safe_values) given) in *.
  destruct (match merged !! "groups" with Some _ => _ | None => _ end)
    as [layered| |] eqn:Hgroups; simpl in H; [|discriminate H..].
  assert (∀ k, k ≠ "groups" → layered !! k = merged !! k) as Hlayered.
  { intros k Hk. destruct (merged !! "groups"); [by simplify_eq|].
    destruct (getitem user "groups"); simplify_eq/=.
    by rewrite lookup_insert_ne. }
  clear Hgroups.
  destruct (Py.min_int _ _) as [priority| |] eqn:Hpriority; simpl in H;
    [|discriminate H..].
  destruct (getitem user "uname") as [submitter| |]; simpl in H;
    [|discriminate H..].
  set (final := update layered _) in *.
  assert (final !! "priority" = Some priority) as Hfinal_priority.
  { unfold final. rewrite lookup_update. by simplify_map_eq. }
  assert (∀ k, k ∉ ["groups"; "generate_alert"; "max_extracted"; "max_supplementary";
                    "priority"; "submitter"] →
               final !! k = merged !! k) as Hfinal.
  { intros k Hk. rewrite !not_elem_of_cons in Hk.
    destruct Hk as (? & ? & ? & ? & ? & ? & _).
    unfold final. rewrite lookup_update, <- Hlayered by done.
    by rewrite !lookup_insert_ne, lookup_empty. }
  assert (default (VInt 150) (layered !! "priority")
          = default (VInt 150) (given !! "priority")) as Hdefault.
  { rewrite Hlayered by done. unfold merged. rewrite !lookup_update.
    by destruct (given !! "priority"). }
  rewrite Hdefault in Hpriority.
  assert (final !! "ttl" = update (user_params col) given !! "ttl") as Hfinal_ttl.
  { rewrite Hfinal.
    - unfold merged. by rewrite !lookup_update.
    - rewrite !not_elem_of_cons. repeat split; try done. apply not_elem_of_nil. }
  destruct (0 <? max_dtl cfg)%Z eqn:Hdtl.
  - unfold dict_getitem in H. rewrite Hfinal_ttl in H.
    destruct (update (user_params col) given !! "ttl") as [ttl0|] eqn:Httl0;
      simpl in H; [|discriminate H].
    destruct (if Py.truthy ttl0 then _ else _) as [ttl| |] eqn:Hclamp; simpl in H;
      [|discriminate H..].
    injection H as <-. split; [|split].
    + intros k Hk. rewrite !not_elem_of_cons in Hk.
      destruct Hk as (? & ? & ? & ? & ? & ? & ? & _).
      rewrite lookup_insert_ne by done. apply Hfinal.
      rewrite !not_elem_of_cons. repeat split; try done. apply not_elem_of_nil.
    + exists priority. by rewrite lookup_insert_ne.
    + intros _. exists ttl0, ttl. by rewrite lookup_insert_eq.
  - injection H as <-. split; [|split].
    + intros k Hk. rewrite !not_elem_of_cons in Hk.
      destruct Hk as (? & ? & ? & ? & ? & ? & ? & _).
      apply Hfinal.
      rewrite !not_elem_of_cons. repeat split; try done. apply not_elem_of_nil.
    + by exists priority.
    + intros Hpos. apply Z.ltb_ge in Hdtl. lia.
Qed.

Lemma assemble_keeps (data : value) (ingest_id name : string)
    (al_meta extra_meta s_params metadata s_params' : dict) (final_name : value)
    (k : string) :
  assemble now_as_iso flatten str data ingest_id name al_meta extra_meta s_params
    = Next (metadata, final_name, s_params') →
  k ≠ "description" →
  s_params' !! k = s_params !! k.
Proof.
  unfold assemble. intros H Hk.
  destruct (Py.get data "metadata" (VDict ∅)); simpl in H; [|discriminate H..].
  destruct (returned (flatten a)); simpl in H; [|discriminate H..].
  destruct (dict_getitem s_params "type"); simpl in H; [|discriminate H..].
  destruct (dict_getitem s_params "description"); simpl in H; [|discriminate H..].
  destruct (Py.or_else _ _); simpl in H; [|discriminate H..].
  injection H as _ _ <-. by rewrite lookup_insert_ne.
Qed.

(** The keys of the safe values that are flags. *)
Lemma safe_values_flag (k : string) :
  k ∈ ["deep_scan"; "ignore_cache"; "ignore_dynamic_recursion_prevention";
       "ignore_filtering"] →
  safe_values !! k = Some (VBool false)
  ∧ (k ∉ ["groups"; "generate_alert"; "max_extracted"; "max_supplementary";
          "priority"; "submitter"; "ttl"])
  ∧ k ≠ "description".
Proof.
  rewrite !elem_of_cons, elem_of_nil.
  intros [->|[->|[->|[->|[]]]]]; (split; [reflexivity|split; [|done]]).
  all: apply (bool_decide_unpack _); vm_compute; exact I.
Qed.

(** C1, as the code has it.  In the parameters of an admitted submission,
    each of [deep_scan], [ignore_cache],
    [ignore_dynamic_recursion_prevention] and [ignore_filtering] has the
    value the [params] block of the caller sets for it, and is false when
    the block sets none, whatever the user's settings say: the safe values
    replace the user's settings and are themselves replaced by the caller's
    parameters.  What the block sets is what [dict.update] takes from it:
    the entries of the block when it is a dictionary, which is the usual
    case, and otherwise the pairs it lists. *)
Theorem safe_values_replace_settings_only (col : Collaborators) (user : value)
    (req : Request) (w w' : World) (r : api_response) :
  ingest_single_file safe_str get_random_id now_as_iso flatten str cfg col user req w
    = (Respond r, w') →
  api_status_code r = 200%Z →
  ∃ (s : Submission) (p : Parsed) (given_v : value) (given : dict)
    (others : list (value * value)),
    ingest w' = ingest w ++ [s]
    ∧ parse_request req = Next p
    ∧ Py.get (data p) "params" (VDict ∅) = Next given_v
    ∧ update_arg (keys_reversed col) given_v = Next (given, others)
    ∧ (∀ d, given_v = VDict d → given = d)
    ∧ ∀ k, k ∈ ["deep_scan"; "ignore_cache"; "ignore_dynamic_recursion_prevention";
                "ignore_filtering"] →
           params s !! k = Some (default (VBool false) (given !! k)).
Proof.
  intros Hrun Hst.
  destruct (admitted_request _ _ _ _ _ _ Hrun Hst)
    as (s & p & v & extra_meta & s_params & extracted & fi & al_meta & metadata
        & name & s_params' & Hadm).
  cbv zeta in Hadm.
  destruct Hadm as (Hparse & _ & Hbuild & _ & _ & Hasm & -> & _ & Hingest & _).
  destruct (build_params_layers _ _ _ _ _ Hbuild)
    as (given_v & given & others & Hget & Harg & Hother & _).
  eexists _, p, given_v, given, others.
  split; [exact Hingest|]. split; [exact Hparse|]. split; [exact Hget|].
  split; [exact Harg|]. split.
  { intros d Hd. by injection (update_arg_dict _ _ _ Harg d Hd). }
  intros k Hk. destruct (safe_values_flag k Hk) as (Hsafe & Hnot & Hdesc).
  cbn [params]. rewrite (assemble_keeps _ _ _ _ _ _ _ _ _ _ Hasm Hdesc).
  rewrite (Hother k Hnot), !lookup_update, Hsafe.
  by destruct (given !! k).
Qed.

(** C4, as the code has it.  In the parameters of an admitted submission,
    [priority] is the smaller of the priority the [params] block of the
    caller sets (150 when it sets none) and the configured maximum: the
    maximum itself when the caller asked for more, and what the caller asked
    for otherwise.  When a positive maximum time to live is configured, [ttl]
    is the smaller of the time to live in force and that maximum, and the
    maximum itself when the time to live in force is null or zero; the time
    to live in force is the one the [params] block sets and, when it sets
    none, the one of the user's settings, not the maximum. *)
Theorem priority_and_ttl_are_capped (col : Collaborators) (user : value)
    (req : Request) (w w' : World) (r : api_response) :
  ingest_single_file safe_str get_random_id now_as_iso flatten str cfg col user req w
    = (Respond r, w') →
  api_status_code r = 200%Z →
  ∃ (s : Submission) (p : Parsed) (given_v : value) (given : dict)
    (others : list (value * value)),
    ingest w' = ingest w ++ [s]
    ∧ parse_request req = Next p
    ∧ Py.get (data p) "params" (VDict ∅) = Next given_v
    ∧ update_arg (keys_reversed col) given_v = Next (given, others)
    ∧ (∀ d, given_v = VDict d → given = d)
    ∧ (∃ (asked : Z) (priority : value),
         Py.as_int (default (VInt 150) (given !! "priority")) = Some asked
         ∧ params s !! "priority" = Some priority
         ∧ Py.as_int priority = Some (Z.min asked (ingest_max_priority cfg))
         ∧ ((ingest_max_priority cfg < asked)%Z →
            priority = VInt (ingest_max_priority cfg))
         ∧ ((asked ≤ ingest_max_priority cfg)%Z →
            priority = default (VInt 150) (given !! "priority")))
    ∧ ((0 < max_dtl cfg)%Z →
       ∃ (ttl0 ttl : value) (days : Z),
         match given !! "ttl" with
         | Some t => Some t
         | None => user_params col !! "ttl"
         end = Some ttl0
         ∧ params s !! "ttl" = Some ttl
         ∧ Py.as_int ttl = Some days
         ∧ (days ≤ max_dtl cfg)%Z
         ∧ (Py.truthy ttl0 = false → ttl = VInt (max_dtl cfg))
         ∧ (Py.truthy ttl0 = true →
            ∃ in_force, Py.as_int ttl0 = Some in_force
                        ∧ days = Z.min in_force (max_dtl cfg)
                        ∧ ((in_force ≤ max_dtl cfg)%Z → ttl = ttl0))).
Proof.
  intros Hrun Hst.
  destruct (admitted_request _ _ _ _ _ _ Hrun Hst)
    as (s & p & v & extra_meta & s_params & extracted & fi & al_meta & metadata
        & name & s_params' & Hadm).
  cbv zeta in Hadm.
  destruct Hadm as (Hparse & _ & Hbuild & _ & _ & Hasm & -> & _ & Hingest & _).
  destruct (build_params_layers _ _ _ _ _ Hbuild)
    as (given_v & given & others & Hget & Harg & _ & (priority & Hpr & Hmin) & Httl).
  eexists _, p, given_v, given, others.
  split; [exact Hingest|]. split; [exact Hparse|]. split; [exact Hget|].
  split; [exact Harg|]. split.
  { intros d Hd. by injection (update_arg_dict _ _ _ Harg d Hd). }
  split.
  - unfold Py.min_int in Hmin.
    destruct (Py.as_int (default (VInt 150) (given !! "priority")))
      as [asked|] eqn:Hasked; [|discriminate Hmin].
    injection Hmin as <-. eexists asked, _. split; [done|].
    cbn [params]. rewrite (assemble_keeps _ _ _ _ _ _ _ _ _ _ Hasm) by done.
    split; [done|].
    destruct (ingest_max_priority cfg <? asked)%Z eqn:Hcmp.
    + apply Z.ltb_lt in Hcmp. split; [|split; [done|lia]]. simpl. f_equal. lia.
    + apply Z.ltb_ge in Hcmp. split; [|split; [lia|done]]. rewrite Hasked.
      f_equal. lia.
  - intros Hpos. destruct (Httl Hpos) as (ttl0 & ttl & Httl0 & Hlook & Hclamp).
    rewrite lookup_update in Httl0.
    cbn [params]. rewrite (assemble_keeps _ _ _ _ _ _ _ _ _ _ Hasm) by done.
    destruct (Py.truthy ttl0) eqn:Htruthy.
    + unfold Py.min_int in Hclamp.
      destruct (Py.as_int ttl0) as [z|] eqn:Hz; [|discriminate Hclamp].
      injection Hclamp as <-.
      destruct (max_dtl cfg <? z)%Z eqn:Hcmp.
      * apply Z.ltb_lt in Hcmp. exists ttl0, (VInt (max_dtl cfg)), (max_dtl cfg).
        split_and!; try done; try lia; try (intros; congruence).
        intros _. exists z. split_and!; [done|lia|lia].
      * apply Z.ltb_ge in Hcmp. exists ttl0, ttl0, z.
        split_and!; try done; try lia; try (intros; congruence).
        intros _. exists z. split_and!; [done|lia|done].
    + injection Hclamp as <-. exists ttl0, (VInt (max_dtl cfg)), (max_dtl cfg).
      split_and!; try done; try lia. intros; congruence.
Qed.


(** C10.  A multipart request that has no ['json'] part, or whose ['json']
    part is the empty object, is answered "Missing data block" with the code
    400 although a file is attached, and nothing is stored or published. *)
Theorem multipart_needs_data_block (col : Collaborators) (user : value)
    (req : Request) (ct : string) (bin : FileStorage) (w : World) :
  content_type req = Some ct →
  contains "multipart/form-data" ct = true →
  files_bin req = Some bin →
  values_json req = NoPart ∨ values_json req = Json (VDict ∅) →
  ∃ w',
    ingest_single_file safe_str get_random_id now_as_iso flatten str cfg col user req w
      = (Respond (make_api_response (VDict ∅) "Missing data block" 400), w')
    ∧ ingest w' = ingest w
    ∧ filestore w' = filestore w
    ∧ uploads w' = uploads w.
Proof.
  intros Hct Hmulti Hbin Hjson.
  assert (∃ name, parse_request req
                  = Next {| data := VDict ∅; binary := Some bin; name := name;
                            sha256_in := VNone; url := VNone |}) as [name Hparse].
  { unfold parse_request. rewrite Hct, Hmulti, Hbin.
    destruct Hjson as [->| ->]; eexists; reflexivity. }
  unfold ingest_single_file, try_finally, admission.
  unfold io_bind at 1. unfold pure at 1. rewrite Hparse.
  unfold io_bind at 1. unfold pure at 1.
  unfold validate. cbn [data Py.truthy]. rewrite map_to_list_empty. cbn.
  eexists. split; [reflexivity|]. unfold rmtree, with_disk. by cbn.
Qed.

(** C9.  Of two admitted requests for the same final content, the second
    finds the content in the file store and uploads nothing, while each of
    them draws its own ingest identifier and publishes its own submission. *)
Theorem same_content_twice (col1 col2 : Collaborators) (user1 user2 : value)
    (req1 req2 : Request) (w0 w1 w2 : World) (r1 r2 : api_response) (h : string) :
  Inj (=) (=) get_random_id →
  ingest_single_file safe_str get_random_id now_as_iso flatten str cfg col1 user1
    req1 w0 = (Respond r1, w1) →
  api_status_code r1 = 200%Z →
  ingest_single_file safe_str get_random_id now_as_iso flatten str cfg col2 user2
    req2 w1 = (Respond r2, w2) →
  api_status_code r2 = 200%Z →
  sha256 (decode_file col1 (identified col1)).1.2 = h →
  sha256 (decode_file col2 (identified col2)).1.2 = h →
  ∃ s1 s2 : Submission,
    ingest w2 = ingest w0 ++ [s1; s2]
    ∧ sid s1 ≠ sid s2
    ∧ r1 = api_ok (VDict (<["ingest_id" := VStr (sid s1)]> ∅))
    ∧ r2 = api_ok (VDict (<["ingest_id" := VStr (sid s2)]> ∅))
    ∧ file_sha256 <$> files s1 = [h]
    ∧ file_sha256 <$> files s2 = [h]
    ∧ h ∈ filestore w1
    ∧ uploads w2 = uploads w1
    ∧ filestore w2 = filestore w1
    ∧ length (filter (λ u, u.2 = h) (uploads w2))
      ≤ S (length (filter (λ u, u.2 = h) (uploads w0))).
Proof.
  intros Hinj Hrun1 Hst1 Hrun2 Hst2 Hh1 Hh2.
  destruct (admitted_request _ _ _ _ _ _ Hrun1 Hst1)
    as (s1 & p1 & v1 & extra1 & built1 & extracted1 & fi1 & al1 & md1 & name1
        & final1 & Hadm1).
  destruct (admitted_request _ _ _ _ _ _ Hrun2 Hst2)
    as (s2 & p2 & v2 & extra2 & built2 & extracted2 & fi2 & al2 & md2 & name2
        & final2 & Hadm2).
  cbv zeta in Hadm1, Hadm2.
  destruct Hadm1 as (_ & _ & _ & _ & Hdec1 & _ & Hs1 & Hr1 & Hin1 & _ & Hfs1 & Hup1 & Hid1).
  destruct Hadm2 as (_ & _ & _ & _ & Hdec2 & _ & Hs2 & Hr2 & Hin2 & _ & Hfs2 & Hup2 & Hid2).
  rewrite Hdec1 in Hh1. rewrite Hdec2 in Hh2. cbn in Hh1, Hh2.
  rewrite Hh1 in Hfs1, Hup1, Hs1. rewrite Hh2 in Hfs2, Hup2, Hs2.
  assert (h ∈ filestore w1) as Hstored.
  { rewrite Hfs1. apply elem_of_union_l, elem_of_singleton. reflexivity. }
  rewrite bool_decide_eq_true_2, app_nil_r in Hup2 by done.
  exists s1, s2. split; [|split; [|split; [|split; [|split; [|split;
    [|split; [|split; [|split]]]]]]]].
  - rewrite Hin2, Hin1, <- app_assoc. reflexivity.
  - rewrite Hs1, Hs2, Hid1. cbn. intros Heq. apply Hinj in Heq. lia.
  - by rewrite Hs1.
  - by rewrite Hs2.
  - by rewrite Hs1.
  - by rewrite Hs2.
  - done.
  - done.
  - rewrite Hfs2. symmetry. by apply union_absorb.
  - rewrite Hup2, Hup1. destruct (bool_decide _).
    + rewrite app_nil_r. lia.
    + rewrite filter_app, length_app. cbn. 
      rewrite decide_True by done. cbn. lia.
Qed.

End Pipeline.

(** *** The sample deployment *)

Lemma append_inj (prefix a b : string) : prefix +:+ a = prefix +:+ b → a = b.
Proof. induction prefix as [|c prefix IH]; simpl; [done|]. intros [= H]. auto. Qed.

Lemma sample_ids_distinct : Inj (=) (=) Samples.get_random_id.
Proof.
  intros m n H. unfold Samples.get_random_id in H.
  apply append_inj in H. by apply (inj pretty).
Qed.

(** C1, the claim as it was made.  A caller who sends
    [{"sha256": "h1", "params": {"deep_scan": true}}] is admitted, and the
    submission published has [deep_scan] true, not false. *)
Lemma caller_deep_scan_is_admitted :
  ∃ s : Submission,
    Samples.run Samples.working
      (Samples.by_hash "h1" (<["deep_scan" := VBool true]> ∅)) Samples.stocked
    = (Respond (api_ok (VDict (<["ingest_id" := VStr "id-1"]> ∅))),
       snd (Samples.run Samples.working
              (Samples.by_hash "h1" (<["deep_scan" := VBool true]> ∅))
              Samples.stocked))
    ∧ ingest (snd (Samples.run Samples.working
                     (Samples.by_hash "h1" (<["deep_scan" := VBool true]> ∅))
                     Samples.stocked)) = [s]
    ∧ params s !! "deep_scan" = Some (VBool true)
    ∧ params s !! "deep_scan" ≠ Some (VBool false).
Proof.
  eexists. split; [vm_compute; reflexivity|].
  split; [vm_compute; reflexivity|].
  split; [vm_compute; reflexivity|].
  vm_compute. discriminate.
Qed.

(** The sample request that sets [deep_scan] is admitted. *)
Lemma safe_values_replace_settings_only_witness :
  ∃ (s : Submission) (p : Parsed) (given_v : value) (given : dict)
    (others : list (value * value)),
    ingest (snd (Samples.run Samples.working
                   (Samples.by_hash "h1" (<["deep_scan" := VBool true]> ∅))
                   Samples.stocked))
    = ingest Samples.stocked ++ [s]
    ∧ parse_request (Samples.by_hash "h1" (<["deep_scan" := VBool true]> ∅)) = Next p
    ∧ Py.get (data p) "params" (VDict ∅) = Next given_v
    ∧ update_arg (keys_reversed Samples.working) given_v = Next (given, others)
    ∧ (∀ d, given_v = VDict d → given = d)
    ∧ ∀ k, k ∈ ["deep_scan"; "ignore_cache"; "ignore_dynamic_recursion_prevention";
                "ignore_filtering"] →
           params s !! k = Some (default (VBool false) (given !! k)).
Proof.
  apply (safe_values_replace_settings_only Samples.safe_str Samples.get_random_id
           Samples.now_as_iso Samples.flatten Samples.str Samples.cfg
           Samples.working Samples.analyst
           (Samples.by_hash "h1" (<["deep_scan" := VBool true]> ∅)) Samples.stocked
           _ (api_ok (VDict (<["ingest_id" := VStr "id-1"]> ∅)))).
  - vm_compute. reflexivity.
  - reflexivity.
Defined.

(** C4, the claim as it was made.  A caller who sends
    [{"sha256": "h1", "params": {}}], with no [ttl], under a maximum of 30
    days and with settings that say 15 days: the request is admitted with a
    [ttl] of 15 days, not of 30. *)
Lemma missing_ttl_keeps_the_setting :
  ∃ s : Submission,
    fst (Samples.run Samples.working (Samples.by_hash "h1" ∅) Samples.stocked)
    = Respond (api_ok (VDict (<["ingest_id" := VStr "id-1"]> ∅)))
    ∧ ingest (snd (Samples.run Samples.working (Samples.by_hash "h1" ∅)
                     Samples.stocked)) = [s]
    ∧ max_dtl Samples.cfg = 30%Z
    ∧ user_params Samples.working !! "ttl" = Some (VInt 15)
    ∧ params s !! "ttl" = Some (VInt 15)
    ∧ params s !! "ttl" ≠ Some (VInt (max_dtl Samples.cfg)).
Proof.
  eexists. split; [vm_compute; reflexivity|].
  split; [vm_compute; reflexivity|].
  split; [reflexivity|]. split; [reflexivity|].
  split; [vm_compute; reflexivity|].
  vm_compute. discriminate.
Qed.

(** The sample request that asks for the priority 1000 and for 90 days is
    admitted with the priority 250 and 30 days. *)
Lemma priority_and_ttl_are_capped_witness :
  (∃ (s : Submission) (p : Parsed) (given_v : value) (given : dict)
     (others : list (value * value)),
     ingest (snd (Samples.run Samples.working
                    (Samples.by_hash "h1"
                       (<["priority" := VInt 1000]> (<["ttl" := VInt 90]> ∅)))
                    Samples.stocked))
     = ingest Samples.stocked ++ [s]
     ∧ parse_request (Samples.by_hash "h1"
                        (<["priority" := VInt 1000]> (<["ttl" := VInt 90]> ∅)))
       = Next p
     ∧ Py.get (data p) "params" (VDict ∅) = Next given_v
     ∧ update_arg (keys_reversed Samples.working) given_v = Next (given, others)
     ∧ (∀ d, given_v = VDict d → given = d)
     ∧ (∃ (asked : Z) (priority : value),
          Py.as_int (default (VInt 150) (given !! "priority")) = Some asked
          ∧ params s !! "priority" = Some priority
          ∧ Py.as_int priority
            = Some (Z.min asked (ingest_max_priority Samples.cfg))
          ∧ ((ingest_max_priority Samples.cfg < asked)%Z →
             priority = VInt (ingest_max_priority Samples.cfg))
          ∧ ((asked ≤ ingest_max_priority Samples.cfg)%Z →
             priority = default (VInt 150) (given !! "priority")))
     ∧ ((0 < max_dtl Samples.cfg)%Z →
        ∃ (ttl0 ttl : value) (days : Z),
          match given !! "ttl" with
          | Some t => Some t
          | None => user_params Samples.working !! "ttl"
          end = Some ttl0
          ∧ params s !! "ttl" = Some ttl
          ∧ Py.as_int ttl = Some days
          ∧ (days ≤ max_dtl Samples.cfg)%Z
          ∧ (Py.truthy ttl0 = false → ttl = VInt (max_dtl Samples.cfg))
          ∧ (Py.truthy ttl0 = true →
             ∃ in_force, Py.as_int ttl0 = Some in_force
                         ∧ days = Z.min in_force (max_dtl Samples.cfg)
                         ∧ ((in_force ≤ max_dtl Samples.cfg)%Z → ttl = ttl0))))
  ∧ (λ s, (params s !! "priority", params s !! "ttl"))
      <$> ingest (snd (Samples.run Samples.working
                         (Samples.by_hash "h1"
                            (<["priority" := VInt 1000]> (<["ttl" := VInt 90]> ∅)))
                         Samples.stocked))
    = [(Some (VInt 250), Some (VInt 30))].
Proof.
  split.
  - apply (priority_and_ttl_are_capped Samples.safe_str Samples.get_random_id
             Samples.now_as_iso Samples.flatten Samples.str Samples.cfg
             Samples.working Samples.analyst
             (Samples.by_hash "h1"
                (<["priority" := VInt 1000]> (<["ttl" := VInt 90]> ∅)))
             Samples.stocked
             _ (api_ok (VDict (<["ingest_id" := VStr "id-1"]> ∅)))).
    + vm_compute. reflexivity.
    + reflexivity.
  - vm_compute. reflexivity.
Defined.


(** The sample upload without a [json] part. *)
Lemma multipart_needs_data_block_witness :
  ∃ w',
    Samples.run Samples.working (Samples.upload_request NoPart) Samples.stocked
      = (Respond (make_api_response (VDict ∅) "Missing data block" 400), w')
    ∧ ingest w' = ingest Samples.stocked
    ∧ filestore w' = filestore Samples.stocked
    ∧ uploads w' = uploads Samples.stocked.
Proof.
  apply (multipart_needs_data_block Samples.safe_str Samples.get_random_id
           Samples.now_as_iso Samples.flatten Samples.str Samples.cfg
           Samples.working Samples.analyst (Samples.upload_request NoPart)
           "multipart/form-data; boundary=0b34a3c5"
           {| filename := VStr "sample.bin" |} Samples.stocked).
  - reflexivity.
  - reflexivity.
  - reflexivity.
  - by left.
Defined.

(** An upload of [h1] into an empty file store, then a request for [h1]
    by its hash. *)
Lemma same_content_twice_witness :
  ∃ s1 s2 : Submission,
    ingest (snd (Samples.run Samples.working (Samples.by_hash "h1" ∅)
                   (snd (Samples.run Samples.working
                           (Samples.upload_request
                              (Json (VDict (<["name" := VStr "a.exe"]> ∅))))
                           Samples.bare))))
    = ingest Samples.bare ++ [s1; s2]
    ∧ sid s1 ≠ sid s2
    ∧ api_ok (VDict (<["ingest_id" := VStr "id-1"]> ∅))
      = api_ok (VDict (<["ingest_id" := VStr (sid s1)]> ∅))
    ∧ api_ok (VDict (<["ingest_id" := VStr "id-3"]> ∅))
      = api_ok (VDict (<["ingest_id" := VStr (sid s2)]> ∅))
    ∧ file_sha256 <$> files s1 = ["h1"]
    ∧ file_sha256 <$> files s2 = ["h1"]
    ∧ "h1" ∈ filestore (snd (Samples.run Samples.working
                               (Samples.upload_request
                                  (Json (VDict (<["name" := VStr "a.exe"]> ∅))))
                               Samples.bare))
    ∧ uploads (snd (Samples.run Samples.working (Samples.by_hash "h1" ∅)
                      (snd (Samples.run Samples.working
                              (Samples.upload_request
                                 (Json (VDict (<["name" := VStr "a.exe"]> ∅))))
                              Samples.bare))))
      = uploads (snd (Samples.run Samples.working
                        (Samples.upload_request
                           (Json (VDict (<["name" := VStr "a.exe"]> ∅))))
                        Samples.bare))
    ∧ filestore (snd (Samples.run Samples.working (Samples.by_hash "h1" ∅)
                        (snd (Samples.run Samples.working
                                (Samples.upload_request
                                   (Json (VDict (<["name" := VStr "a.exe"]> ∅))))
                                Samples.bare))))
      = filestore (snd (Samples.run Samples.working
                          (Samples.upload_request
                             (Json (VDict (<["name" := VStr "a.exe"]> ∅))))
                          Samples.bare))
    ∧ length (filter (λ u, u.2 = "h1")
                (uploads (snd (Samples.run Samples.working (Samples.by_hash "h1" ∅)
                                 (snd (Samples.run Samples.working
                                         (Samples.upload_request
                                            (Json (VDict (<["name" := VStr "a.exe"]> ∅))))
                                         Samples.bare))))))
      ≤ S (length (filter (λ u, u.2 = "h1") (uploads Samples.bare))).
Proof.
  apply (same_content_twice Samples.safe_str Samples.get_random_id
           Samples.now_as_iso Samples.flatten Samples.str Samples.cfg
           Samples.working Samples.working Samples.analyst Samples.analyst
           (Samples.upload_request (Json (VDict (<["name" := VStr "a.exe"]> ∅))))
           (Samples.by_hash "h1" ∅) Samples.bare).
  - exact sample_ids_distinct.
  - vm_compute. reflexivity.
  - reflexivity.
  - vm_compute. reflexivity.
  - reflexivity.
  - reflexivity.
  - reflexivity.
Defined.

(** The disk after a request that is admitted, one whose upload cannot be
    written, one whose decoding fails and one that is refused for its size:
    what was there before and the directories above the working directory,
    and nothing else. *)
Example disk_after_sample_requests :
  let named := Json (VDict (<["name" := VStr "a.exe"]> ∅)) in
  let left (r : flow Empty_set * World) : Prop :=
    disk (snd r)
    = {["/etc/passwd"; "/var"; "/var/lib"; "/var/lib/assemblyline";
        "/var/lib/assemblyline/submit"]} in
  left (Samples.run Samples.working (Samples.upload_request named) Samples.stocked)
  ∧ left (Samples.run Samples.failing_write (Samples.upload_request named)
            Samples.stocked)
  ∧ fst (Samples.run Samples.failing_write (Samples.upload_request named)
           Samples.stocked)
    = Throw (OtherError "No space left on device")
  ∧ left (Samples.run Samples.failing_decode (Samples.upload_request named)
            Samples.stocked)
  ∧ fst (Samples.run Samples.failing_decode (Samples.upload_request named)
           Samples.stocked)
    = Throw (OtherError "corrupted")
  ∧ left (Samples.run Samples.working_large (Samples.by_hash "h5" ∅) Samples.stocked).
Proof.
  cbv zeta. repeat split; try (vm_compute; reflexivity).
  all: apply (bool_decide_unpack _); vm_compute; exact I.
Qed.

(** C8.  The request [{"generate_alert": false}] sent as [application/json],
    with no [sha256], no [url] and no [name], makes the endpoint raise
    [TypeError] at [os.path.basename(url)] instead of answering 400; the same
    request with a [name] is answered 400, "Missing file to scan". *)
Theorem missing_source_without_name_raises :
  fst (Samples.run Samples.working
         (Samples.json_request (<["generate_alert" := VBool false]> ∅))
         Samples.stocked)
  = Throw TypeError
  ∧ fst (Samples.run Samples.working
           (Samples.json_request (<["name" := VStr "a.exe"]> ∅)) Samples.stocked)
    = Respond (make_api_response (VDict ∅)
                 "Missing file to scan. No binary, sha256 or url provided." 400).
Proof. split; vm_compute; reflexivity. Qed.

End IngestFacts.

(** ** More on the live-status protocol *)

Module LiveMore.
Import Live LiveFacts.

Lemma messages_other (name other : string) (l : list value) (qs : queues) :
  other ≠ name →
  NamedQueue.messages other (<[name := l]> qs) = NamedQueue.messages other qs.
Proof. intros Hne. unfold NamedQueue.messages. by rewrite lookup_insert_ne. Qed.

Lemma pop_spec (name : string) (qs : queues) :
  let '(msg, qs') := NamedQueue.pop name qs in
  msg = head (NamedQueue.messages name qs)
  ∧ NamedQueue.messages name qs' = tail (NamedQueue.messages name qs)
  ∧ ∀ other, other ≠ name →
      NamedQueue.messages other qs' = NamedQueue.messages other qs.
Proof.
  unfold NamedQueue.pop.
  destruct (NamedQueue.messages name qs) as [|msg rest] eqn:Hq.
  - by rewrite Hq.
  - split; [done|]. split; [by rewrite messages_popped|].
    intros other Hne. by apply messages_other.
Qed.

Lemma messages_push (name other : string) (msg : value) (qs : queues) :
  NamedQueue.messages other (NamedQueue.push name msg qs)
  = if decide (other = name) then NamedQueue.messages name qs ++ [msg]
    else NamedQueue.messages other qs.
Proof.
  unfold NamedQueue.push. destruct (decide (other = name)) as [->|Hne].
  - apply messages_popped.
  - by apply messages_other.
Qed.

(** X1.  [get_message] removes the first message of the watch queue, if
    there is one, whatever it answers or raises, and leaves every other
    queue as it was. *)
Theorem get_message_pops_one (wq_id : string) (qs : queues) :
  NamedQueue.messages wq_id (snd (get_message wq_id qs))
  = tail (NamedQueue.messages wq_id qs)
  ∧ ∀ other, other ≠ wq_id →
      NamedQueue.messages other (snd (get_message wq_id qs))
      = NamedQueue.messages other qs.
Proof.
  unfold get_message. pose proof (pop_spec wq_id qs) as Hpop.
  destruct (NamedQueue.pop wq_id qs) as [msg qs']. cbn [snd].
  by destruct Hpop as (_ & Htail & Hother).
Qed.

(** The loop only ever shortens the watch queue from its head, and touches
    no other queue. *)
Lemma get_messages_loop_queues (wq_id : string) (fuel : nat) :
  ∀ (resp_list : list value) (qs : queues) (r : flow (list value)) (qs' : queues),
    get_messages_loop fuel wq_id resp_list qs = Some (r, qs') →
    (∃ n, NamedQueue.messages wq_id qs' = drop n (NamedQueue.messages wq_id qs))
    ∧ ∀ other, other ≠ wq_id →
        NamedQueue.messages other qs' = NamedQueue.messages other qs.
Proof.
  induction fuel as [|fuel IH]; intros resp_list qs r qs' Hloop; [done|].
  simpl in Hloop. pose proof (pop_spec wq_id qs) as Hpop.
  destruct (NamedQueue.pop wq_id qs) as [[msg|] qs1].
  - destruct Hpop as (_ & Htail & Hother).
    assert ((∃ n, NamedQueue.messages wq_id qs' = drop n (NamedQueue.messages wq_id qs1))
            ∧ ∀ other, other ≠ wq_id →
                NamedQueue.messages other qs' = NamedQueue.messages other qs1)
      as [[n Hn] Hrest].
    { assert (Some (Next resp_list, qs1) = Some (r, qs') →
              (∃ n, NamedQueue.messages wq_id qs'
                    = drop n (NamedQueue.messages wq_id qs1))
              ∧ ∀ other, other ≠ wq_id →
                  NamedQueue.messages other qs' = NamedQueue.messages other qs1)
        as Hstop.
      { intros [= _ <-]. split; [by exists 0|done]. }
      destruct msg as [| | | | |m]; [by apply Hstop|..].
      all: destruct (get_messages_response _) as [entry|x|e];
        [by apply IH in Hloop| |].
      all: injection Hloop as _ <-; (split; [by exists 0|done]). }
    split.
    + exists (S n). rewrite Hn, Htail.
      destruct (NamedQueue.messages wq_id qs); [|done].
      simpl. by rewrite drop_nil.
    + intros other Hne. by rewrite Hrest, Hother.
  - injection Hloop as _ <-. destruct Hpop as (_ & Htail & Hother).
    split; [|done]. exists 1. rewrite Htail.
    by destruct (NamedQueue.messages wq_id qs).
Qed.

(** X2.  [get_messages], however it ends, leaves of the watch queue a
    suffix of what it held, and leaves every other queue as it was. *)
Theorem get_messages_touches_one_queue (fuel : nat) (wq_id : string) (qs : queues) :
  match get_messages fuel wq_id qs with
  | Some (_, qs') =>
      (∃ n, NamedQueue.messages wq_id qs' = drop n (NamedQueue.messages wq_id qs))
      ∧ ∀ other, other ≠ wq_id →
          NamedQueue.messages other qs' = NamedQueue.messages other qs
  | None => True
  end.
Proof.
  unfold get_messages.
  destruct (get_messages_loop fuel wq_id [] qs) as [[r qs']|] eqn:Hloop; [|done].
  by apply get_messages_loop_queues in Hloop.
Qed.





(** A message the chain raises on ends the loop with that exception, after
    the messages before it were taken off the queue. *)
Lemma get_messages_loop_raises (wq_id : string) (bad : value) (rest : list value)
    (e : exn) (good : list value) :
  bad ≠ VNone →
  get_messages_response bad = Throw e →
  ∀ (fuel : nat) (resp_list : list value) (qs : queues),
    NamedQueue.messages wq_id qs = good ++ bad :: rest →
    forallb is_status_message good = true →
    length good < fuel →
    ∃ qs', get_messages_loop fuel wq_id resp_list qs = Some (Throw e, qs')
           ∧ NamedQueue.messages wq_id qs' = rest.
Proof.
  intros Hnull Hbad.
  induction good as [|msg good IH]; intros fuel resp_list qs Hq Hwf Hfuel.
  - destruct fuel as [|fuel]; [simpl in Hfuel; lia|].
    simpl in Hq. rewrite (get_messages_loop_step _ _ _ _ bad rest Hq Hnull), Hbad.
    eexists. split; [done|]. apply messages_popped.
  - destruct fuel as [|fuel]; [simpl in Hfuel; lia|].
    simpl in Hq, Hwf. apply andb_true_iff in Hwf as [Hmsg Hgood].
    destruct (status_message_answered msg Hmsg) as (entry & Hentry & _).
    pose proof (status_message_not_null msg Hmsg) as Hmsg_null.
    rewrite (get_messages_loop_step _ _ _ _ msg (good ++ bad :: rest) Hq Hmsg_null).
    rewrite (get_messages_response_same _ Hmsg_null), Hentry.
    apply IH; [apply messages_popped|done|simpl in Hfuel; lia].
Qed.

(** X4.  When a message of the watch queue has no [status], [get_messages]
    raises [KeyError]; the messages before it have been taken off the queue
    and are not returned, and the queue is left with the messages after
    it. *)
Theorem get_messages_loses_the_batch (wq_id : string) (qs : queues) (fuel : nat)
    (good rest : list value) (m : dict) :
  NamedQueue.messages wq_id qs = good ++ VDict m :: rest →
  forallb is_status_message good = true →
  m !! "status" = None →
  length good < fuel →
  ∃ qs', get_messages fuel wq_id qs = Some (Throw (KeyError "status"), qs')
         ∧ NamedQueue.messages wq_id qs' = rest.
Proof.
  intros Hq Hwf Hstatus Hfuel.
  destruct (get_messages_loop_raises wq_id (VDict m) rest (KeyError "status") good)
    with (fuel := fuel) (resp_list := @nil value) (qs := qs)
    as (qs' & Hloop & Hrest); try done.
  { unfold get_messages_response. simpl. by rewrite Hstatus. }
  exists qs'. unfold get_messages. by rewrite Hloop.
Qed.

Section ControlMore.

Variable reply_queue_name : string → nat → string.
Variable get_submission : string → value.
Variable is_accessible : value → value → bool.
Variable max_priority : value.

Lemma may_access_refuses (user data : value) :
  Py.truthy user = false ∨ Py.truthy data = false →
  may_access is_accessible user data = Next false.
Proof.
  unfold may_access. intros [Hu|Hd].
  - by rewrite Hu.
  - rewrite Hd. by destruct (Py.truthy user).
Qed.

(** X5.  A call for a submission that does not exist, or without a user,
    is answered 403 by both control endpoints without reading any
    classification, and nothing is pushed on any queue. *)
Theorem control_endpoints_refuse_unknown (sid suffix : string) (user : value)
    (arrivals : list value) (w : World) :
  Py.truthy user = false ∨ Py.truthy (get_submission sid) = false →
  outstanding_services reply_queue_name get_submission is_accessible
      sid user arrivals w
    = (Respond (make_api_response (VDict ∅)
                  "You are not allowed to access this submissions." 403), w)
  ∧ setup_watch_queue reply_queue_name get_submission is_accessible max_priority
        sid suffix user w
    = (Respond (make_api_response (VStr "")
                  "You are not allowed to access this submissions." 403), w).
Proof.
  intros Hno. apply may_access_refuses in Hno.
  unfold outstanding_services, setup_watch_queue. by rewrite Hno.
Qed.

(** X6.  When the reply queue drawn for the call is new, [outstanding_services]
    appends its request to ["control-queue"] and answers, with the code 200,
    the first message that arrives on the reply queue within the wait, or
    null when none arrives; later arrivals stay on the reply queue. *)
Theorem outstanding_services_reply (sid : string) (user : value)
    (arrivals : list value) (w : World) :
  let reply_name := reply_queue_name "oustanding_services" (names_drawn w) in
  let request :=
    VDict (<["sid" := VStr sid]> (<["state" := VStr "oustanding_services"]>
          (<["watch_queue" := VStr reply_name]> ∅))) in
  may_access is_accessible user (get_submission sid) = Next true →
  reply_name ≠ "control-queue" →
  NamedQueue.messages reply_name (named_queues w) = [] →
  ∃ w',
    outstanding_services reply_queue_name get_submission is_accessible
        sid user arrivals w
      = (Respond (api_ok (default VNone (head arrivals))), w')
    ∧ NamedQueue.messages reply_name (named_queues w') = tail arrivals
    ∧ NamedQueue.messages "control-queue" (named_queues w')
      = NamedQueue.messages "control-queue" (named_queues w) ++ [request].
Proof.
  intros reply_name request Hacc Hne Hnew.
  unfold outstanding_services. rewrite Hacc. fold reply_name. fold request.
  set (pushed := NamedQueue.push "control-queue" request (named_queues w)).
  assert (NamedQueue.messages reply_name pushed = []) as Hreply.
  { unfold pushed. rewrite messages_push. by rewrite decide_False. }
  assert (NamedQueue.messages "control-queue" pushed
          = NamedQueue.messages "control-queue" (named_queues w) ++ [request]) as Hctl.
  { unfold pushed. rewrite messages_push. by rewrite decide_True. }
  unfold NamedQueue.pop_blocking, NamedQueue.pop.
  rewrite messages_popped, Hreply. simpl.
  destruct arrivals as [|reply more]; eexists;
    (split; [reflexivity|]); cbn [named_queues head tail default].
  - split; [apply messages_popped|]. by rewrite messages_other.
  - split; [apply messages_popped|]. by rewrite !messages_other.
Qed.

Lemma messages_arrive (name : string) (msgs : list value) :
  ∀ qs : queues,
    NamedQueue.messages name (foldl (λ qs msg, NamedQueue.push name msg qs) qs msgs)
    = NamedQueue.messages name qs ++ msgs.
Proof.
  induction msgs as [|msg msgs IH]; intros qs; simpl; [by rewrite app_nil_r|].
  rewrite IH, messages_push, decide_True by done. by rewrite <- app_assoc.
Qed.

(** X7.  When the watch queue drawn for the call is new, [setup_watch_queue]
    answers its name and appends to ["control-queue"] a request with state
    ["watch"] that carries that name; the status messages pushed on the queue
    of that name afterwards are what [get_messages] returns for the name
    answered, in the order they were pushed. *)
Theorem watch_queue_round_trip (sid suffix : string) (user : value) (w : World)
    (msgs : list value) (fuel : nat) :
  let watch_queue := reply_queue_name suffix (names_drawn w) in
  let request :=
    VDict (<["state" := VStr "watch"]> (<["priority" := max_priority]>
          (<["sid" := VStr sid]> (<["watch_queue" := VStr watch_queue]> ∅)))) in
  may_access is_accessible user (get_submission sid) = Next true →
  watch_queue ≠ "control-queue" →
  NamedQueue.messages watch_queue (named_queues w) = [] →
  forallb is_status_message msgs = true →
  length msgs < fuel →
  ∃ (w' : World) (entries : list value) (qs' : queues),
    setup_watch_queue reply_queue_name get_submission is_accessible max_priority
        sid suffix user w
      = (Respond (api_ok (VDict (<["wq_id" := VStr watch_queue]> ∅))), w')
    ∧ NamedQueue.messages "control-queue" (named_queues w')
      = NamedQueue.messages "control-queue" (named_queues w) ++ [request]
    ∧ get_messages fuel watch_queue
        (foldl (λ qs msg, NamedQueue.push watch_queue msg qs) (named_queues w') msgs)
      = Some (Respond (api_ok (VList entries)), qs')
    ∧ Forall2 (λ msg entry, get_message_response (Some msg) = Next entry) msgs entries.
Proof.
  intros watch_queue request Hacc Hne Hnew Hwf Hfuel.
  unfold setup_watch_queue. rewrite Hacc. fold watch_queue. fold request.
  set (pushed := NamedQueue.push "control-queue" request (named_queues w)).
  assert (NamedQueue.messages watch_queue
            (foldl (λ qs msg, NamedQueue.push watch_queue msg qs) pushed msgs) = msgs)
    as Hqueue.
  { rewrite messages_arrive. unfold pushed.
    by rewrite messages_push, decide_False, Hnew. }
  rewrite <- (app_nil_r msgs) in Hqueue at 2.
  destruct (get_messages_loop_drains watch_queue msgs fuel [] [] _ Hqueue
              (or_introl eq_refl) Hwf Hfuel)
    as (entries & qs' & Hloop & _ & Hall & _).
  eexists _, entries, qs'.
  split; [reflexivity|]. cbn [named_queues]. split; [|split; [|done]].
  - unfold pushed. by rewrite messages_push, decide_True.
  - unfold get_messages. by rewrite Hloop.
Qed.

End ControlMore.


(** Two good messages, one without a status, one more message. *)
Lemma get_messages_loses_the_batch_witness :
  ∃ qs', get_messages 3 "wq-1" Samples.broken_batch
         = Some (Throw (KeyError "status"), qs')
         ∧ NamedQueue.messages "wq-1" qs' = [Samples.status_msg "STOP"].
Proof.
  apply (get_messages_loses_the_batch "wq-1" Samples.broken_batch 3
           [Samples.status_msg "START"; Samples.keyed_msg "OK" "k1"]
           [Samples.status_msg "STOP"] (<["cache_key" := VStr "k2"]> ∅)).
  - reflexivity.
  - reflexivity.
  - reflexivity.
  - simpl. lia.
Defined.

(** A submission that does not exist, asked for by the sample user. *)
Lemma control_endpoints_refuse_unknown_witness :
  outstanding_services Samples.reply_queue_name (λ _, VNone) Samples.is_accessible
      "sid-9" Samples.analyst [] Samples.quiet
    = (Respond (make_api_response (VDict ∅)
                  "You are not allowed to access this submissions." 403),
       Samples.quiet)
  ∧ setup_watch_queue Samples.reply_queue_name (λ _, VNone) Samples.is_accessible
        (VInt 1000) "sid-9" "WQ" Samples.analyst Samples.quiet
    = (Respond (make_api_response (VStr "")
                  "You are not allowed to access this submissions." 403),
       Samples.quiet).
Proof.
  apply (control_endpoints_refuse_unknown Samples.reply_queue_name (λ _, VNone)
           Samples.is_accessible (VInt 1000) "sid-9" "WQ" Samples.analyst []
           Samples.quiet).
  right. reflexivity.
Defined.

(** A reply and a late second message arrive within the wait. *)
Lemma outstanding_services_reply_witness :
  ∃ w',
    outstanding_services Samples.reply_queue_name Samples.get_submission
        Samples.is_accessible "sid-1" Samples.analyst
        [VDict (<["Extract" := VInt 2]> ∅); VNone] Samples.quiet
      = (Respond (api_ok (VDict (<["Extract" := VInt 2]> ∅))), w')
    ∧ NamedQueue.messages "oustanding_services-0" (named_queues w') = [VNone]
    ∧ NamedQueue.messages "control-queue" (named_queues w')
      = NamedQueue.messages "control-queue" (named_queues Samples.quiet)
        ++ [VDict (<["sid" := VStr "sid-1"]>
                  (<["state" := VStr "oustanding_services"]>
                  (<["watch_queue" := VStr "oustanding_services-0"]> ∅)))].
Proof.
  apply (outstanding_services_reply Samples.reply_queue_name Samples.get_submission
           Samples.is_accessible "sid-1" Samples.analyst
           [VDict (<["Extract" := VInt 2]> ∅); VNone] Samples.quiet).
  - reflexivity.
  - discriminate.
  - reflexivity.
Defined.

(** The five sample messages arrive on the watch queue set up. *)
Lemma watch_queue_round_trip_witness :
  ∃ (w' : World) (entries : list value) (qs' : queues),
    setup_watch_queue Samples.reply_queue_name Samples.get_submission
        Samples.is_accessible (VInt 1000) "sid-1" "WQ" Samples.analyst Samples.quiet
      = (Respond (api_ok (VDict (<["wq_id" := VStr "WQ-0"]> ∅))), w')
    ∧ NamedQueue.messages "control-queue" (named_queues w')
      = NamedQueue.messages "control-queue" (named_queues Samples.quiet)
        ++ [VDict (<["state" := VStr "watch"]> (<["priority" := VInt 1000]>
                  (<["sid" := VStr "sid-1"]> (<["watch_queue" := VStr "WQ-0"]> ∅))))]
    ∧ get_messages 6 "WQ-0"
        (foldl (λ qs msg, NamedQueue.push "WQ-0" msg qs) (named_queues w')
           (NamedQueue.messages "wq-1" Samples.five_messages))
      = Some (Respond (api_ok (VList entries)), qs')
    ∧ Forall2 (λ msg entry, get_message_response (Some msg) = Next entry)
        (NamedQueue.messages "wq-1" Samples.five_messages) entries.
Proof.
  apply (watch_queue_round_trip Samples.reply_queue_name Samples.get_submission
           Samples.is_accessible (VInt 1000) "sid-1" "WQ" Samples.analyst
           Samples.quiet (NamedQueue.messages "wq-1" Samples.five_messages) 6).
  - reflexivity.
  - discriminate.
  - reflexivity.
  - reflexivity.
  - vm_compute. lia.
Defined.

End LiveMore.

(** ** The notification queues *)

Module IngestQueueFacts.
Import IngestQueue LiveFacts LiveMore.

(** The loop on a queue that starts with messages that are not null: it
    appends them and goes on with what follows. *)
Lemma get_all_messages_loop_takes (name : string) (msgs : list value) :
  ∀ (fuel : nat) (resp_list later : list value) (qs : queues),
    NamedQueue.messages name qs = msgs ++ later →
    forallb (λ msg, negb (is_none (Some msg))) msgs = true →
    ∃ qs1,
      get_all_messages_loop (length msgs + fuel) name resp_list qs
      = get_all_messages_loop fuel name (resp_list ++ msgs) qs1
      ∧ NamedQueue.messages name qs1 = later
      ∧ ∀ other, other ≠ name →
          NamedQueue.messages other qs1 = NamedQueue.messages other qs.
Proof.
  induction msgs as [|msg msgs IH]; intros fuel resp_list later qs Hq Hsome.
  - exists qs. by rewrite app_nil_r.
  - cbn [app forallb] in Hq, Hsome. apply andb_true_iff in Hsome as [Hmsg Hmsgs].
    destruct (IH fuel (resp_list ++ [msg]) later (<[name := msgs ++ later]> qs))
      as (qs1 & Hloop & Hlater & Hother); [apply messages_popped|done|].
    exists qs1. cbn [length Nat.add get_all_messages_loop].
    rewrite (pop_cons _ _ _ _ Hq).
    apply negb_true_iff in Hmsg. rewrite Hmsg. cbn [default from_option id].
    rewrite Hloop, <- app_assoc. split; [done|]. split; [done|].
    intros other Hne. by rewrite Hother, messages_other.
Qed.

(** X8.  [get_all_messages] on a notification queue that holds no null
    returns every message of the queue ["nq-" + name], as it is and in the
    order of the queue, whatever the messages are; it empties that queue,
    touches no other, and stops as soon as the fuel exceeds the number of
    messages. *)
Theorem get_all_messages_drains (fuel : nat) (notification_queue : string)
    (qs : queues) :
  let name := queue_name notification_queue in
  forallb (λ msg, negb (is_none (Some msg))) (NamedQueue.messages name qs) = true →
  length (NamedQueue.messages name qs) < fuel →
  ∃ qs',
    get_all_messages fuel notification_queue qs
    = Some (Respond (api_ok (VList (NamedQueue.messages name qs))), qs')
    ∧ NamedQueue.messages name qs' = []
    ∧ ∀ other, other ≠ name →
        NamedQueue.messages other qs' = NamedQueue.messages other qs.
Proof.
  intros name Hsome Hfuel.
  destruct (get_all_messages_loop_takes name (NamedQueue.messages name qs)
              (fuel - length (NamedQueue.messages name qs)) [] [] qs)
    as (qs1 & Hloop & Hlater & Hother); [by rewrite app_nil_r|done|].
  replace (length (NamedQueue.messages name qs)
           + (fuel - length (NamedQueue.messages name qs))) with fuel in Hloop by lia.
  destruct (fuel - length (NamedQueue.messages name qs)) as [|left] eqn:Hleft; [lia|].
  simpl in Hloop. rewrite (pop_nil _ _ Hlater) in Hloop. simpl in Hloop.
  exists qs1. unfold get_all_messages. fold name. by rewrite Hloop.
Qed.

(** X9.  A null on a notification queue ends [get_all_messages]: the
    messages before it are returned, the null is taken off the queue, and
    the messages after it stay on the queue unread. *)
Theorem get_all_messages_stops_at_null (fuel : nat) (notification_queue : string)
    (qs : queues) (before later : list value) :
  let name := queue_name notification_queue in
  NamedQueue.messages name qs = before ++ VNone :: later →
  forallb (λ msg, negb (is_none (Some msg))) before = true →
  length before < fuel →
  ∃ qs',
    get_all_messages fuel notification_queue qs
    = Some (Respond (api_ok (VList before)), qs')
    ∧ NamedQueue.messages name qs' = later.
Proof.
  intros name Hq Hsome Hfuel.
  destruct (get_all_messages_loop_takes name before (fuel - length before) []
              (VNone :: later) qs Hq Hsome)
    as (qs1 & Hloop & Hlater & _).
  replace (length before + (fuel - length before)) with fuel in Hloop by lia.
  destruct (fuel - length before) as [|left] eqn:Hleft; [lia|].
  simpl in Hloop. rewrite (pop_cons _ _ _ _ Hlater) in Hloop. simpl in Hloop.
  eexists. unfold get_all_messages. fold name. rewrite Hloop.
  split; [done|]. apply messages_popped.
Qed.

Lemma queue_name_differs (notification_queue : string) :
  queue_name notification_queue ≠ notification_queue.
Proof.
  unfold queue_name. intros Heq. apply (f_equal String.length) in Heq.
  cbv [String.append] in Heq. cbn [String.length] in Heq. lia.
Qed.

(** X10.  [get_message] on a notification queue answers, with the code
    200, the first message of the queue ["nq-" + name] as it is, or null
    when that queue is empty; it takes that message off, and never reads
    the queue whose name is [name] itself. *)
Theorem notification_get_message_reads_prefixed_queue (notification_queue : string)
    (qs : queues) :
  let name := queue_name notification_queue in
  fst (get_message notification_queue qs)
  = Respond (api_ok (default VNone (head (NamedQueue.messages name qs))))
  ∧ NamedQueue.messages name (snd (get_message notification_queue qs))
    = tail (NamedQueue.messages name qs)
  ∧ NamedQueue.messages notification_queue (snd (get_message notification_queue qs))
    = NamedQueue.messages notification_queue qs.
Proof.
  intros name. unfold get_message. fold name.
  pose proof (pop_spec name qs) as Hpop.
  destruct (NamedQueue.pop name qs) as [msg qs']. cbn [fst snd].
  destruct Hpop as (-> & Htail & Hother).
  split; [done|]. split; [done|].
  apply Hother. intros Heq. by apply (queue_name_differs notification_queue).
Qed.

(** Three notifications next to a watch queue of the same bare name. *)
Lemma get_all_messages_drains_witness :
  ∃ qs',
    get_all_messages 4 "done" Samples.notifications
    = Some (Respond (api_ok (VList (NamedQueue.messages "nq-done" Samples.notifications))),
            qs')
    ∧ NamedQueue.messages "nq-done" qs' = []
    ∧ ∀ other, other ≠ "nq-done" →
        NamedQueue.messages other qs' = NamedQueue.messages other Samples.notifications.
Proof.
  apply (get_all_messages_drains 4 "done" Samples.notifications).
  - reflexivity.
  - vm_compute. lia.
Defined.

(** A notification, a null, a notification. *)
Lemma get_all_messages_stops_at_null_witness :
  ∃ qs',
    get_all_messages 2 "done" Samples.notifications_with_null
    = Some (Respond (api_ok (VList [VDict (<["sid" := VStr "id-1"]> ∅)])), qs')
    ∧ NamedQueue.messages "nq-done" qs' = [VDict (<["sid" := VStr "id-3"]> ∅)].
Proof.
  apply (get_all_messages_stops_at_null 2 "done" Samples.notifications_with_null
           [VDict (<["sid" := VStr "id-1"]> ∅)] [VDict (<["sid" := VStr "id-3"]> ∅)]).
  - reflexivity.
  - reflexivity.
  - simpl. lia.
Defined.

End IngestQueueFacts.

(** ** More on the admission pipeline *)

Module IngestMore.
Import Ingest IngestFacts.

Ltac run_phase H :=
  unfold io_bind, pure, calling, modify_world, read_world,
    set_original_file, set_extracted_path, written in H;
  simpl in H; repeat (case_match; simplify_eq/=).

Section PipelineMore.

Variable safe_str : string → string.
Variable get_random_id : nat → string.
Variable now_as_iso : option Z → string.
Variable flatten : value → exn + dict.
Variable str : value → string.
Variable cfg : Config.

Lemma cleanup_kept (out_dir : string) (fr : Frame) (w : World) :
  kept w (world fr) → kept w (world (cleanup out_dir fr)).
Proof.
  destruct (cleanup_stores out_dir fr) as (H1 & H2 & H3 & H4 & H5 & _).
  intros (K1 & K2 & K3 & K4 & K5). unfold kept.
  by rewrite H1, H2, H3, H4, H5.
Qed.

(** Every change of a store comes after the size gate. *)
Lemma admission_gate (col : Collaborators) (user : value) (out_dir : string)
    (req : Request) (fr : Frame) :
  wp (admission safe_str get_random_id now_as_iso flatten str cfg col user out_dir req)
     fr
     (λ _ fr1,
        kept (world fr) (world fr1)
        ∨ ∃ p v built,
            parse_request req = Next p
            ∧ validate safe_str p = Next v
            ∧ build_params cfg col user (data p) (generate_alert v) = Next built
            ∧ fault col c_fileinfo = None
            ∧ size_gate cfg (identified col) built = Next ()).
Proof.
  assert (kept (world fr) (world fr)) as Hrefl by done.
  unfold admission.
  apply wp_bind, wp_pure.
  destruct (parse_request req) as [p|x|e] eqn:Hparse; [|by left..].
  apply wp_bind, wp_pure.
  destruct (validate safe_str p) as [v|x|e] eqn:Hvalid; [|by left..].
  eapply wp_bind, wp_mono; [apply load_file_stores|].
  intros res fr1 ((Hfs & Hup & Hfr & Hin & Hrc & _) & _ & _).
  assert (kept (world fr) (world fr1)) as Hkept by done.
  destruct res as [[out_file extra_meta]|x|e]; [|by left..].
  apply wp_bind, wp_pure.
  destruct (build_params cfg col user (data p) (generate_alert v))
    as [built|x|e] eqn:Hbuild; [|by left..].
  apply wp_bind, wp_calling; [by left|intros Hinfo].
  apply wp_bind, wp_pure.
  destruct (size_gate cfg (identified col) built) as [[]|x|e] eqn:Hgate; [|by left..].
  intros r fr' _. right. by exists p, v, built.
Qed.

(** X11.  Whatever the request and however it ends, the file store, the
    upload log, the datastore and the ingest queue are left as they were
    unless the request was parsed and validated, its parameters were built,
    its file was identified and the size gate let the file through. *)
Theorem stores_change_only_past_the_gate (col : Collaborators) (user : value)
    (req : Request) (w : World) :
  kept w (snd (ingest_single_file safe_str get_random_id now_as_iso flatten str
                 cfg col user req w))
  ∨ ∃ p v built,
      parse_request req = Next p
      ∧ validate safe_str p = Next v
      ∧ build_params cfg col user (data p) (generate_alert v) = Next built
      ∧ fault col c_fileinfo = None
      ∧ size_gate cfg (identified col) built = Next ().
Proof.
  unfold ingest_single_file.
  destruct (try_finally _ _ _) as [r fr'] eqn:Hrun. cbn [snd].
  revert r fr' Hrun.
  apply (wp_try_finally _ _ _ (λ _ fr', kept w (world fr') ∨ _)).
  eapply wp_mono; [apply admission_gate|].
  intros r fr1 [Hkept|Hgate]; [left|by right].
  by apply cleanup_kept.
Qed.

(** X12.  A request whose file has no byte changes neither the file
    store, nor the upload log, nor the datastore, nor the ingest queue,
    however it ends. *)
Theorem empty_file_changes_nothing (col : Collaborators) (user : value)
    (req : Request) (w : World) :
  size (identified col) = 0%Z →
  kept w (snd (ingest_single_file safe_str get_random_id now_as_iso flatten str
                 cfg col user req w)).
Proof.
  intros Hsize. unfold ingest_single_file.
  destruct (try_finally _ _ _) as [r fr'] eqn:Hrun. cbn [snd].
  revert r fr' Hrun.
  apply (wp_try_finally _ _ _ (λ _ fr', kept w (world fr'))).
  eapply wp_mono; [apply admission_gate|].
  intros r fr1 [Hkept|(p & v & built & _ & _ & _ & _ & Hgate)].
  - by apply cleanup_kept.
  - unfold size_gate in Hgate. rewrite Hsize in Hgate.
    by destruct (_ && _).
Qed.

Lemma decode_and_store_queues (col : Collaborators) (out_file : string)
    (fi : fileinfo) (fr : Frame) :
  wp (decode_and_store col out_file fi) fr
     (λ res fr1,
        ingest (world fr1) = ingest (world fr)
        ∧ received (world fr1) = received (world fr)
        ∧ not_admitted res).
Proof.
  intros r fr' H. unfold decode_and_store, exists_ in H. run_phase H.
  all: by repeat split.
Qed.

Lemma freshen_queues (col : Collaborators) (fi : fileinfo) (s_params : dict)
    (fr : Frame) :
  wp (freshen now_as_iso col fi s_params) fr
     (λ res fr1,
        ingest (world fr1) = ingest (world fr)
        ∧ received (world fr1) = received (world fr)
        ∧ not_admitted res).
Proof.
  intros r fr' H. unfold freshen, dict_getitem in H. run_phase H.
  all: by repeat split.
Qed.

Lemma admission_publishes (col : Collaborators) (user : value) (out_dir : string)
    (req : Request) (fr : Frame) :
  wp (admission safe_str get_random_id now_as_iso flatten str cfg col user out_dir req)
     fr (λ res fr1, published (world fr) (world fr1) res).
Proof.
  assert (∀ (res : flow Empty_set) fr1,
            ingest (world fr1) = ingest (world fr) →
            received (world fr1) = received (world fr) →
            published (world fr) (world fr1) res) as Hsame.
  { intros res fr1 Hin Hrc. split; [by left|done]. }
  unfold admission.
  apply wp_bind, wp_pure.
  destruct (parse_request req) as [p|x|e]; [|by apply Hsame..].
  apply wp_bind, wp_pure.
  destruct (validate safe_str p) as [v|x|e]; [|by apply Hsame..].
  eapply wp_bind, wp_mono; [apply load_file_stores|].
  intros res fr1 ((_ & _ & _ & Hin1 & Hrc1 & _) & _ & _).
  destruct res as [[out_file extra_meta]|x|e]; [|by apply Hsame..].
  apply wp_bind, wp_pure.
  destruct (build_params cfg col user (data p) (generate_alert v))
    as [built|x|e]; [|by apply Hsame..].
  apply wp_bind, wp_calling; [intros; by apply Hsame|intros _].
  apply wp_bind, wp_pure.
  destruct (size_gate cfg (identified col) built) as [[]|x|e]; [|by apply Hsame..].
  eapply wp_bind, wp_mono; [apply decode_and_store_queues|].
  intros res fr2 (Hin2 & Hrc2 & _).
  destruct res as [[fi al_meta]|x|e]; [|apply Hsame; congruence..].
  eapply wp_bind, wp_mono; [apply freshen_queues|].
  intros res fr3 (Hin3 & Hrc3 & _).
  destruct res as [[]|x|e]; [|apply Hsame; congruence..].
  assert (ingest (world fr3) = ingest (world fr)) as Hin by congruence.
  assert (received (world fr3) = received (world fr)) as Hrc by congruence.
  clear Hin1 Hin2 Hin3 Hrc1 Hrc2 Hrc3.
  intros res fr' H. revert Hin Hrc. run_phase H; intros Hin Hrc.
  all: try (apply Hsame; assumption).
  all: repeat match goal with
         | H : new_submission _ _ = Next _ |- _ =>
             apply new_submission_passes in H; subst
         end.
  all: split; [right; eexists; cbn; rewrite Hin, Hrc; split; [reflexivity|auto]|].
  all: intros r Hr Hst; simplify_eq.
  all: done.
Qed.

(** X13.  A request that is answered with a code other than 200 leaves
    the ingest queue as it was and no submission is reported received; and
    whatever the outcome, a request pushes at most one submission on the
    ingest queue, and reports received no other submission than the one it
    pushed. *)
Theorem refusal_publishes_nothing (col : Collaborators) (user : value)
    (req : Request) (w : World) :
  let res := fst (ingest_single_file safe_str get_random_id now_as_iso flatten str
                    cfg col user req w) in
  let w' := snd (ingest_single_file safe_str get_random_id now_as_iso flatten str
                   cfg col user req w) in
  ((ingest w' = ingest w ∧ received w' = received w)
   ∨ ∃ s, ingest w' = ingest w ++ [s]
          ∧ (received w' = received w ∨ received w' = received w ++ [s]))
  ∧ ∀ r, res = Respond r → api_status_code r ≠ 200%Z →
         ingest w' = ingest w ∧ received w' = received w.
Proof.
  cbv zeta. change (published w
    (snd (ingest_single_file safe_str get_random_id now_as_iso flatten str
            cfg col user req w))
    (fst (ingest_single_file safe_str get_random_id now_as_iso flatten str
            cfg col user req w))).
  unfold ingest_single_file.
  destruct (try_finally _ _ _) as [r fr'] eqn:Hrun. cbn [fst snd].
  revert r fr' Hrun.
  apply (wp_try_finally _ _ _ (λ r fr', published w (world fr') r)).
  eapply wp_mono; [apply admission_publishes|].
  intros r fr1 Hpub. cbn beta.
  destruct (cleanup_stores
              (OsPath.join (TEMP_SUBMIT_DIR cfg) (get_random_id (ids_drawn w))) fr1)
    as (_ & _ & _ & Hin & Hrc & _).
  unfold published in *. rewrite Hin, Hrc. exact Hpub.
Qed.

(** *** The parameters, the description and the notification of an
        admitted submission *)

Lemma validate_passes (p : Parsed) (v : Validated) :
  validate safe_str p = Next v →
  Py.get (data p) "notification_queue" VNone = Next (notification_queue v)
  ∧ Py.get (data p) "notification_threshold" VNone = Next (notification_threshold v)
  ∧ (Py.is_int (notification_threshold v) = true
     ∨ Py.truthy (notification_threshold v) = false)
  ∧ Py.get (data p) "generate_alert" (VBool false) = Next (generate_alert v)
  ∧ Py.is_bool (generate_alert v) = true.
Proof.
  unfold validate, flow_bind. intros H.
  repeat (case_match; simplify_eq/=); try discriminate H.
  all: cbn; repeat split; try done.
  all: try (by apply negb_false_iff).
  all: match goal with
       | Hnt : negb (Py.is_int ?nt) && Py.truthy ?nt = false |- _ =>
           destruct (Py.is_int nt), (Py.truthy nt); auto; discriminate Hnt
       end.
Qed.

Lemma build_params_forced (col : Collaborators) (user data generate_alert : value)
    (s_params : dict) :
  build_params cfg col user data generate_alert = Next s_params →
  ∃ submitter,
    getitem user "uname" = Next submitter
    ∧ s_params !! "submitter" = Some submitter
    ∧ s_params !! "generate_alert" = Some generate_alert
    ∧ s_params !! "max_extracted" = Some (VInt (default_max_extracted cfg))
    ∧ s_params !! "max_supplementary" = Some (VInt (default_max_supplementary cfg)).
Proof.
  unfold build_params. intros H.
  destruct (fault col c_load_user_settings); simpl in H; [discriminate H|].
  destruct (Py.get data "params" (VDict ∅)) as [given_v| |]; simpl in H;
    [|discriminate H..].
  destruct (update_arg (keys_reversed col) given_v) as [[given others]| |];
    simpl in H; [|discriminate H..].
  destruct (match _ !! "groups" with Some _ => _ | None => _ end)
    as [layered| |]; simpl in H; [|discriminate H..].
  destruct (Py.min_int _ _) as [priority| |]; simpl in H; [|discriminate H..].
  destruct (getitem user "uname") as [submitter| |]; simpl in H;
    [|discriminate H..].
  exists submitter. split; [done|].
  set (final := update layered _) in *.
  assert (final !! "submitter" = Some submitter
          ∧ final !! "generate_alert" = Some generate_alert
          ∧ final !! "max_extracted" = Some (VInt (default_max_extracted cfg))
          ∧ final !! "max_supplementary"
            = Some (VInt (default_max_supplementary cfg))) as Hfinal.
  { unfold final. rewrite !lookup_update. by simplify_map_eq. }
  destruct (0 <? max_dtl cfg)%Z.
  - destruct (dict_getitem final "ttl") as [ttl0| |]; simpl in H;
      [|discriminate H..].
    destruct (if Py.truthy ttl0 then _ else _) as [ttl| |]; simpl in H;
      [|discriminate H..].
    injection H as <-. by rewrite !lookup_insert_ne.
  - by injection H as <-.
Qed.

Lemma assemble_description (data : value) (ingest_id name : string)
    (al_meta extra_meta s_params metadata s_params' : dict) (final_name : value) :
  assemble now_as_iso flatten str data ingest_id name al_meta extra_meta s_params
    = Next (metadata, final_name, s_params') →
  ∃ in_force type,
    s_params !! "description" = Some in_force
    ∧ s_params !! "type" = Some type
    ∧ s_params' !! "description"
      = Some (if Py.truthy in_force then in_force
              else VStr ("[" +:+ str type +:+ "] Inspection of file: "
                         +:+ str final_name)).
Proof.
  unfold assemble, Py.or_else, flow_bind, dict_getitem. intros H.
  destruct (Py.get data "metadata" (VDict ∅)); [|discriminate H..].
  destruct (returned (flatten a)); [|discriminate H..].
  destruct (s_params !! "type") as [ty|]; [|discriminate H].
  destruct (s_params !! "description") as [given|]; [|discriminate H].
  exists given, ty. split; [done|]. split; [done|].
  destruct (Py.truthy given); injection H as _ <- <-; apply lookup_insert_eq.
Qed.

(** X14.  In the parameters of an admitted submission, [submitter] is the
    name of the user who made the request, [generate_alert] is the boolean
    of the data block (false when it has none), and [max_extracted] and
    [max_supplementary] are the configured defaults, whatever the [params]
    block of the caller says. *)
Theorem forced_parameters (col : Collaborators) (user : value) (req : Request)
    (w w' : World) (r : api_response) :
  ingest_single_file safe_str get_random_id now_as_iso flatten str cfg col user req w
    = (Respond r, w') →
  api_status_code r = 200%Z →
  ∃ (s : Submission) (p : Parsed) (submitter : value) (alert : bool),
    ingest w' = ingest w ++ [s]
    ∧ parse_request req = Next p
    ∧ getitem user "uname" = Next submitter
    ∧ Py.get (data p) "generate_alert" (VBool false) = Next (VBool alert)
    ∧ params s !! "submitter" = Some submitter
    ∧ params s !! "generate_alert" = Some (VBool alert)
    ∧ params s !! "max_extracted" = Some (VInt (default_max_extracted cfg))
    ∧ params s !! "max_supplementary"
      = Some (VInt (default_max_supplementary cfg)).
Proof.
  intros Hrun Hst.
  destruct (admitted_request _ _ _ _ _ _ _ _ _ _ _ _ Hrun Hst)
    as (s & p & v & extra_meta & built & extracted & fi & al_meta & metadata
        & name & s_params' & Hadm).
  cbv zeta in Hadm.
  destruct Hadm as (Hparse & Hvalid & Hbuild & _ & _ & Hasm & -> & _ & Hingest & _).
  destruct (validate_passes _ _ Hvalid) as (_ & _ & _ & Hget & Hbool).
  destruct (build_params_forced _ _ _ _ _ Hbuild)
    as (submitter & Huname & Hsub & Halert & Hext & Hsup).
  destruct (generate_alert v) as [|alert| | | |] eqn:Hga; try discriminate Hbool.
  eexists _, p, submitter, alert. split; [exact Hingest|]. cbn [params].
  rewrite !(assemble_keeps _ _ _ _ _ _ _ _ _ _ _ _ _ Hasm) by done.
  by repeat split.
Qed.

(** X15.  The description of an admitted submission is never empty.  It
    is the description in force, the one the [params] block of the caller
    sets and otherwise the one of the user's settings, when that one is not
    empty; and otherwise it is the text ["[type] Inspection of file: name"]
    made of the type of the submission and of the name of its file. *)
Theorem description_is_never_empty (col : Collaborators) (user : value)
    (req : Request) (w w' : World) (r : api_response) :
  ingest_single_file safe_str get_random_id now_as_iso flatten str cfg col user req w
    = (Respond r, w') →
  api_status_code r = 200%Z →
  ∃ (s : Submission) (p : Parsed) (given_v : value) (given : dict)
    (others : list (value * value)) (in_force type name description : value),
    ingest w' = ingest w ++ [s]
    ∧ parse_request req = Next p
    ∧ Py.get (data p) "params" (VDict ∅) = Next given_v
    ∧ update_arg (keys_reversed col) given_v = Next (given, others)
    ∧ (∀ d, given_v = VDict d → given = d)
    ∧ match given !! "description" with
      | Some d => Some d
      | None => user_params col !! "description"
      end = Some in_force
    ∧ params s !! "type" = Some type
    ∧ file_name <$> files s = [name]
    ∧ params s !! "description" = Some description
    ∧ description
      = (if Py.truthy in_force then in_force
         else VStr ("[" +:+ str type +:+ "] Inspection of file: " +:+ str name))
    ∧ Py.truthy description = true.
Proof.
  intros Hrun Hst.
  destruct (admitted_request _ _ _ _ _ _ _ _ _ _ _ _ Hrun Hst)
    as (s & p & v & extra_meta & built & extracted & fi & al_meta & metadata
        & name & s_params' & Hadm).
  cbv zeta in Hadm.
  destruct Hadm as (Hparse & _ & Hbuild & _ & _ & Hasm & -> & _ & Hingest & _).
  destruct (build_params_layers _ _ _ _ _ _ Hbuild)
    as (given_v & given & others & Hget & Harg & Hother & _).
  destruct (assemble_description _ _ _ _ _ _ _ _ _ Hasm)
    as (in_force & type & Hin_force & Htype & Hdescription).
  eexists _, p, given_v, given, others, in_force, type, name, _.
  split; [exact Hingest|]. split; [exact Hparse|]. split; [exact Hget|].
  split; [exact Harg|]. split.
  { intros d Hd. by injection (update_arg_dict _ _ _ Harg d Hd). }
  cbn [params files fmap list_fmap file_name].
  split.
  { rewrite Hother in Hin_force.
    - rewrite !lookup_update in Hin_force.
      change (safe_values !! "description") with (@None value) in Hin_force.
      exact Hin_force.
    - apply (bool_decide_unpack _). vm_compute. exact I. }
  split; [by rewrite (assemble_keeps _ _ _ _ _ _ _ _ _ _ _ _ _ Hasm)|].
  split; [reflexivity|]. split; [exact Hdescription|]. split; [reflexivity|].
  by destruct (Py.truthy in_force) eqn:Htruthy.
Qed.

(** X16.  An admitted submission names one file, with the hash and the
    size of the decoded content, and that hash is a key of the file store
    when the request is over. *)
Theorem published_content_is_stored (col : Collaborators) (user : value)
    (req : Request) (w w' : World) (r : api_response) :
  ingest_single_file safe_str get_random_id now_as_iso flatten str cfg col user req w
    = (Respond r, w') →
  api_status_code r = 200%Z →
  ∃ (s : Submission) (entry : file_entry),
    ingest w' = ingest w ++ [s]
    ∧ files s = [entry]
    ∧ file_sha256 entry = sha256 (decode_file col (identified col)).1.2
    ∧ file_size entry = size (decode_file col (identified col)).1.2
    ∧ file_sha256 entry ∈ filestore w'.
Proof.
  intros Hrun Hst.
  destruct (admitted_request _ _ _ _ _ _ _ _ _ _ _ _ Hrun Hst)
    as (s & p & v & extra_meta & built & extracted & fi & al_meta & metadata
        & name & s_params' & Hadm).
  cbv zeta in Hadm.
  destruct Hadm as (_ & _ & _ & _ & Hdec & _ & -> & _ & Hingest & _ & Hfs & _).
  eexists _, _. split; [exact Hingest|]. cbn [files file_sha256 file_size].
  rewrite Hdec, Hfs. cbn. repeat split; try done.
  apply elem_of_union_l, elem_of_singleton. reflexivity.
Qed.

(** X17.  The notification of an admitted submission is empty when the
    data block names no notification queue, and otherwise holds that queue
    and the threshold of the data block; the threshold is an integer, or is
    null, zero or empty. *)
Theorem notification_is_validated (col : Collaborators) (user : value)
    (req : Request) (w w' : World) (r : api_response) :
  ingest_single_file safe_str get_random_id now_as_iso flatten str cfg col user req w
    = (Respond r, w') →
  api_status_code r = 200%Z →
  ∃ (s : Submission) (p : Parsed) (queue threshold : value),
    ingest w' = ingest w ++ [s]
    ∧ parse_request req = Next p
    ∧ Py.get (data p) "notification_queue" VNone = Next queue
    ∧ Py.get (data p) "notification_threshold" VNone = Next threshold
    ∧ (Py.is_int threshold = true ∨ Py.truthy threshold = false)
    ∧ notification s
      = if Py.truthy queue
        then <["queue" := queue]> (<["threshold" := threshold]> ∅)
        else ∅.
Proof.
  intros Hrun Hst.
  destruct (admitted_request _ _ _ _ _ _ _ _ _ _ _ _ Hrun Hst)
    as (s & p & v & extra_meta & built & extracted & fi & al_meta & metadata
        & name & s_params' & Hadm).
  cbv zeta in Hadm.
  destruct Hadm as (Hparse & Hvalid & _ & _ & _ & _ & -> & _ & Hingest & _).
  destruct (validate_passes _ _ Hvalid) as (Hq & Ht & Hint & _).
  eexists _, p, (notification_queue v), (notification_threshold v).
  split; [exact Hingest|]. by cbn [notification].
Qed.

(** *** Requests refused while the file is loaded *)

(** An answer of the loading phase is the answer of the endpoint, and the
    stores are left as they were. *)
Lemma refused_at_load (col : Collaborators) (user : value) (req : Request)
    (w : World) (p : Parsed) (v : Validated) (r : api_response) :
  parse_request req = Next p →
  validate safe_str p = Next v →
  (∀ out_dir fr res fr1,
     filestore (world fr) = filestore w →
     load_file cfg col out_dir p v fr = (res, fr1) → res = Respond r) →
  fst (ingest_single_file safe_str get_random_id now_as_iso flatten str cfg col
         user req w) = Respond r
  ∧ kept w (snd (ingest_single_file safe_str get_random_id now_as_iso flatten str
                   cfg col user req w)).
Proof.
  intros Hparse Hvalid Hload.
  assert (∃ w', ingest_single_file safe_str get_random_id now_as_iso flatten str
                  cfg col user req w = (Respond r, w')
                ∧ kept w w') as (w' & -> & Hkept); [|done].
  unfold ingest_single_file, try_finally, admission.
  unfold io_bind at 1, pure at 1. rewrite Hparse.
  unfold io_bind at 1, pure at 1. rewrite Hvalid.
  unfold io_bind at 1.
  destruct (load_file _ _ _ _ _ _) as [res fr1] eqn:Hrun.
  destruct (load_file_stores _ _ _ _ _ _ _ _ Hrun)
    as ((Hfs & Hup & Hfr & Hin & Hrc & _) & _).
  apply Hload in Hrun as ->; [|done]. eexists. split; [reflexivity|].
  apply cleanup_kept. cbn in Hfs, Hup, Hfr, Hin, Hrc. by repeat split.
Qed.

(** X18.  A request without a file part that names a hash the file store
    does not hold is answered 404, and the file store, the upload log, the
    datastore and the queues are left as they were. *)
Theorem unknown_hash_is_not_found (col : Collaborators) (user : value)
    (req : Request) (w : World) (p : Parsed) (v : Validated) (h : string) :
  parse_request req = Next p →
  validate safe_str p = Next v →
  binary_truthy (binary p) = false →
  sha256_in p = VStr h →
  h ≠ "" →
  fault col c_exists_sha256 = None →
  h ∉ filestore w →
  fst (ingest_single_file safe_str get_random_id now_as_iso flatten str cfg col
         user req w)
  = Respond (make_api_response (VDict ∅) "SHA256 does not exist in our datastore" 404)
  ∧ kept w (snd (ingest_single_file safe_str get_random_id now_as_iso flatten str
                   cfg col user req w)).
Proof.
  intros Hparse Hvalid Hbin Hsha Hh Hfault Hnew.
  apply (refused_at_load _ _ _ _ p v); [done..|].
  intros out_dir fr res fr1 Hfs.
  unfold load_file, exists_, calling, io_bind, modify_world, set_original_file,
    read_world, pure.
  assert (Py.truthy (VStr h) = true) as Htruthy by by destruct h.
  rewrite Hbin, Hsha, Htruthy, Hfault. cbn.
  rewrite bool_decide_eq_false_2; [by intros [= <- _]|].
  rewrite <- Hfs in Hnew.
  by destruct (fault col c_makedirs).
Qed.

(** X19.  A request without a file part, without a hash and without a URL
    is answered 400, and the stores are left as they were. *)
Theorem no_source_is_refused (col : Collaborators) (user : value)
    (req : Request) (w : World) (p : Parsed) (v : Validated) :
  parse_request req = Next p →
  validate safe_str p = Next v →
  binary_truthy (binary p) = false →
  Py.truthy (sha256_in p) = false →
  Py.truthy (url p) = false →
  fst (ingest_single_file safe_str get_random_id now_as_iso flatten str cfg col
         user req w)
  = Respond (make_api_response (VDict ∅)
               "Missing file to scan. No binary, sha256 or url provided." 400)
  ∧ kept w (snd (ingest_single_file safe_str get_random_id now_as_iso flatten str
                   cfg col user req w)).
Proof.
  intros Hparse Hvalid Hbin Hsha Hurl.
  apply (refused_at_load _ _ _ _ p v); [done..|].
  intros out_dir fr res fr1 Hfs.
  unfold load_file, io_bind, modify_world, set_original_file, pure.
  rewrite Hbin, Hsha, Hurl. cbn. by intros [= <- _].
Qed.

(** X20.  A request that names a URL only is answered 400 when URL
    submissions are switched off, and when they are on and the fetch raises
    [FileTooBigException], [InvalidUrlException] or [ForbiddenLocation];
    the stores are left as they were. *)
Theorem url_submission_refused (col : Collaborators) (user : value)
    (req : Request) (w : World) (p : Parsed) (v : Validated) :
  parse_request req = Next p →
  validate safe_str p = Next v →
  binary_truthy (binary p) = false →
  Py.truthy (sha256_in p) = false →
  Py.truthy (url p) = true →
  allow_url_submissions cfg = false
  ∨ fault col c_safe_download
    ∈ [Some FileTooBigException; Some InvalidUrlException; Some ForbiddenLocation] →
  ∃ r,
    fst (ingest_single_file safe_str get_random_id now_as_iso flatten str cfg col
           user req w) = Respond r
    ∧ api_status_code r = 400%Z
    ∧ api_error_message r
      = (if allow_url_submissions cfg
         then match fault col c_safe_download with
              | Some InvalidUrlException => "Url provided is invalid."
              | Some ForbiddenLocation => "Hostname in this URL cannot be resolved."
              | _ => "File too big to be scanned."
              end
         else "URL submissions are disabled in this system")
    ∧ kept w (snd (ingest_single_file safe_str get_random_id now_as_iso flatten
                     str cfg col user req w)).
Proof.
  intros Hparse Hvalid Hbin Hsha Hurl Hwhy.
  assert (∃ r, api_status_code r = 400%Z
               ∧ api_error_message r
                 = (if allow_url_submissions cfg
                    then match fault col c_safe_download with
                         | Some InvalidUrlException => "Url provided is invalid."
                         | Some ForbiddenLocation =>
                             "Hostname in this URL cannot be resolved."
                         | _ => "File too big to be scanned."
                         end
                    else "URL submissions are disabled in this system")
               ∧ ∀ out_dir fr res fr1,
                   filestore (world fr) = filestore w →
                   load_file cfg col out_dir p v fr = (res, fr1) →
                   res = Respond r) as (r & Hst & Hmsg & Hload).
  { unfold load_file, io_bind, modify_world, set_original_file, pure.
    rewrite Hbin, Hsha, Hurl. cbn.
    destruct (allow_url_submissions cfg).
    - destruct Hwhy as [Hoff|Hfetch]; [discriminate Hoff|].
      rewrite !elem_of_cons, elem_of_nil in Hfetch.
      destruct Hfetch as [->|[->|[->|[]]]]; eexists; cbn;
        (split; [|split; [|by intros ? ? ? ? _ [= <- _]]]); reflexivity.
    - eexists; cbn;
        (split; [|split; [|by intros ? ? ? ? _ [= <- _]]]); reflexivity. }
  destruct (refused_at_load col user req w p v r Hparse Hvalid Hload)
    as [Hres Hkept].
  exists r. split; [exact Hres|]. split; [exact Hst|]. split; [exact Hmsg|].
  exact Hkept.
Qed.

(** *** The metadata of an admitted submission *)

(** The metadata the loading phase adds: the URL, for a file that was
    fetched. *)
Lemma load_file_extra_meta (col : Collaborators) (out_dir : string) (p : Parsed)
    (v : Validated) (fr : Frame) :
  wp (load_file cfg col out_dir p v) fr
     (λ res _,
        ∀ out_file extra_meta,
          res = Next (out_file, extra_meta) →
          extra_meta
          = if negb (binary_truthy (binary p)) && negb (Py.truthy (sha256_in p))
            then <["submitted_url" := url p]> ∅ else ∅).
Proof.
  intros r fr' H. unfold load_file, exists_ in H. run_phase H.
  all: by intros ? ? [= <- <-].
Qed.

Lemma assemble_metadata (data : value) (ingest_id name : string)
    (al_meta extra_meta s_params metadata s_params' : dict) (final_name : value) :
  assemble now_as_iso flatten str data ingest_id name al_meta extra_meta s_params
    = Next (metadata, final_name, s_params') →
  final_name = default (VStr name) (al_meta !! "name")
  ∧ (∀ k x, extra_meta !! k = Some x → metadata !! k = Some x)
  ∧ (extra_meta !! "ingest_id" = None →
     metadata !! "ingest_id"
     = Some (default (VStr ingest_id) (al_meta !! "ingest_id")))
  ∧ is_Some (metadata !! "type")
  ∧ is_Some (metadata !! "ts").
Proof.
  unfold assemble, Py.or_else, flow_bind. intros H.
  destruct (Py.get data "metadata" (VDict ∅)); [|discriminate H..].
  destruct (returned (flatten a)) as [flat| |]; [|discriminate H..].
  destruct (dict_getitem s_params "type") as [ty| |]; [|discriminate H..].
  destruct (dict_getitem s_params "description") as [given| |];
    [|discriminate H..].
  set (m1 := update (<["type":=ty]> (<["ingest_id":=VStr ingest_id]> flat))
               (delete "name" al_meta)) in *.
  set (m2 := match m1 !! "ts" with
             | Some _ => m1
             | None => <["ts":=VStr (now_as_iso None)]> m1
             end) in *.
  assert (metadata = update m2 extra_meta ∧ final_name = default (VStr name) (al_meta !! "name"))
    as [-> ->].
  { by destruct (Py.truthy given); injection H as <- <- _. }
  assert (is_Some (m1 !! "type")) as Hty1.
  { unfold m1. rewrite lookup_update, lookup_delete_ne by done.
    destruct (al_meta !! "type"); [done|]. by simplify_map_eq. }
  assert (m1 !! "ingest_id"
          = Some (default (VStr ingest_id) (al_meta !! "ingest_id"))) as Hid1.
  { unfold m1. rewrite lookup_update, lookup_delete_ne by done.
    destruct (al_meta !! "ingest_id"); [done|]. by simplify_map_eq. }
  assert (is_Some (m2 !! "ts") ∧ m2 !! "type" = m1 !! "type"
          ∧ m2 !! "ingest_id" = m1 !! "ingest_id") as (Hts & Hty & Hid).
  { unfold m2. destruct (m1 !! "ts") eqn:Hts; [by rewrite Hts|].
    by simplify_map_eq. }
  split; [done|]. split; [|split; [|split]].
  - intros k x Hk. by rewrite lookup_update, Hk.
  - intros Hnone. by rewrite lookup_update, Hnone, Hid.
  - rewrite lookup_update. destruct (extra_meta !! "type"); [done|].
    by rewrite Hty.
  - rewrite lookup_update. by destruct (extra_meta !! "ts").
Qed.

(** What the phases give the metadata of the submission they publish. *)
Lemma admission_metadata (col : Collaborators) (user : value) (out_dir : string)
    (req : Request) (fr : Frame) :
  wp (admission safe_str get_random_id now_as_iso flatten str cfg col user out_dir req)
     fr
     (λ res fr1,
        ∀ r, res = Respond r → api_status_code r = 200%Z →
          ∃ s p v metadata' name' params',
            parse_request req = Next p
            ∧ validate safe_str p = Next v
            ∧ ingest (world fr1) = ingest (world fr) ++ [s]
            ∧ r = api_ok (VDict (<["ingest_id" := VStr (sid s)]> ∅))
            ∧ ∃ built extra_meta,
                extra_meta
                = (if negb (binary_truthy (binary p))
                      && negb (Py.truthy (sha256_in p))
                   then <["submitted_url" := url p]> ∅ else ∅)
                ∧ assemble now_as_iso flatten str (data p) (sid s) (safe_name v)
                    (decode_file col (identified col)).2 extra_meta built
                  = Next (metadata', name', params')
                ∧ metadata s = metadata'
                ∧ map file_name (files s) = [name']).
Proof.
  unfold admission.
  apply wp_bind, wp_pure.
  destruct (parse_request req) as [p|x|e] eqn:Hparse;
    [|intros r [= <-] Hst; apply parse_request_rejects in Hparse; lia|done].
  apply wp_bind, wp_pure.
  destruct (validate safe_str p) as [v|x|e] eqn:Hvalid;
    [|intros r [= <-] Hst; apply validate_rejects in Hvalid; lia|done].
  eapply wp_bind.
  intros res fr1 Hload.
  pose proof (load_file_stores _ _ _ _ _ _ _ _ Hload)
    as ((_ & _ & _ & Hin1 & _) & Hno1 & _).
  pose proof (load_file_extra_meta _ _ _ _ _ _ _ Hload) as Hextra.
  clear Hload.
  destruct res as [[out_file extra_meta]|x|e];
    [|intros r [= <-] Hst; by destruct (Hno1 x)|done].
  specialize (Hextra _ _ eq_refl). clear Hno1.
  apply wp_bind, wp_pure.
  destruct (build_params cfg col user (data p) (generate_alert v))
    as [built|x|e] eqn:Hbuild;
    [|by apply build_params_no_answer in Hbuild|done].
  apply wp_bind, wp_calling; [done|intros _].
  apply wp_bind, wp_pure.
  destruct (size_gate cfg (identified col) built) as [[]|x|e] eqn:Hgate;
    [|intros r [= <-] Hst; apply size_gate_rejects in Hgate; lia|done].
  eapply wp_bind, wp_mono; [apply decode_and_store_stores|].
  intros res fr2 Hdec.
  destruct res as [[fi al_meta]|x|e]; [|done..].
  destruct Hdec as (extracted & Hdec & _ & _ & Hin2 & _).
  eapply wp_bind, wp_mono; [apply freshen_stores|].
  intros res fr3 Hfr.
  destruct res as [[]|x|e]; [|done..].
  destruct Hfr as (_ & _ & Hin3 & _).
  assert (ingest (world fr3) = ingest (world fr)) as Hin by congruence.
  clear Hin1 Hin2 Hin3.
  rewrite Hdec. cbn [snd].
  intros res fr' H. revert Hin Hparse Hvalid Hextra.
  run_phase H; intros Hin Hparse Hvalid Hextra.
  all: intros answer Hanswer Hst; simplify_eq.
  all: try match goal with
         | H : assemble _ _ _ _ _ _ _ _ _ = Respond _ |- _ =>
             by apply assemble_no_answer in H
         | H : new_submission _ _ = Respond _ |- _ =>
             apply new_submission_rejects in H; lia
         end.
  all: match goal with H : new_submission _ _ = Next _ |- _ =>
         apply new_submission_passes in H as -> end.
  all: eexists _, p, v, _, _, _.
  all: cbn; rewrite Hin.
  all: split; [done|].
  all: split; [assumption|].
  all: split; [reflexivity|].
  all: split; [reflexivity|].
  all: eexists _, _; (split; [|split; [eassumption|by split]]).
  all: match goal with
       | H : ?c = _ |- context [if ?c then _ else _] => by rewrite H
       end.
Qed.

(** X21.  The answer to an admitted request carries the identifier of the
    submission.  The metadata of the submission always has the keys
    [ingest_id], [type] and [ts]; its [ingest_id] is the identifier of the
    submission unless the metadata of the decoded wrapper has that key, whose
    value then stands; for a file fetched from a URL [submitted_url] is
    that URL; and the file is named after the [name] of the wrapper when it
    has one. *)
Theorem metadata_of_admitted (col : Collaborators) (user : value)
    (req : Request) (w w' : World) (r : api_response) :
  ingest_single_file safe_str get_random_id now_as_iso flatten str cfg col user req w
    = (Respond r, w') →
  api_status_code r = 200%Z →
  ∃ (s : Submission) (p : Parsed) (v : Validated) (al_meta : dict),
    ingest w' = ingest w ++ [s]
    ∧ parse_request req = Next p
    ∧ validate safe_str p = Next v
    ∧ al_meta = (decode_file col (identified col)).2
    ∧ r = api_ok (VDict (<["ingest_id" := VStr (sid s)]> ∅))
    ∧ metadata s !! "ingest_id"
      = Some (default (VStr (sid s)) (al_meta !! "ingest_id"))
    ∧ is_Some (metadata s !! "type")
    ∧ is_Some (metadata s !! "ts")
    ∧ (binary_truthy (binary p) = false → Py.truthy (sha256_in p) = false →
       metadata s !! "submitted_url" = Some (url p))
    ∧ map file_name (files s) = [default (VStr (safe_name v)) (al_meta !! "name")].
Proof.
  unfold ingest_single_file. intros Hrun Hst.
  destruct (try_finally _ _ _) as [res fr'] eqn:Htry. simplify_eq.
  unfold try_finally in Htry.
  destruct (admission _ _ _ _ _ _ _ _ _ _ _) as [res fr1] eqn:Hadm. simplify_eq.
  destruct (admission_metadata _ _ _ _ _ _ _ Hadm _ eq_refl Hst)
    as (s & p & v & metadata' & name' & params' & Hparse & Hvalid & Hin & Hr
        & built & extra_meta & Hextra_meta & Hasm & Hmeta & Hname).
  destruct (cleanup_stores
              (OsPath.join (TEMP_SUBMIT_DIR cfg) (get_random_id (ids_drawn w))) fr1)
    as (_ & _ & _ & Hin' & _).
  destruct (assemble_metadata _ _ _ _ _ _ _ _ _ Hasm)
    as (-> & Hextra & Hid & Hty & Hts).
  exists s, p, v, (decode_file col (identified col)).2.
  rewrite Hin', Hin, Hmeta, Hname. cbn [world ingest draw].
  repeat split; try done.
  - apply Hid. rewrite Hextra_meta. by destruct (_ && _).
  - intros Hbin Hsha. apply Hextra. rewrite Hextra_meta, Hbin, Hsha. cbn.
    apply lookup_insert_eq.
Qed.

(** *** The groups and the expiry *)

Lemma build_params_groups (col : Collaborators) (user data generate_alert : value)
    (s_params : dict) :
  build_params cfg col user data generate_alert = Next s_params →
  ∃ given_v given others groups,
    Py.get data "params" (VDict ∅) = Next given_v
    ∧ update_arg (keys_reversed col) given_v = Next (given, others)
    ∧ s_params !! "groups" = Some groups
    ∧ match update (user_params col) given !! "groups" with
      | Some g => groups = g
      | None => getitem user "groups" = Next groups
      end.
Proof.
  unfold build_params. intros H.
  destruct (fault col c_load_user_settings); simpl in H; [discriminate H|].
  destruct (Py.get data "params" (VDict ∅)) as [given_v| |] eqn:Hget;
    simpl in H; [|discriminate H..].
  destruct (update_arg (keys_reversed col) given_v) as [[given others]| |] eqn:Hupd;
    simpl in H; [|discriminate H..].
  exists given_v, given, others.
  assert (update (update (user_params col) safe_values) given !! "groups"
          = update (user_params col) given !! "groups") as Hsafe.
  { rewrite !lookup_update. by destruct (given !! "groups"). }
  assert (∃ layered groups,
            match update (update (user_params col) safe_values) given !! "groups"
            with
            | Some _ => Next (update (update (user_params col) safe_values) given)
            | None =>
                (groups <~ getitem user "groups" ;;
                 Next (<["groups":=groups]>
                         (update (update (user_params col) safe_values) given)))%flow
            end = Next layered
            ∧ layered !! "groups" = Some groups
            ∧ match update (user_params col) given !! "groups" with
              | Some g => groups = g
              | None => getitem user "groups" = Next groups
              end) as (layered & groups & Hlayered & Hgroups & Hfrom).
  { rewrite <- Hsafe.
    destruct (update (update (user_params col) safe_values) given !! "groups")
      as [g|] eqn:Hg.
    - by exists (update (update (user_params col) safe_values) given), g.
    - destruct (getitem user "groups") as [g| |]; simpl in H; [|discriminate H..].
      exists (<["groups":=g]> (update (update (user_params col) safe_values) given)), g.
      by simplify_map_eq. }
  rewrite Hlayered in H. simpl in H.
  exists groups. split; [done|]. split; [done|]. split; [|done].
  destruct (Py.min_int _ _) as [priority| |]; simpl in H; [|discriminate H..].
  destruct (getitem user "uname") as [submitter| |]; simpl in H;
    [|discriminate H..].
  set (final := update layered _) in *.
  assert (final !! "groups" = Some groups) as Hfinal.
  { unfold final. rewrite !lookup_update. by simplify_map_eq. }
  destruct (0 <? max_dtl cfg)%Z.
  - destruct (dict_getitem final "ttl") as [ttl0| |]; simpl in H;
      [|discriminate H..].
    destruct (if Py.truthy ttl0 then _ else _) as [ttl| |]; simpl in H;
      [|discriminate H..].
    injection H as <-. by rewrite lookup_insert_ne.
  - by injection H as <-.
Qed.

(** X22.  The groups of an admitted submission are those the [params]
    block of the caller sets, else those of the settings of the user, else
    those of the user.  What the block sets is what [dict.update] takes from
    it: its entries when it is a dictionary, and otherwise the pairs it
    lists. *)
Theorem groups_default_to_the_user (col : Collaborators) (user : value)
    (req : Request) (w w' : World) (r : api_response) :
  ingest_single_file safe_str get_random_id now_as_iso flatten str cfg col user req w
    = (Respond r, w') →
  api_status_code r = 200%Z →
  ∃ (s : Submission) (p : Parsed) (given_v : value) (given : dict)
    (others : list (value * value)) (groups : value),
    ingest w' = ingest w ++ [s]
    ∧ parse_request req = Next p
    ∧ Py.get (data p) "params" (VDict ∅) = Next given_v
    ∧ update_arg (keys_reversed col) given_v = Next (given, others)
    ∧ (∀ d, given_v = VDict d → given = d)
    ∧ params s !! "groups" = Some groups
    ∧ match given !! "groups", user_params col !! "groups" with
      | Some g, _ => groups = g
      | None, Some g => groups = g
      | None, None => getitem user "groups" = Next groups
      end.
Proof.
  intros Hrun Hst.
  destruct (admitted_request _ _ _ _ _ _ _ _ _ _ _ _ Hrun Hst)
    as (s & p & v & extra_meta & built & extracted & fi & al_meta & metadata
        & name & s_params' & Hadm).
  cbv zeta in Hadm.
  destruct Hadm as (Hparse & _ & Hbuild & _ & _ & Hasm & -> & _ & Hingest & _).
  destruct (build_params_groups _ _ _ _ _ Hbuild)
    as (given_v & given & others & groups & Hget & Hupd & Hgroups & Hfrom).
  eexists _, p, given_v, given, others, groups. split; [exact Hingest|].
  cbn [params].
  rewrite (assemble_keeps _ _ _ _ _ _ _ _ _ _ _ _ _ Hasm) by done.
  rewrite lookup_update in Hfrom.
  split; [exact Hparse|]. split; [exact Hget|]. split; [exact Hupd|]. split.
  { intros d Hd. by injection (update_arg_dict _ _ _ Hupd d Hd). }
  split; [exact Hgroups|].
  by destruct (given !! "groups"), (user_params col !! "groups").
Qed.

(** The record the datastore is given. *)
Lemma freshen_record (col : Collaborators) (fi : fileinfo) (s_params : dict)
    (fr : Frame) :
  wp (freshen now_as_iso col fi s_params) fr
     (λ res fr1,
        res = Next () →
        ∃ expiry c12n,
          freshened (world fr1) = freshened (world fr) ++ [(sha256 fi, fi, expiry, c12n)]
          ∧ dict_getitem s_params "classification" = Next c12n
          ∧ ∀ ttl days,
              s_params !! "ttl" = Some ttl → Py.truthy ttl = true →
              Py.as_int ttl = Some days →
              expiry = VStr (now_as_iso (Some (days * 24 * 60 * 60)%Z))).
Proof.
  intros r fr' H. unfold freshen in H. run_phase H.
  all: intros Hres; try discriminate Hres.
  all: eexists _, _; cbn; split; [reflexivity|split; [done|]].
  all: intros ttl days Httl Htruthy Hdays.
  all: repeat match goal with
         | H : context [default VNone _] |- _ =>
             rewrite Httl in H; cbn [default from_option id] in H
         end.
  all: congruence.
Qed.

Lemma decode_and_store_freshened (col : Collaborators) (out_file : string)
    (fi : fileinfo) (fr : Frame) :
  wp (decode_and_store col out_file fi) fr
     (λ res fr1, freshened (world fr1) = freshened (world fr)).
Proof.
  intros r fr' H. unfold decode_and_store, exists_ in H. run_phase H.
  all: done.
Qed.

Lemma build_params_ttl (col : Collaborators) (user data generate_alert : value)
    (s_params : dict) :
  (0 < max_dtl cfg)%Z →
  build_params cfg col user data generate_alert = Next s_params →
  ∃ ttl days,
    s_params !! "ttl" = Some ttl
    ∧ Py.as_int ttl = Some days
    ∧ Py.truthy ttl = true
    ∧ (days ≤ max_dtl cfg)%Z.
Proof.
  unfold build_params. intros Hmax H.
  destruct (fault col c_load_user_settings); simpl in H; [discriminate H|].
  destruct (Py.get data "params" (VDict ∅)) as [given_v| |]; simpl in H;
    [|discriminate H..].
  destruct (update_arg (keys_reversed col) given_v) as [[given others]| |];
    simpl in H; [|discriminate H..].
  destruct (match _ !! "groups" with Some _ => _ | None => _ end)
    as [layered| |]; simpl in H; [|discriminate H..].
  destruct (Py.min_int _ _) as [priority| |]; simpl in H; [|discriminate H..].
  destruct (getitem user "uname") as [submitter| |]; simpl in H;
    [|discriminate H..].
  set (final := update layered _) in *.
  assert ((0 <? max_dtl cfg)%Z = true) as Hpos by by apply Z.ltb_lt.
  rewrite Hpos in H.
  destruct (dict_getitem final "ttl") as [ttl0| |]; simpl in H;
    [|discriminate H..].
  destruct (Py.truthy ttl0) eqn:Htruthy.
  - unfold Py.min_int in H.
    destruct (Py.as_int ttl0) as [z|] eqn:Hz; simpl in H; [|discriminate H].
    injection H as <-. rewrite lookup_insert_eq.
    destruct (max_dtl cfg <? z)%Z eqn:Hlt.
    + exists (VInt (max_dtl cfg)), (max_dtl cfg). cbn.
      repeat split; [|lia]. apply negb_true_iff, Z.eqb_neq. lia.
    + exists ttl0, z. apply Z.ltb_ge in Hlt. by repeat split.
  - simpl in H. injection H as <-. rewrite lookup_insert_eq.
    exists (VInt (max_dtl cfg)), (max_dtl cfg). cbn.
    repeat split; [|lia]. apply negb_true_iff, Z.eqb_neq. lia.
Qed.

(** The datastore records of a successful run. *)
Lemma admission_freshens (col : Collaborators) (user : value) (out_dir : string)
    (req : Request) (fr : Frame) :
  wp (admission safe_str get_random_id now_as_iso flatten str cfg col user out_dir req)
     fr
     (λ res fr1,
        ∀ r, res = Respond r → api_status_code r = 200%Z →
          ∃ p v built expiry c12n,
            parse_request req = Next p
            ∧ validate safe_str p = Next v
            ∧ build_params cfg col user (data p) (generate_alert v) = Next built
            ∧ freshened (world fr1)
              = freshened (world fr)
                ++ [(sha256 (decode_file col (identified col)).1.2,
                     (decode_file col (identified col)).1.2, expiry, c12n)]
            ∧ dict_getitem built "classification" = Next c12n
            ∧ ∀ ttl days,
                built !! "ttl" = Some ttl → Py.truthy ttl = true →
                Py.as_int ttl = Some days →
                expiry = VStr (now_as_iso (Some (days * 24 * 60 * 60)%Z))).
Proof.
  unfold admission.
  apply wp_bind, wp_pure.
  destruct (parse_request req) as [p|x|e] eqn:Hparse;
    [|intros r [= <-] Hst; apply parse_request_rejects in Hparse; lia|done].
  apply wp_bind, wp_pure.
  destruct (validate safe_str p) as [v|x|e] eqn:Hvalid;
    [|intros r [= <-] Hst; apply validate_rejects in Hvalid; lia|done].
  eapply wp_bind, wp_mono; [apply load_file_stores|].
  intros [[out_file extra_meta]|x|e] fr1 (Hsame1 & Hrej & _);
    [|intros r [= <-] Hst; by destruct (Hrej x)|done].
  destruct Hsame1 as (_ & _ & Hfr1 & _).
  apply wp_bind, wp_pure.
  destruct (build_params cfg col user (data p) (generate_alert v))
    as [built|x|e] eqn:Hbuild;
    [|by apply build_params_no_answer in Hbuild|done].
  apply wp_bind, wp_calling; [done|intros _].
  apply wp_bind, wp_pure.
  destruct (size_gate cfg (identified col) built) as [[]|x|e] eqn:Hgate;
    [|intros r [= <-] Hst; apply size_gate_rejects in Hgate; lia|done].
  eapply wp_bind.
  intros res fr2 Hrun2.
  pose proof (decode_and_store_stores _ _ _ _ _ _ Hrun2) as Hdec.
  pose proof (decode_and_store_freshened _ _ _ _ _ _ Hrun2) as Hfr2.
  clear Hrun2. cbn beta in Hfr2.
  destruct res as [[fi al_meta]|x|e]; [|done..].
  destruct Hdec as (extracted & Hdec & _).
  eapply wp_bind.
  intros res fr3 Hrun3.
  pose proof (freshen_stores _ _ _ _ _ _ _ Hrun3) as Hno3.
  pose proof (freshen_record _ _ _ _ _ _ Hrun3) as Hrec.
  clear Hrun3. cbn beta in Hrec.
  destruct res as [[]|x|e]; [|done..].
  destruct (Hrec eq_refl) as (expiry & c12n & Hfr3 & Hc12n & Hexpiry).
  clear Hrec Hno3.
  rewrite Hfr2, Hfr1 in Hfr3. clear Hfr1 Hfr2.
  rewrite Hdec. cbn [fst snd].
  intros res fr' H. revert Hfr3 Hparse Hvalid Hbuild Hc12n Hexpiry.
  run_phase H; intros Hfr3 Hparse Hvalid Hbuild Hc12n Hexpiry.
  all: intros answer Hanswer Hst; simplify_eq.
  all: try match goal with
         | H : assemble _ _ _ _ _ _ _ _ _ = Respond _ |- _ =>
             by apply assemble_no_answer in H
         | H : new_submission _ _ = Respond _ |- _ =>
             apply new_submission_rejects in H; lia
         end.
  all: exists p, v, built, expiry, c12n; cbn.
  all: by repeat split.
Qed.

(** X23.  An admitted request writes one record in the datastore, for the
    hash of the decoded content, with the classification of the parameters;
    when the deployment sets a maximum number of days to live, the record
    always has an expiry date, that many days from now at most. *)
Theorem expiry_is_set_under_a_maximum (col : Collaborators) (user : value)
    (req : Request) (w w' : World) (r : api_response) :
  ingest_single_file safe_str get_random_id now_as_iso flatten str cfg col user req w
    = (Respond r, w') →
  api_status_code r = 200%Z →
  (0 < max_dtl cfg)%Z →
  ∃ (s : Submission) (c12n : value) (days : Z),
    ingest w' = ingest w ++ [s]
    ∧ params s !! "classification" = Some c12n
    ∧ (days ≤ max_dtl cfg)%Z
    ∧ freshened w'
      = freshened w
        ++ [(sha256 (decode_file col (identified col)).1.2,
             (decode_file col (identified col)).1.2,
             VStr (now_as_iso (Some (days * 24 * 60 * 60)%Z)), c12n)].
Proof.
  intros Hrun Hst Hmax.
  destruct (admitted_request _ _ _ _ _ _ _ _ _ _ _ _ Hrun Hst)
    as (s & p & v & extra_meta & built & extracted & fi & al_meta & metadata
        & name & s_params' & Hadm).
  cbv zeta in Hadm.
  destruct Hadm as (Hparse & Hvalid & Hbuild & _ & _ & Hasm & -> & _ & Hingest & _).
  unfold ingest_single_file in Hrun.
  destruct (try_finally _ _ _) as [res fr'] eqn:Htry. simplify_eq.
  unfold try_finally in Htry.
  destruct (admission _ _ _ _ _ _ _ _ _ _ _) as [res fr1] eqn:Hrun. simplify_eq.
  destruct (admission_freshens _ _ _ _ _ _ _ Hrun _ eq_refl Hst)
    as (p' & v' & built' & expiry & c12n & Hparse' & Hvalid' & Hbuild' & Hfr
        & Hc12n & Hexpiry).
  rewrite Hparse in Hparse'. injection Hparse' as <-.
  rewrite Hvalid in Hvalid'. injection Hvalid' as <-.
  rewrite Hbuild in Hbuild'. injection Hbuild' as <-.
  destruct (cleanup_stores
              (OsPath.join (TEMP_SUBMIT_DIR cfg) (get_random_id (ids_drawn w))) fr1)
    as (_ & _ & Hfr' & _).
  destruct (build_params_ttl _ _ _ _ _ Hmax Hbuild)
    as (ttl & days & Httl & Hdays & Htruthy & Hle).
  eexists _, c12n, days. split; [exact Hingest|]. cbn [params].
  rewrite (assemble_keeps _ _ _ _ _ _ _ _ _ _ _ _ _ Hasm) by done.
  rewrite Hfr', Hfr, (Hexpiry _ _ Httl Htruthy Hdays).
  repeat split; try done.
  unfold dict_getitem in Hc12n. by destruct (built !! "classification"); simplify_eq.
Qed.

End PipelineMore.

(** *** The samples *)

(** A request for a file of no byte. *)
Lemma empty_file_changes_nothing_witness :
  kept Samples.stocked
    (snd (Samples.run Samples.working_empty (Samples.by_hash "h0" ∅) Samples.stocked)).
Proof.
  apply (empty_file_changes_nothing Samples.safe_str Samples.get_random_id
           Samples.now_as_iso Samples.flatten Samples.str Samples.cfg
           Samples.working_empty Samples.analyst (Samples.by_hash "h0" ∅)
           Samples.stocked).
  reflexivity.
Defined.

(** A request that asks to be submitted as [root], with 100000 extracted
    files. *)
Lemma forced_parameters_witness :
  ∃ (s : Submission) (p : Parsed) (submitter : value) (alert : bool),
    ingest (snd (Samples.run Samples.working
                   (Samples.by_hash "h1"
                      (<["submitter" := VStr "root"]>
                         (<["max_extracted" := VInt 100000]> ∅)))
                   Samples.stocked))
    = ingest Samples.stocked ++ [s]
    ∧ parse_request (Samples.by_hash "h1"
                       (<["submitter" := VStr "root"]>
                          (<["max_extracted" := VInt 100000]> ∅))) = Next p
    ∧ getitem Samples.analyst "uname" = Next submitter
    ∧ Py.get (data p) "generate_alert" (VBool false) = Next (VBool alert)
    ∧ params s !! "submitter" = Some submitter
    ∧ params s !! "generate_alert" = Some (VBool alert)
    ∧ params s !! "max_extracted" = Some (VInt (default_max_extracted Samples.cfg))
    ∧ params s !! "max_supplementary"
      = Some (VInt (default_max_supplementary Samples.cfg)).
Proof.
  apply (forced_parameters Samples.safe_str Samples.get_random_id
           Samples.now_as_iso Samples.flatten Samples.str Samples.cfg
           Samples.working Samples.analyst
           (Samples.by_hash "h1"
              (<["submitter" := VStr "root"]> (<["max_extracted" := VInt 100000]> ∅)))
           Samples.stocked
           _ (api_ok (VDict (<["ingest_id" := VStr "id-1"]> ∅)))).
  - vm_compute. reflexivity.
  - reflexivity.
Defined.

Lemma description_is_never_empty_witness :
  ∃ (s : Submission) (p : Parsed) (given_v : value) (given : dict)
    (others : list (value * value)) (in_force type name description : value),
    ingest (snd (Samples.run Samples.working (Samples.by_hash "h1" ∅) Samples.stocked))
    = ingest Samples.stocked ++ [s]
    ∧ parse_request (Samples.by_hash "h1" ∅) = Next p
    ∧ Py.get (data p) "params" (VDict ∅) = Next given_v
    ∧ update_arg (keys_reversed Samples.working) given_v = Next (given, others)
    ∧ (∀ d, given_v = VDict d → given = d)
    ∧ match given !! "description" with
      | Some d => Some d
      | None => user_params Samples.working !! "description"
      end = Some in_force
    ∧ params s !! "type" = Some type
    ∧ file_name <$> files s = [name]
    ∧ params s !! "description" = Some description
    ∧ description
      = (if Py.truthy in_force then in_force
         else VStr ("[" +:+ Samples.str type +:+ "] Inspection of file: "
                    +:+ Samples.str name))
    ∧ Py.truthy description = true.
Proof.
  apply (description_is_never_empty Samples.safe_str Samples.get_random_id
           Samples.now_as_iso Samples.flatten Samples.str Samples.cfg
           Samples.working Samples.analyst (Samples.by_hash "h1" ∅) Samples.stocked
           _ (api_ok (VDict (<["ingest_id" := VStr "id-1"]> ∅)))).
  - vm_compute. reflexivity.
  - reflexivity.
Defined.

(** A file the file store does not hold yet. *)
Lemma published_content_is_stored_witness :
  ∃ (s : Submission) (entry : file_entry),
    ingest (snd (Samples.run Samples.working
                   (Samples.upload_request (Json (VDict (<["name" := VStr "a.exe"]> ∅))))
                   Samples.bare))
    = ingest Samples.bare ++ [s]
    ∧ files s = [entry]
    ∧ file_sha256 entry
      = sha256 (decode_file Samples.working (identified Samples.working)).1.2
    ∧ file_size entry
      = size (decode_file Samples.working (identified Samples.working)).1.2
    ∧ file_sha256 entry
      ∈ filestore (snd (Samples.run Samples.working
                          (Samples.upload_request
                             (Json (VDict (<["name" := VStr "a.exe"]> ∅))))
                          Samples.bare)).
Proof.
  apply (published_content_is_stored Samples.safe_str Samples.get_random_id
           Samples.now_as_iso Samples.flatten Samples.str Samples.cfg
           Samples.working Samples.analyst
           (Samples.upload_request (Json (VDict (<["name" := VStr "a.exe"]> ∅))))
           Samples.bare
           _ (api_ok (VDict (<["ingest_id" := VStr "id-1"]> ∅)))).
  - vm_compute. reflexivity.
  - reflexivity.
Defined.

(** A request that names a notification queue and a threshold. *)
Lemma notification_is_validated_witness :
  ∃ (s : Submission) (p : Parsed) (queue threshold : value),
    ingest (snd (Samples.run Samples.working
                   (Samples.json_request
                      (<["sha256" := VStr "h1"]>
                         (<["notification_queue" := VStr "q1"]>
                            (<["notification_threshold" := VInt 5]> ∅))))
                   Samples.stocked))
    = ingest Samples.stocked ++ [s]
    ∧ parse_request (Samples.json_request
                       (<["sha256" := VStr "h1"]>
                          (<["notification_queue" := VStr "q1"]>
                             (<["notification_threshold" := VInt 5]> ∅)))) = Next p
    ∧ Py.get (data p) "notification_queue" VNone = Next queue
    ∧ Py.get (data p) "notification_threshold" VNone = Next threshold
    ∧ (Py.is_int threshold = true ∨ Py.truthy threshold = false)
    ∧ notification s
      = if Py.truthy queue
        then <["queue" := queue]> (<["threshold" := threshold]> ∅)
        else ∅.
Proof.
  apply (notification_is_validated Samples.safe_str Samples.get_random_id
           Samples.now_as_iso Samples.flatten Samples.str Samples.cfg
           Samples.working Samples.analyst
           (Samples.json_request
              (<["sha256" := VStr "h1"]>
                 (<["notification_queue" := VStr "q1"]>
                    (<["notification_threshold" := VInt 5]> ∅))))
           Samples.stocked
           _ (api_ok (VDict (<["ingest_id" := VStr "id-1"]> ∅)))).
  - vm_compute. reflexivity.
  - reflexivity.
Defined.

(** A hash the file store does not hold. *)
Lemma unknown_hash_is_not_found_witness :
  fst (Samples.run Samples.working (Samples.by_hash "h9" ∅) Samples.stocked)
  = Respond (make_api_response (VDict ∅) "SHA256 does not exist in our datastore" 404)
  ∧ kept Samples.stocked
      (snd (Samples.run Samples.working (Samples.by_hash "h9" ∅) Samples.stocked)).
Proof.
  eapply (unknown_hash_is_not_found Samples.safe_str Samples.get_random_id
            Samples.now_as_iso Samples.flatten Samples.str Samples.cfg
            Samples.working Samples.analyst (Samples.by_hash "h9" ∅)
            Samples.stocked _ _ "h9").
  - reflexivity.
  - reflexivity.
  - reflexivity.
  - reflexivity.
  - discriminate.
  - reflexivity.
  - apply (bool_decide_unpack _). vm_compute. exact I.
Defined.

(** A request that has a name and nothing to scan. *)
Lemma no_source_is_refused_witness :
  fst (Samples.run Samples.working
         (Samples.json_request (<["name" := VStr "a.exe"]> ∅)) Samples.stocked)
  = Respond (make_api_response (VDict ∅)
               "Missing file to scan. No binary, sha256 or url provided." 400)
  ∧ kept Samples.stocked
      (snd (Samples.run Samples.working
              (Samples.json_request (<["name" := VStr "a.exe"]> ∅)) Samples.stocked)).
Proof.
  eapply (no_source_is_refused Samples.safe_str Samples.get_random_id
            Samples.now_as_iso Samples.flatten Samples.str Samples.cfg
            Samples.working Samples.analyst
            (Samples.json_request (<["name" := VStr "a.exe"]> ∅)) Samples.stocked).
  - reflexivity.
  - reflexivity.
  - reflexivity.
  - reflexivity.
  - reflexivity.
Defined.

(** A fetch that is refused for the size of the file, where URL
    submissions are on. *)
Lemma url_submission_refused_witness :
  ∃ r,
    fst (ingest_single_file Samples.safe_str Samples.get_random_id
           Samples.now_as_iso Samples.flatten Samples.str Samples.cfg_urls
           Samples.failing_fetch Samples.analyst
           (Samples.by_url "http://example.com/a.exe") Samples.stocked)
    = Respond r
    ∧ api_status_code r = 400%Z
    ∧ api_error_message r
      = (if allow_url_submissions Samples.cfg_urls
         then match fault Samples.failing_fetch c_safe_download with
              | Some InvalidUrlException => "Url provided is invalid."
              | Some ForbiddenLocation => "Hostname in this URL cannot be resolved."
              | _ => "File too big to be scanned."
              end
         else "URL submissions are disabled in this system")
    ∧ kept Samples.stocked
        (snd (ingest_single_file Samples.safe_str Samples.get_random_id
                Samples.now_as_iso Samples.flatten Samples.str Samples.cfg_urls
                Samples.failing_fetch Samples.analyst
                (Samples.by_url "http://example.com/a.exe") Samples.stocked)).
Proof.
  eapply (url_submission_refused Samples.safe_str Samples.get_random_id
            Samples.now_as_iso Samples.flatten Samples.str Samples.cfg_urls
            Samples.failing_fetch Samples.analyst
            (Samples.by_url "http://example.com/a.exe") Samples.stocked).
  - reflexivity.
  - reflexivity.
  - reflexivity.
  - reflexivity.
  - reflexivity.
  - right. constructor.
Defined.

(** A file that wraps another one, whose metadata has an [ingest_id]. *)
Lemma metadata_of_admitted_witness :
  ∃ (s : Submission) (p : Parsed) (v : Validated) (al_meta : dict),
    ingest (snd (Samples.run Samples.unwrapping (Samples.by_hash "h1" ∅)
                   Samples.stocked))
    = ingest Samples.stocked ++ [s]
    ∧ parse_request (Samples.by_hash "h1" ∅) = Next p
    ∧ validate Samples.safe_str p = Next v
    ∧ al_meta = (decode_file Samples.unwrapping (identified Samples.unwrapping)).2
    ∧ api_ok (VDict (<["ingest_id" := VStr "id-1"]> ∅))
      = api_ok (VDict (<["ingest_id" := VStr (sid s)]> ∅))
    ∧ metadata s !! "ingest_id"
      = Some (default (VStr (sid s)) (al_meta !! "ingest_id"))
    ∧ is_Some (metadata s !! "type")
    ∧ is_Some (metadata s !! "ts")
    ∧ (binary_truthy (binary p) = false → Py.truthy (sha256_in p) = false →
       metadata s !! "submitted_url" = Some (url p))
    ∧ map file_name (files s) = [default (VStr (safe_name v)) (al_meta !! "name")].
Proof.
  apply (metadata_of_admitted Samples.safe_str Samples.get_random_id
           Samples.now_as_iso Samples.flatten Samples.str Samples.cfg
           Samples.unwrapping Samples.analyst (Samples.by_hash "h1" ∅)
           Samples.stocked
           _ (api_ok (VDict (<["ingest_id" := VStr "id-1"]> ∅)))).
  - vm_compute. reflexivity.
  - reflexivity.
Defined.

Lemma groups_default_to_the_user_witness :
  ∃ (s : Submission) (p : Parsed) (given_v : value) (given : dict)
    (others : list (value * value)) (groups : value),
    ingest (snd (Samples.run Samples.working (Samples.by_hash "h1" ∅) Samples.stocked))
    = ingest Samples.stocked ++ [s]
    ∧ parse_request (Samples.by_hash "h1" ∅) = Next p
    ∧ Py.get (data p) "params" (VDict ∅) = Next given_v
    ∧ update_arg (keys_reversed Samples.working) given_v = Next (given, others)
    ∧ (∀ d, given_v = VDict d → given = d)
    ∧ params s !! "groups" = Some groups
    ∧ match given !! "groups", user_params Samples.working !! "groups" with
      | Some g, _ => groups = g
      | None, Some g => groups = g
      | None, None => getitem Samples.analyst "groups" = Next groups
      end.
Proof.
  apply (groups_default_to_the_user Samples.safe_str Samples.get_random_id
           Samples.now_as_iso Samples.flatten Samples.str Samples.cfg
           Samples.working Samples.analyst (Samples.by_hash "h1" ∅) Samples.stocked
           _ (api_ok (VDict (<["ingest_id" := VStr "id-1"]> ∅)))).
  - vm_compute. reflexivity.
  - reflexivity.
Defined.

Lemma expiry_is_set_under_a_maximum_witness :
  ∃ (s : Submission) (c12n : value) (days : Z),
    ingest (snd (Samples.run Samples.working (Samples.by_hash "h1" ∅) Samples.stocked))
    = ingest Samples.stocked ++ [s]
    ∧ params s !! "classification" = Some c12n
    ∧ (days ≤ max_dtl Samples.cfg)%Z
    ∧ freshened (snd (Samples.run Samples.working (Samples.by_hash "h1" ∅)
                        Samples.stocked))
      = freshened Samples.stocked
        ++ [(sha256 (decode_file Samples.working (identified Samples.working)).1.2,
             (decode_file Samples.working (identified Samples.working)).1.2,
             VStr (Samples.now_as_iso (Some (days * 24 * 60 * 60)%Z)), c12n)].
Proof.
  apply (expiry_is_set_under_a_maximum Samples.safe_str Samples.get_random_id
           Samples.now_as_iso Samples.flatten Samples.str Samples.cfg
           Samples.working Samples.analyst (Samples.by_hash "h1" ∅) Samples.stocked
           _ (api_ok (VDict (<["ingest_id" := VStr "id-1"]> ∅)))).
  - vm_compute. reflexivity.
  - reflexivity.
  - reflexivity.
Defined.

End IngestMore.
